(** * Message analysis and task dispatch: a shallow embedding

    The development follows the Python sources of the repository:

    - [simple_analyzer.py]   the rule-based classifier ([SimpleMessageAnalyzer]),
    - [llama_analyzer.py]    the AI-backed classifier ([LlamaMessageAnalyzer]),
    - [message_analyzer.py]  the strategy-selecting wrapper ([MessageAnalyzer]),
    - [task_manager.py]      the task backends and the [TaskOrchestrator],
    - [mention_tracker.py]   the history of mentions ([handle_message]),
    - [slack_bot.py]         the handlers of the user preferences.

    Python values are modelled as the code uses them: [str] as a list of
    characters, [float] as an IEEE-754 binary64 value, [datetime] as its
    calendar fields, dictionaries read from JSON as association lists, and
    exceptions as an explicit error result. *)

From Stdlib Require Import ZArith List Ascii String Bool Lia.
From Stdlib Require Import Floats.SpecFloat.
Import ListNotations.

Set Implicit Arguments.
Set Warnings "-register-all".

(* ================================================================== *)
(** * Python strings *)

(** A Python [str] restricted to the code points below 256 (Latin-1): one
    [ascii] per character.  The character classes below are those of
    CPython for these code points. *)
Module PyStr.

Definition str := list ascii.

Definition lit (s : string) : str := list_ascii_of_string s.

Definition code (c : ascii) : N := N_of_ascii c.

Definition in_range (lo hi n : N) : bool := (N.leb lo n && N.leb n hi)%bool.

(** [c.lower()] for a single character. *)
Definition lower_char (c : ascii) : ascii :=
  let n := code c in
  if (in_range 65 90 n || (in_range 192 222 n && negb (N.eqb n 215)))%bool
  then ascii_of_N (n + 32)
  else c.

(** [s.lower()] *)
Definition lower (s : str) : str := map lower_char s.

(** [c.isspace()] *)
Definition isspace (c : ascii) : bool :=
  let n := code c in
  (in_range 9 13 n || in_range 28 32 n || N.eqb n 133 || N.eqb n 160)%bool.

(** [c.isdigit()] as the regular expression class [\d] sees it. *)
Definition isdigit (c : ascii) : bool := in_range 48 57 (code c).

(** The regular expression class [\w]: alphanumeric or underscore. *)
Definition isword (c : ascii) : bool :=
  let n := code c in
  (in_range 48 57 n || in_range 65 90 n || N.eqb n 95 || in_range 97 122 n
   || N.eqb n 170 || in_range 178 179 n || N.eqb n 181 || in_range 185 186 n
   || in_range 188 190 n || in_range 192 214 n || in_range 216 246 n
   || in_range 248 255 n)%bool.

Fixpoint lstrip (s : str) : str :=
  match s with
  | [] => []
  | c :: r => if isspace c then lstrip r else s
  end.

Definition rstrip (s : str) : str := rev (lstrip (rev s)).

(** [s.strip()] *)
Definition strip (s : str) : str := rstrip (lstrip s).

Definition eqc (a b : ascii) : bool := Ascii.eqb a b.

(** [s.startswith(p)]; also returns what follows the prefix. *)
Fixpoint strip_prefix (p s : str) : option str :=
  match p, s with
  | [], _ => Some s
  | _ :: _, [] => None
  | a :: p', b :: s' => if eqc a b then strip_prefix p' s' else None
  end.

Definition startswith (p s : str) : bool :=
  match strip_prefix p s with Some _ => true | None => false end.

(** [s.endswith(p)] *)
Definition endswith (p s : str) : bool := startswith (rev p) (rev s).

(** [sub in s] *)
Fixpoint contains (sub s : str) : bool :=
  (startswith sub s
   || match s with [] => false | _ :: r => contains sub r end)%bool.

(** [any(k in s for k in ks)] *)
Definition any_in (ks : list str) (s : str) : bool :=
  existsb (fun k => contains k s) ks.

(** Split at the first occurrence of the separator character:
    the text before it and, when the separator occurs, the text after it. *)
Fixpoint break_at (sep : ascii) (s : str) : str * option str :=
  match s with
  | [] => ([], None)
  | c :: r =>
      if eqc c sep then ([], Some r)
      else let (a, b) := break_at sep r in (c :: a, b)
  end.

(** [s.split(sep)] for a one-character separator. *)
Fixpoint split_fuel (fuel : nat) (sep : ascii) (s : str) : list str :=
  match break_at sep s with
  | (a, None) => [a]
  | (a, Some r) =>
      match fuel with
      | O => [a]
      | S f => a :: split_fuel f sep r
      end
  end.

Definition split (sep : ascii) (s : str) : list str :=
  split_fuel (List.length s) sep s.

(** [s.rsplit(sep, 1)] for a one-character separator. *)
Definition rsplit1 (sep : ascii) (s : str) : list str :=
  match break_at sep (rev s) with
  | (a, None) => [rev a]
  | (a, Some b) => [rev b; rev a]
  end.

(** [l[0]] on a list of strings known to be non-empty. *)
Definition item0 (l : list str) : str := hd [] l.

(** [s[:n]] *)
Definition slice_to (n : nat) (s : str) : str := firstn n s.

(** [a == b] *)
Fixpoint str_eqb (a b : str) : bool :=
  match a, b with
  | [], [] => true
  | x :: a', y :: b' => (eqc x y && str_eqb a' b')%bool
  | _, _ => false
  end.

(** [x in l] for a list of strings. *)
Definition mem (x : str) (l : list str) : bool := existsb (str_eqb x) l.

(** The double quote character, for texts that contain it. *)
Definition dquote : ascii := ascii_of_nat 34.

(** [int(s)] for a string of at most 4300 decimal digits.  (An interpreter
    that limits the number of digits [int] accepts, by default to 4300,
    raises [ValueError] on a longer string, leading zeros counted.) *)
Definition digit_val (c : ascii) : Z := Z.of_N (code c) - 48.

Definition int_of_digits (s : str) : Z :=
  fold_left (fun acc c => 10 * acc + digit_val c)%Z s 0%Z.

(** The length of the longest run of decimal digits in [s]; [run] is the
    length of the run that ends where [s] starts. *)
Fixpoint longest_digit_run (run : nat) (s : str) : nat :=
  match s with
  | [] => run
  | c :: r =>
      if isdigit c then longest_digit_run (S run) r
      else Nat.max run (longest_digit_run 0 r)
  end.

(** No number written in [s] has more than 4300 digits: [int] accepts
    every run of digits of [s]. *)
Definition int_readable (s : str) : bool :=
  Nat.leb (longest_digit_run 0 s) 4300.

End PyStr.

(* ================================================================== *)
(** * The regular expressions of the sources *)

(** Each search of the sources is written out as the matcher of its
    pattern, with [re.search] semantics: the leftmost match, greedy
    repetition, alternatives tried in order. *)
Module Re.
Import PyStr.

Definition opt_word (o : option ascii) : bool :=
  match o with Some c => isword c | None => false end.

(** [\b] between the character before and the character after a position. *)
Definition boundary (prev next : option ascii) : bool :=
  xorb (opt_word prev) (opt_word next).

(** The last character consumed by a literal, [prev] when it is empty. *)
Definition last_of (prev : option ascii) (w : str) : option ascii :=
  match rev w with [] => prev | c :: _ => Some c end.

(** Does [\bW\b] match at the start of [s], preceded by [prev]? *)
Definition word_at (prev : option ascii) (w s : str) : bool :=
  (boundary prev (hd_error s)
   && match strip_prefix w s with
      | Some rest => boundary (last_of prev w) (hd_error rest)
      | None => false
      end)%bool.

Fixpoint search_word_from (prev : option ascii) (w s : str) : bool :=
  (word_at prev w s
   || match s with
      | [] => false
      | c :: r => search_word_from (Some c) w r
      end)%bool.

(** [re.search(r'\bW\b', s)] is not [None], for a literal [W]. *)
Definition search_word (w s : str) : bool := search_word_from None w s.

(** Greedy [\d+]: the longest run of digits, and the rest. *)
Fixpoint span_digits (s : str) : str * str :=
  match s with
  | c :: r => if isdigit c then let (d, t) := span_digits r in (c :: d, t)
              else ([], s)
  | [] => ([], [])
  end.

Inductive unit_name := Hour | Day | Week.

(** [(hours?|days?|weeks?)] at the start of [s]: which alternative matched.
    The optional [s] does not change the unit once [rstrip('s')] is applied. *)
Definition unit_at (s : str) : option unit_name :=
  if startswith (lit "hour") s then Some Hour
  else if startswith (lit "day") s then Some Day
  else if startswith (lit "week") s then Some Week
  else None.

(** [in (\d+) (hours?|days?|weeks?)] at the start of [s]. *)
Definition in_at (s : str) : option (Z * unit_name) :=
  match strip_prefix (lit "in ") s with
  | None => None
  | Some r =>
      match span_digits r with
      | ([], _) => None
      | (ds, sp :: t) =>
          if eqc sp " "%char then
            match unit_at t with
            | Some u => Some (int_of_digits ds, u)
            | None => None
            end
          else None
      | (_, []) => None
      end
  end.

(** [re.search(r'in (\d+) (hours?|days?|weeks?)', s)]: the amount, already
    through [int], and the unit, already through [rstrip('s')]. *)
Fixpoint search_in (s : str) : option (Z * unit_name) :=
  match in_at s with
  | Some m => Some m
  | None => match s with [] => None | _ :: r => search_in r end
  end.

Definition is_sep (c : ascii) : bool := (eqc c "/"%char || eqc c "-"%char)%bool.

(** [[/-](\d{1,2})] at the start of [s]: the second group, taken greedily. *)
Definition sep_day_at (s : str) : option str :=
  match s with
  | c :: d1 :: d2 :: _ =>
      if (is_sep c && isdigit d1)%bool
      then Some (if isdigit d2 then [d1; d2] else [d1])
      else None
  | c :: d1 :: [] => if (is_sep c && isdigit d1)%bool then Some [d1] else None
  | _ => None
  end.

(** [(\d{1,2})[/-](\d{1,2})] at the start of [s]: two digits first, then one. *)
Definition date_at (s : str) : option (str * str) :=
  match s with
  | d1 :: r =>
      if isdigit d1 then
        let two :=
          match r with
          | d2 :: r2 =>
              if isdigit d2 then
                match sep_day_at r2 with
                | Some g2 => Some ([d1; d2], g2)
                | None => None
                end
              else None
          | [] => None
          end in
        match two with
        | Some m => Some m
        | None =>
            match sep_day_at r with
            | Some g2 => Some ([d1], g2)
            | None => None
            end
        end
      else None
  | [] => None
  end.

(** [re.search(r'(\d{1,2})[/-](\d{1,2})', s)]: the two groups. *)
Fixpoint search_date (s : str) : option (str * str) :=
  match date_at s with
  | Some m => Some m
  | None => match s with [] => None | _ :: r => search_date r end
  end.

(** The text up to and including the last ["}"], if there is one. *)
Fixpoint upto_last_close (s : str) : option str :=
  match s with
  | [] => None
  | c :: r =>
      match upto_last_close r with
      | Some m => Some (c :: m)
      | None => if eqc c "}"%char then Some [c] else None
      end
  end.

(** [re.search(r'\{.*\}', s, re.DOTALL)]: from the first ["{"] to the last
    ["}"] after it. *)
Fixpoint search_braces (s : str) : option str :=
  match s with
  | [] => None
  | c :: r =>
      if eqc c "{"%char then
        match upto_last_close r with
        | Some m => Some (c :: m)
        | None => None
        end
      else search_braces r
  end.

End Re.

(* ================================================================== *)
(** * Python floats *)

(** A Python [float] is an IEEE-754 binary64 value; arithmetic rounds to
    nearest even, comparisons with a NaN are false. *)
Module PyFloat.

Definition float := spec_float.

Definition prec : Z := 53.
Definition emax : Z := 1024.

Definition add : float -> float -> float := SFadd prec emax.
Definition sub : float -> float -> float := SFsub prec emax.
Definition mul : float -> float -> float := SFmul prec emax.
Definition ltb : float -> float -> bool := SFltb.
Definition leb : float -> float -> bool := SFleb.

(** [float(n)] for an integer that fits. *)
Definition of_Z (n : Z) : float := binary_normalize prec emax n 0 false.

(** The float literals of the sources, as the binary64 values they denote. *)
Definition f0_0 : float := S754_zero false.
Definition f1_0 : float := S754_finite false 4503599627370496 (-52).
Definition f0_3 : float := S754_finite false 5404319552844595 (-54).
Definition f0_15 : float := S754_finite false 5404319552844595 (-55).
Definition f0_9 : float := S754_finite false 8106479329266893 (-53).
Definition f0_7 : float := S754_finite false 6305039478318694 (-53).
Definition f0_8 : float := S754_finite false 7205759403792794 (-53).
Definition f0_5 : float := S754_finite false 4503599627370496 (-53).

(** [min(a, b)]: the first argument unless the second is smaller. *)
Definition min2 (a b : float) : float := if ltb b a then b else a.

(** [max(a, b)]: the first argument unless the second is greater. *)
Definition max2 (a b : float) : float := if ltb a b then b else a.

(** [0.0 <= c <= 1.0] *)
Definition in_unit (c : float) : bool := (leb f0_0 c && leb c f1_0)%bool.

End PyFloat.

(* ================================================================== *)
(** * Exceptions *)

Module Exn.
Import PyStr.

Inductive exn_class :=
| ValueError | OverflowError | TypeError | AttributeError | KeyError
| JSONDecodeError | ConnectionError | PlainException.

(** A raised exception: its class and [str(e)]. *)
Record exn := mk_exn { cls : exn_class; msg : str }.

Inductive result (A : Type) :=
| Return (a : A)
| Raise (e : exn).

Arguments Return {A} a.
Arguments Raise {A} e.

Definition bind {A B} (r : result A) (k : A -> result B) : result B :=
  match r with
  | Return a => k a
  | Raise e => Raise e
  end.

Definition is_value_error (e : exn) : bool :=
  match cls e with ValueError => true | _ => false end.

Definition is_json_error (e : exn) : bool :=
  match cls e with JSONDecodeError => true | _ => false end.

End Exn.

Notation "x <- r ;; k" := (Exn.bind r (fun x => k))
  (at level 61, r at next level, right associativity).

(* ================================================================== *)
(** * Dates and times *)

(** [datetime.datetime] holds calendar fields; the ordinal of a date counts
    days from 0001-01-01 as day 1.  The time of day is kept in microseconds
    since midnight. *)
Module PyDate.
Import PyStr Exn.
Local Open Scope Z_scope.

Record datetime := mk_datetime { year : Z; month : Z; day : Z; tod : Z }.

Definition MINYEAR : Z := 1.
Definition MAXYEAR : Z := 9999.
Definition MAXORDINAL : Z := 3652059.
Definition US_PER_DAY : Z := 86400000000.
Definition US_PER_HOUR : Z := 3600000000.

Definition is_leap (y : Z) : bool :=
  ((y mod 4 =? 0) && (negb (y mod 100 =? 0) || (y mod 400 =? 0)))%bool.

Definition days_before_year (yr : Z) : Z :=
  let y := yr - 1 in y * 365 + y / 4 - y / 100 + y / 400.

(** [_DAYS_IN_MONTH[m]] *)
Definition DAYS_IN_MONTH (m : Z) : Z :=
  match m with
  | 1 => 31 | 2 => 28 | 3 => 31 | 4 => 30 | 5 => 31 | 6 => 30
  | 7 => 31 | 8 => 31 | 9 => 30 | 10 => 31 | 11 => 30 | 12 => 31
  | _ => 0
  end.

(** [_DAYS_BEFORE_MONTH[m]] *)
Definition DAYS_BEFORE_MONTH (m : Z) : Z :=
  match m with
  | 1 => 0 | 2 => 31 | 3 => 59 | 4 => 90 | 5 => 120 | 6 => 151
  | 7 => 181 | 8 => 212 | 9 => 243 | 10 => 273 | 11 => 304 | 12 => 334
  | _ => 0
  end.

Definition b2z (b : bool) : Z := if b then 1 else 0.

Definition days_in_month (y m : Z) : Z :=
  if ((m =? 2) && is_leap y)%bool then 29 else DAYS_IN_MONTH m.

Definition days_before_month (y m : Z) : Z :=
  DAYS_BEFORE_MONTH m + b2z ((2 <? m) && is_leap y).

Definition ymd2ord (y m d : Z) : Z :=
  days_before_year y + days_before_month y m + d.

Definition DI400Y : Z := 146097.
Definition DI100Y : Z := 36524.
Definition DI4Y : Z := 1461.

Definition ord2ymd (ordinal : Z) : Z * Z * Z :=
  let n := ordinal - 1 in
  let n400 := n / DI400Y in
  let n := n mod DI400Y in
  let yr := n400 * 400 + 1 in
  let n100 := n / DI100Y in
  let n := n mod DI100Y in
  let n4 := n / DI4Y in
  let n := n mod DI4Y in
  let n1 := n / 365 in
  let n := n mod 365 in
  let yr := yr + n100 * 100 + n4 * 4 + n1 in
  if ((n1 =? 4) || (n100 =? 4))%bool then (yr - 1, 12, 31)
  else
    let leapyear := ((n1 =? 3) && (negb (n4 =? 24) || (n100 =? 3)))%bool in
    let mth := Z.shiftr (n + 50) 5 in
    let preceding := DAYS_BEFORE_MONTH mth + b2z ((2 <? mth) && leapyear) in
    if n <? preceding then
      let mth := mth - 1 in
      let preceding :=
        preceding - (DAYS_IN_MONTH mth + b2z ((mth =? 2) && leapyear)) in
      (yr, mth, n - preceding + 1)
    else (yr, mth, n - preceding + 1).

(** The month and the day that [_ord2ymd] computes from the day of the
    year, the last steps of the function taken on their own. *)
Definition month_day (leapyear : bool) (n : Z) : Z * Z :=
  let mth := Z.shiftr (n + 50) 5 in
  let preceding := DAYS_BEFORE_MONTH mth + b2z ((2 <? mth) && leapyear) in
  if n <? preceding then
    let mth := mth - 1 in
    let preceding :=
      preceding - (DAYS_IN_MONTH mth + b2z ((mth =? 2) && leapyear)) in
    (mth, n - preceding + 1)
  else (mth, n - preceding + 1).

(** The assertion at the end of [_ord2ymd], for day [k] of the year. *)
Definition month_day_ok (leapyear : bool) (k : nat) : bool :=
  let n := Z.of_nat k in
  let (m, d) := month_day leapyear n in
  ((1 <=? m) && (m <=? 12) && (1 <=? d)
   && (d <=? DAYS_IN_MONTH m + b2z ((m =? 2) && leapyear))
   && (DAYS_BEFORE_MONTH m + b2z ((2 <? m) && leapyear) + d =? n + 1))%bool.

(** The checks of the [datetime(year, month, day)] constructor. *)
Definition valid_ymd (y m d : Z) : bool :=
  ((MINYEAR <=? y) && (y <=? MAXYEAR) && (1 <=? m) && (m <=? 12)
   && (1 <=? d) && (d <=? days_in_month y m))%bool.

(** [datetime(y, m, d)]: midnight of that day, or [ValueError]. *)
Definition new_datetime (y m d : Z) : result datetime :=
  if valid_ymd y m d then Return (mk_datetime y m d 0)
  else Raise (mk_exn ValueError (lit "date value out of range")).

(** A well-formed [datetime] object, as [datetime.now()] returns it. *)
Definition wf (t : datetime) : Prop :=
  valid_ymd (year t) (month t) (day t) = true /\ 0 <= tod t < US_PER_DAY.

Definition toordinal (t : datetime) : Z := ymd2ord (year t) (month t) (day t).

(** [t.weekday()]: Monday is 0. *)
Definition weekday (t : datetime) : Z := (toordinal t + 6) mod 7.

(** [a < b] on naive datetimes: the fields compared in order. *)
Definition lt (a b : datetime) : bool :=
  if year a <? year b then true else if year b <? year a then false
  else if month a <? month b then true else if month b <? month a then false
  else if day a <? day b then true else if day b <? day a then false
  else tod a <? tod b.

(** [timedelta(days=.., hours=.., weeks=..)], normalised to days and the
    microseconds of the last day. *)
Record timedelta := mk_timedelta { td_days : Z; td_us : Z }.

Definition new_timedelta (days hours weeks : Z) : result timedelta :=
  let us := hours * US_PER_HOUR in
  let d := days + 7 * weeks + us / US_PER_DAY in
  if 999999999 <? Z.abs d
  then Raise (mk_exn OverflowError
                (lit "days; must have magnitude <= 999999999"))
  else Return (mk_timedelta d (us mod US_PER_DAY)).

Definition timedelta_days (n : Z) := new_timedelta n 0 0.
Definition timedelta_hours (n : Z) := new_timedelta 0 n 0.
Definition timedelta_weeks (n : Z) := new_timedelta 0 0 n.

(** [t + delta] *)
Definition add (t : datetime) (delta : timedelta) : result datetime :=
  let us := tod t + td_us delta in
  let o := toordinal t + td_days delta + us / US_PER_DAY in
  if ((0 <? o) && (o <=? MAXORDINAL))%bool then
    match ord2ymd o with
    | (y, m, d) => Return (mk_datetime y m d (us mod US_PER_DAY))
    end
  else Raise (mk_exn OverflowError (lit "date value out of range")).

(** [today + timedelta(days=n)] *)
Definition plus_days (t : datetime) (n : Z) : result datetime :=
  delta <- timedelta_days n ;; add t delta.

Definition digit (n : Z) : ascii := ascii_of_N (Z.to_N (48 + n mod 10)).

Definition pad2 (n : Z) : str := [digit (n / 10); digit n].

Definition pad4 (n : Z) : str :=
  [digit (n / 1000); digit (n / 100); digit (n / 10); digit n].

(** [t.strftime('%Y-%m-%d')] for the years 1000 to 9999.  (How a year of
    fewer than four digits is written depends on the C library, which may
    or may not pad it with zeros.) *)
Definition strftime_Ymd (t : datetime) : str :=
  pad4 (year t) ++ lit "-" ++ pad2 (month t) ++ lit "-" ++ pad2 (day t).

(** Is a text of the form [YYYY-MM-DD]: four digits, two digits and two
    digits, separated by hyphens? *)
Definition is_ymd_text (s : str) : bool :=
  match s with
  | [y1; y2; y3; y4; h1; m1; m2; h2; d1; d2] =>
      (isdigit y1 && isdigit y2 && isdigit y3 && isdigit y4
       && eqc h1 "-"%char && isdigit m1 && isdigit m2
       && eqc h2 "-"%char && isdigit d1 && isdigit d2)%bool
  | _ => false
  end.

End PyDate.

(* ================================================================== *)
(** * simple_analyzer.py *)

Module SimpleMessageAnalyzer.
Import PyStr Re Exn PyDate.

(** [task_details], as the rule-based classifier builds it. *)
Record TaskDetails := mk_details {
  title : str;
  description : str;
  priority : str;
  due_date : option str;
  tags : list str
}.

Record Metadata := mk_metadata {
  model : str;
  keyword_matches : option nat;
  timestamp : datetime
}.

(** The dictionary that [analyze_message] returns. *)
Record Analysis := mk_analysis {
  is_task : bool;
  confidence : PyFloat.float;
  task_details : option TaskDetails;
  analysis_metadata : Metadata
}.

Definition task_keywords : list str :=
  map lit
    ["todo"; "task"; "remind"; "remember"; "need to"; "should"; "must";
     "have to"; "don't forget"; "please"; "could you"; "can you";
     "will you"; "deadline"; "by"; "due"; "asap"; "urgent"; "important";
     "schedule"; "meeting"; "call"; "email"; "send"; "review"; "check";
     "prepare"; "finish"; "complete"; "fix"; "update"; "create"]%string.

Definition high_priority_words : list str :=
  map lit ["urgent"; "asap"; "critical"; "important"; "immediately"]%string.

Definition low_priority_words : list str :=
  map lit ["whenever"; "eventually"; "if possible"; "when you can"]%string.

Definition strong_indicators : list str :=
  map lit ["remind me"; "don't forget"; "need to"; "have to"; "please"]%string.

Definition polite_requests : list str :=
  map lit ["could you"; "can you"; "will you"]%string.

(** The regular expression [r'\bW\b'] as the text of the pattern. *)
Definition pattern_of (w : str) : str := lit "\b" ++ w ++ lit "\b".

(** [patterns] of [_extract_due_date]: the word of each pattern and its
    offset in days, [None] for the day names. *)
Definition patterns : list (str * option Z) :=
  [ (lit "today", Some 0%Z);
    (lit "tomorrow", Some 1%Z);
    (lit "next week", Some 7%Z);
    (lit "next month", Some 30%Z);
    (lit "monday", None);
    (lit "tuesday", None);
    (lit "wednesday", None);
    (lit "thursday", None);
    (lit "friday", None);
    (lit "end of day", Some 0%Z);
    (lit "eod", Some 0%Z);
    (lit "end of week", None);
    (lit "eow", None) ].

(** The [if]/[elif] chain on the text of the pattern: the weekday number
    that the day name stands for, [None] for the final [else: continue]. *)
Definition target_weekday (pattern : str) : option Z :=
  if contains (lit "monday") pattern then Some 0%Z
  else if contains (lit "tuesday") pattern then Some 1%Z
  else if contains (lit "wednesday") pattern then Some 2%Z
  else if contains (lit "thursday") pattern then Some 3%Z
  else if contains (lit "friday") pattern then Some 4%Z
  else if (contains (lit "end of week") pattern
           || contains (lit "eow") pattern)%bool then Some 4%Z
  else None.

(** [days_ahead] for a day name, with the roll to next week. *)
Definition days_ahead (today : datetime) (k : Z) : Z :=
  let d := ((k - weekday today) mod 7)%Z in
  if (d =? 0)%Z then 7%Z else d.

(** [(today + timedelta(days=n)).strftime('%Y-%m-%d')] *)
Definition date_after (today : datetime) (n : Z) : result str :=
  d <- plus_days today n ;; Return (strftime_Ymd d).

(** The [for pattern, days in patterns] loop.  [Some r]: the loop returned
    (or raised) [r]; [None]: the loop ended without a match. *)
Fixpoint scan_patterns (today : datetime) (message_lower : str)
    (ps : list (str * option Z)) : option (result str) :=
  match ps with
  | [] => None
  | (w, days) :: rest =>
      if search_word w message_lower then
        match days with
        | Some n => Some (date_after today n)
        | None =>
            match target_weekday (pattern_of w) with
            | Some k => Some (date_after today (days_ahead today k))
            | None => scan_patterns today message_lower rest
            end
        end
      else scan_patterns today message_lower rest
  end.

(** The first entry of [patterns] whose regular expression matches the
    lower-cased message: the first matched date phrase. *)
Definition first_match (message_lower : str) : option (str * option Z) :=
  find (fun p => search_word (fst p) message_lower) patterns.

(** The day names among the patterns, with the weekday each stands for. *)
Definition weekday_names : list (str * Z) :=
  [ (lit "monday", 0%Z); (lit "tuesday", 1%Z); (lit "wednesday", 2%Z);
    (lit "thursday", 3%Z); (lit "friday", 4%Z) ].

(** The fixed offsets that come before the day names in [patterns]. *)
Definition leading_offsets : list (str * Z) :=
  [ (lit "today", 0%Z); (lit "tomorrow", 1%Z); (lit "next week", 7%Z);
    (lit "next month", 30%Z) ].

(** How the first matching pattern is resolved: the offset of the pattern,
    or the distance to the weekday that the pattern names. *)
Definition resolve (today : datetime) (p : str * option Z)
    : option (result str) :=
  match p with
  | (_, Some n) => Some (date_after today n)
  | (w, None) =>
      option_map (fun k => date_after today (days_ahead today k))
        (target_weekday (pattern_of w))
  end.

(** Which of the leading offsets, the day names and the end-of-day
    phrases occur in a lower-cased text. *)
Definition has_leading (ml : str) : bool :=
  existsb (fun p => search_word (fst p) ml) leading_offsets.

Definition has_weekday (ml : str) : bool :=
  existsb (fun p => search_word (fst p) ml) weekday_names.

Definition has_end_of_day (ml : str) : bool :=
  (search_word (lit "end of day") ml || search_word (lit "eod") ml)%bool.

(** The number of calendar days by which ["in N hours/days/weeks"] moves
    the date, for a clock reading [today]. *)
Definition shift_days (today : datetime) (amount : Z) (u : unit_name) : Z :=
  match u with
  | Hour => ((tod today + amount * US_PER_HOUR) / US_PER_DAY)%Z
  | Day => amount
  | Week => (7 * amount)%Z
  end.

(** The ["in X days/hours"] branch, once the pattern has matched. *)
Definition in_rule (today : datetime) (amount : Z) (u : unit_name)
    : result str :=
  delta <- match u with
           | Hour => timedelta_hours amount
           | Day => timedelta_days amount
           | Week => timedelta_weeks amount
           end ;;
  d <- add today delta ;;
  Return (strftime_Ymd d).

(** The body of the [try] of the specific-date branch. *)
Definition date_rule_try (today : datetime) (mth dy : Z) : result str :=
  let yr := year today in
  d <- new_datetime yr mth dy ;;
  if lt d today then
    d' <- new_datetime (yr + 1) mth dy ;; Return (strftime_Ymd d')
  else Return (strftime_Ymd d).

(** The specific-date branch: [except ValueError: pass] falls through to
    [return None]. *)
Definition date_rule (today : datetime) (message : str)
    : result (option str) :=
  match search_date message with
  | Some (g1, g2) =>
      match date_rule_try today (int_of_digits g1) (int_of_digits g2) with
      | Return s => Return (Some s)
      | Raise e => if is_value_error e then Return None else Raise e
      end
  | None => Return None
  end.

(** [_extract_due_date]; [today] is the reading of [datetime.now()]. *)
Definition _extract_due_date (today : datetime) (message : str)
    : result (option str) :=
  let message_lower := lower message in
  match scan_patterns today message_lower patterns with
  | Some r => s <- r ;; Return (Some s)
  | None =>
      match search_in message_lower with
      | Some (amount, u) => s <- in_rule today amount u ;; Return (Some s)
      | None => date_rule today message
      end
  end.

Definition tag_patterns : list (str * list str) :=
  [ (lit "meeting",
      map lit ["meeting"; "call"; "sync"; "standup"; "discussion"]%string);
    (lit "email",
      map lit ["email"; "mail"; "send"; "reply"; "respond"]%string);
    (lit "review",
      map lit ["review"; "check"; "approve"; "feedback"]%string);
    (lit "development",
      map lit ["code"; "implement"; "fix"; "bug"; "feature"; "deploy"]%string);
    (lit "documentation",
      map lit ["document"; "docs"; "write"; "update docs"]%string);
    (lit "planning",
      map lit ["plan"; "schedule"; "organize"; "prepare"]%string);
    (lit "research",
      map lit ["research"; "investigate"; "analyze"; "find out"]%string) ].

(** The tags appended to [tags] before the conversion to a set. *)
Definition collected_tags (message : str) : list str :=
  let message_lower := lower message in
  map fst (filter (fun p => any_in (snd p) message_lower) tag_patterns)
  ++ (if any_in (map lit ["urgent"; "asap"; "critical"]%string) message_lower
      then [lit "urgent"] else []).

Section WithRuntime.

(** [list(set(l))]: the elements of [l] without repetition, in the order in
    which the interpreter iterates the set; that order is not fixed by the
    language. *)
Variable list_of_set : list str -> list str.

(** [_extract_tags] *)
Definition _extract_tags (message : str) : list str :=
  firstn 5 (list_of_set (collected_tags message)).

(** The title of [_extract_task_details]. *)
Definition make_title (message : str) : str :=
  let title := slice_to 50 (item0 (split "."%char message)) in
  let title :=
    if Nat.eqb (List.length title) 50
    then item0 (rsplit1 " "%char title) ++ lit "..."
    else title in
  strip title.

(** The priority of [_extract_task_details]. *)
Definition make_priority (message : str) : str :=
  let message_lower := lower message in
  if any_in high_priority_words message_lower then lit "high"
  else if any_in low_priority_words message_lower then lit "low"
  else lit "medium".

(** [_extract_task_details] *)
Definition _extract_task_details (today : datetime) (message : str)
    : result TaskDetails :=
  let t := make_title message in
  let p := make_priority message in
  due <- _extract_due_date today message ;;
  let tg := _extract_tags message in
  Return (mk_details t message p due tg).

(** [task_score]: how many keywords occur in the lower-cased message. *)
Definition task_score (message_lower : str) : nat :=
  List.length (filter (fun k => contains k message_lower) task_keywords).

(** The decision of [analyze_message], after the two overrides. *)
Definition decide_is_task (message : str) : bool :=
  let message_lower := lower message in
  let is_task := Nat.leb 2 (task_score message_lower) in
  let is_task := if any_in strong_indicators message_lower then true
                 else is_task in
  if (endswith (lit "?") (strip message)
      && negb (any_in polite_requests message_lower))%bool
  then false else is_task.

(** [min(0.9, 0.3 + (task_score * 0.15))] *)
Definition score_confidence (score : nat) : PyFloat.float :=
  PyFloat.min2 PyFloat.f0_9
    (PyFloat.add PyFloat.f0_3
       (PyFloat.mul (PyFloat.of_Z (Z.of_nat score)) PyFloat.f0_15)).

(** [analyze_message]; [today] is the reading of the clock. *)
Definition analyze_message (today : datetime) (message : str)
    : result Analysis :=
  let message_lower := lower message in
  let score := task_score message_lower in
  let is_task := decide_is_task message in
  let confidence := score_confidence score in
  if is_task then
    details <- _extract_task_details today message ;;
    Return (mk_analysis true confidence (Some details)
              (mk_metadata (lit "simple-rules") (Some score) today))
  else
    Return (mk_analysis false (PyFloat.sub PyFloat.f1_0 confidence) None
              (mk_metadata (lit "simple-rules") None today)).

End WithRuntime.

End SimpleMessageAnalyzer.

(* ================================================================== *)
(** * Python values read from JSON *)

(** The values that [json.loads] produces and that the dictionaries of the
    sources hold: [None], booleans, integers, floats, strings, lists, and
    dictionaries as association lists in insertion order. *)
Module PyVal.
Import PyStr Exn.

Inductive value :=
| VNone
| VBool (b : bool)
| VInt (n : Z)
| VFloat (f : PyFloat.float)
| VStr (s : str)
| VList (l : list value)
| VDict (d : list (str * value)).

Definition dict := list (str * value).

Fixpoint lookup (k : str) (d : dict) : option value :=
  match d with
  | [] => None
  | (k', v) :: r => if str_eqb k k' then Some v else lookup k r
  end.

(** [d.get(k, default)] on a dictionary. *)
Definition dict_get (k : str) (default : value) (d : dict) : value :=
  match lookup k d with Some v => v | None => default end.

(** [d[k] = v] *)
Fixpoint dict_set (k : str) (v : value) (d : dict) : dict :=
  match d with
  | [] => [(k, v)]
  | (k', v') :: r =>
      if str_eqb k k' then (k, v) :: r else (k', v') :: dict_set k v r
  end.

(** [v[k1][k2]...] through nested dictionaries, when every key is there. *)
Fixpoint at_path (path : list str) (v : value) : option value :=
  match path with
  | [] => Some v
  | k :: rest =>
      match v with
      | VDict d =>
          match lookup k d with
          | Some x => at_path rest x
          | None => None
          end
      | _ => None
      end
  end.

Definition no_attribute : exn :=
  mk_exn AttributeError (lit "object has no attribute 'get'").

(** [x.get(k, default)] on any value: only a dictionary has [get]. *)
Definition get (k : str) (default : value) (x : value) : result value :=
  match x with
  | VDict d => Return (dict_get k default d)
  | _ => Raise no_attribute
  end.

Definition is_zero (f : PyFloat.float) : bool :=
  match f with S754_zero _ => true | _ => false end.

(** [bool(x)] *)
Definition truthy (x : value) : bool :=
  match x with
  | VNone => false
  | VBool b => b
  | VInt n => negb (Z.eqb n 0)
  | VFloat f => negb (is_zero f)
  | VStr s => match s with [] => false | _ => true end
  | VList l => match l with [] => false | _ => true end
  | VDict d => match d with [] => false | _ => true end
  end.

(** [x == s] for a string [s]: only an equal string is equal to it. *)
Definition eq_str (x : value) (s : str) : bool :=
  match x with VStr t => str_eqb t s | _ => false end.

(** [x in l] for a list of strings [l]. *)
Definition in_strs (x : value) (l : list str) : bool := existsb (eq_str x) l.

Section Conversions.

(** [float(s)] on a string: the parsed number, or [None] when the text is
    not a number ([ValueError]). *)
Variable float_of_str : str -> option PyFloat.float.

(** [repr] of a value that is not a string, as [str()] prints it. *)
Variable repr : value -> str.

(** [float(x)] *)
Definition to_float (x : value) : result PyFloat.float :=
  match x with
  | VFloat f => Return f
  | VInt n =>
      match PyFloat.of_Z n with
      | S754_infinity _ =>
          Raise (mk_exn OverflowError (lit "int too large to convert to float"))
      | f => Return f
      end
  | VBool b => Return (if b then PyFloat.f1_0 else PyFloat.f0_0)
  | VStr s =>
      match float_of_str s with
      | Some f => Return f
      | None => Raise (mk_exn ValueError (lit "could not convert string to float"))
      end
  | _ => Raise (mk_exn TypeError
                  (lit "float() argument must be a string or a real number"))
  end.

(** [str(x)] *)
Definition to_str (x : value) : str :=
  match x with VStr s => s | _ => repr x end.

End Conversions.

End PyVal.

(* ================================================================== *)
(** * config.py *)

Module Config.
Import PyStr.

(** The fields of [Config] that the modelled code reads. *)
Record Config := mk_config {
  openai_api_key : str;
  todoist_api_key : str;
  notion_api_key : str;
  use_simple_analyzer : bool
}.

(** Truth value of a string: non-empty. *)
Definition nonempty (s : str) : bool :=
  match s with [] => false | _ => true end.

End Config.

(* ================================================================== *)
(** * llama_analyzer.py *)

Module LlamaMessageAnalyzer.
Import PyStr Re Exn PyDate PyVal.

(** [task_details] after [_validate_result]. *)
Record TaskDetails := mk_details {
  title : str;
  description : str;
  priority : value;
  due_date : value;
  tags : value
}.

Record Metadata := mk_metadata {
  model : str;
  model_name : option str;
  timestamp : option datetime;
  error : option str
}.

(** The dictionary that [analyze_message] returns; [is_task] holds whatever
    value the parsed response gave it. *)
Record Analysis := mk_analysis {
  is_task : value;
  confidence : PyFloat.float;
  task_details : option TaskDetails;
  analysis_metadata : Metadata
}.

(** The prompt of [analyze_message], around the message. *)
Definition prompt_head : str := lit
"<|system|>
You are a task detection assistant. Analyze the following message and determine if it contains a task or action item.
Return a JSON object with these fields:
- is_task: boolean (true if the message contains a task)
- confidence: float between 0 and 1
- task_details: object with title, description, priority (low/medium/high), due_date (YYYY-MM-DD or null), and tags array

Be strict - only mark clear action items as tasks. General information or discussions are not tasks.
<|end|>
<|user|>
Message: ".

Definition prompt_tail : str := lit
"
<|end|>
<|assistant|>".

Definition make_prompt (message : str) : str :=
  prompt_head ++ [dquote] ++ message ++ [dquote] ++ prompt_tail.

Definition fallback_keywords : list str :=
  map lit ["todo"; "task"; "remind"; "deadline"; "due"; "please";
           "need"; "should"; "must"; "will"; "can you"; "could you"]%string.

Definition task_phrases : list str :=
  map lit ["is a task"; "contains a task"; "action item"]%string.

(** [date_patterns] of [_parse_natural_response]; the patterns are plain
    words, so [re.search] is a substring test. *)
Definition date_patterns : list (str * option Z) :=
  [ (lit "tomorrow", Some 1%Z);
    (lit "next week", Some 7%Z);
    (lit "next month", Some 30%Z);
    (lit "by friday", None);
    (lit "end of day", Some 0%Z) ].

(** The loop over [date_patterns]: the first pattern that matches and has
    an offset sets [due_date]. *)
Fixpoint fallback_due_date (today : datetime) (message_lower : str)
    (ps : list (str * option Z)) : result value :=
  match ps with
  | [] => Return VNone
  | (w, days) :: rest =>
      match contains w message_lower, days with
      | true, Some n =>
          d <- plus_days today n ;; Return (VStr (strftime_Ymd d))
      | _, _ => fallback_due_date today message_lower rest
      end
  end.

Definition tag_patterns : list (str * list str) :=
  [ (lit "meeting", map lit ["meeting"; "call"; "sync"; "standup"]%string);
    (lit "email", map lit ["email"; "send"; "reply"]%string);
    (lit "review", map lit ["review"; "check"; "approve"]%string);
    (lit "development", map lit ["code"; "implement"; "fix"; "bug"]%string);
    (lit "documentation",
      map lit ["document"; "write"; "update docs"]%string) ].

(** [_extract_tags] *)
Definition _extract_tags (message : str) : list str :=
  let message_lower := lower message in
  firstn 5
    (map fst (filter (fun p => any_in (snd p) message_lower) tag_patterns)).

(** [_parse_natural_response]: the dictionary it builds. *)
Definition _parse_natural_response (today : datetime)
    (text original_message : str) : result value :=
  let text_lower := lower text in
  let message_lower := lower original_message in
  let is_task := any_in task_phrases text_lower in
  let is_task :=
    if negb is_task then any_in fallback_keywords message_lower
    else is_task in
  let priority :=
    if any_in (map lit ["urgent"; "asap"; "critical"; "important"]%string)
         message_lower then lit "high"
    else if any_in (map lit ["whenever"; "eventually"; "low priority"]%string)
              message_lower then lit "low"
    else lit "medium" in
  due_date <- fallback_due_date today message_lower date_patterns ;;
  if is_task then
    let title := strip (slice_to 50 original_message) in
    let title :=
      if Nat.ltb 50 (List.length original_message)
      then title ++ lit "..." else title in
    Return (VDict
      [ (lit "is_task", VBool true);
        (lit "confidence", VFloat PyFloat.f0_7);
        (lit "task_details", VDict
          [ (lit "title", VStr title);
            (lit "description", VStr original_message);
            (lit "priority", VStr priority);
            (lit "due_date", due_date);
            (lit "tags", VList (map VStr (_extract_tags original_message))) ]) ])
  else
    Return (VDict
      [ (lit "is_task", VBool false);
        (lit "confidence", VFloat PyFloat.f0_8);
        (lit "task_details", VNone) ]).

Definition allowed_priorities : list str :=
  map lit ["low"; "medium"; "high"]%string.

Section WithRuntime.

Variable float_of_str : str -> option PyFloat.float.
Variable repr : value -> str.

(** [json.loads]: the parsed value, or the exception it raises. *)
Variable json_loads : str -> result value.

(** The model call [self.llm(prompt, ...)], up to
    [response['choices'][0]['text']]: the generated text, or the exception
    raised on the way. *)
Variable llm : str -> result str.

(** The [task_details] entry that [_validate_result] builds from the
    parsed [details], with the priority check that follows it. *)
Definition validate_details (details : value) : result TaskDetails :=
  t <- get (lit "title") (VStr (lit "Untitled Task")) details ;;
  d <- get (lit "description") (VStr []) details ;;
  p <- get (lit "priority") (VStr (lit "medium")) details ;;
  due <- get (lit "due_date") VNone details ;;
  tg <- get (lit "tags") (VList []) details ;;
  let p := if negb (in_strs p allowed_priorities)
           then VStr (lit "medium") else p in
  Return (mk_details (to_str repr t) (to_str repr d) p due tg).

(** [_validate_result] *)
Definition _validate_result (today : datetime) (result_ : value)
    : result Analysis :=
  it <- get (lit "is_task") (VBool false) result_ ;;
  cv <- get (lit "confidence") (VFloat PyFloat.f0_0) result_ ;;
  c <- to_float float_of_str cv ;;
  let meta := mk_metadata (lit "llama-local") (Some (lit "Phi-3-mini-4k"))
                (Some today) None in
  let c := PyFloat.max2 PyFloat.f0_0 (PyFloat.min2 PyFloat.f1_0 c) in
  td <- get (lit "task_details") VNone result_ ;;
  if (truthy it && truthy td)%bool then
    details <- validate_details td ;;
    Return (mk_analysis it c (Some details) meta)
  else Return (mk_analysis it c None meta).

(** The inner [try]: the JSON object found in the text, or the fallback
    parse when there is none or when [json.loads] raises [JSONDecodeError]. *)
Definition parse_generated (today : datetime) (generated_text message : str)
    : result value :=
  match search_braces generated_text with
  | Some json_text =>
      match json_loads json_text with
      | Return v => Return v
      | Raise e =>
          if is_json_error e
          then _parse_natural_response today generated_text message
          else Raise e
      end
  | None => _parse_natural_response today generated_text message
  end.

(** The body of the outer [try] of [analyze_message]. *)
Definition analyze_try (today : datetime) (message : str) : result Analysis :=
  text <- llm (make_prompt message) ;;
  let generated_text := strip text in
  result_ <- parse_generated today generated_text message ;;
  _validate_result today result_.

(** The safe default of the [except Exception] handler. *)
Definition safe_default (e : exn) : Analysis :=
  mk_analysis (VBool false) PyFloat.f0_0 None
    (mk_metadata (lit "llama-local") None None (Some (msg e))).

(** [analyze_message] *)
Definition analyze_message (today : datetime) (message : str) : Analysis :=
  match analyze_try today message with
  | Return a => a
  | Raise e => safe_default e
  end.

End WithRuntime.

(** The metadata of a validated result. *)
Definition validated_meta (today : datetime) : Metadata :=
  mk_metadata (lit "llama-local") (Some (lit "Phi-3-mini-4k")) (Some today)
    None.

(** The generated text holds no JSON object that [json.loads] accepts:
    no braces at all, or braces around a text that is not JSON. *)
Definition not_json (json_loads : str -> result value)
    (generated_text : str) : Prop :=
  search_braces generated_text = None
  \/ exists json_text e,
       search_braces generated_text = Some json_text
       /\ json_loads json_text = Raise e /\ is_json_error e = true.

(** The decision of [_parse_natural_response]: a phrase of the reply, or
    else a keyword of the message. *)
Definition fallback_is_task (text original_message : str) : bool :=
  (any_in task_phrases (lower text)
   || any_in fallback_keywords (lower original_message))%bool.

End LlamaMessageAnalyzer.

(* ================================================================== *)
(** * message_analyzer.py *)

Module MessageAnalyzer.
Import PyStr Re Exn PyDate PyVal Config.

(** The attributes that [__init__] sets: [use_openai], and [use_llama]
    when the OpenAI branch is not taken. *)
Record Strategy := mk_strategy {
  use_openai : bool;
  use_llama : option bool
}.

(** [__init__]: [llama_init] is the outcome of constructing the
    [LlamaMessageAnalyzer]. *)
Definition init (config : Config) (llama_init : result unit) : Strategy :=
  let use_openai :=
    (nonempty (openai_api_key config)
     && negb (str_eqb (openai_api_key config) (lit "your-openai-api-key")))%bool in
  if use_openai then mk_strategy true None
  else if use_simple_analyzer config then mk_strategy false (Some false)
  else match llama_init with
       | Return _ => mk_strategy false (Some true)
       | Raise _ => mk_strategy false (Some false)
       end.

Definition task_keywords : list str :=
  map lit
    ["todo"; "task"; "remind"; "remember"; "need to"; "should"; "must";
     "have to"; "don't forget"; "please"; "could you"; "can you";
     "will you"; "deadline"; "by"; "due"; "asap"; "urgent"; "important"]%string.

(** [_might_contain_task] *)
Definition _might_contain_task (message : str) : bool :=
  any_in task_keywords (lower message).

Definition q (s : str) : str := [dquote] ++ s ++ [dquote].

(** The prompt of the OpenAI branch. *)
Definition openai_prompt (message sender channel : str) : str :=
  lit "Analyze this Slack message and determine if it contains any actionable tasks.
            
Message: " ++ q message ++ lit "
Sender: " ++ sender ++ lit "
Channel: " ++ channel ++ lit "

Return a JSON object with:
1. contains_task: boolean - whether the message contains a task
2. tasks: array of task objects, each with:
   - title: string - short task title (max 50 chars)
   - description: string - detailed description
   - priority: string - " ++ q (lit "low") ++ lit ", " ++ q (lit "medium")
  ++ lit ", " ++ q (lit "high") ++ lit ", or " ++ q (lit "urgent") ++ lit "
   - assignee: string - who should do the task (from context)
   - estimated_time: string - estimated time to complete (e.g., "
  ++ q (lit "30 minutes") ++ lit ", " ++ q (lit "2 hours") ++ lit ")
3. confidence: float - confidence score (0-1)
4. context: string - any relevant context extracted

Only extract explicit tasks, not general statements or questions.".

(** The dictionary returned by the [except] handlers. *)
Definition error_result (e : exn) : value :=
  VDict [ (lit "contains_task", VBool false); (lit "error", VStr (msg e)) ].

(** The conversion of a local classifier's result to the wrapper's format:
    [is_task] and [task_details] as truth values, the three fields read from
    the details, and the confidence. *)
Definition convert (sender channel : str) (is_task_and_details : bool)
    (title description priority : value) (confidence : value) : value :=
  if is_task_and_details then
    VDict
      [ (lit "contains_task", VBool true);
        (lit "tasks", VList
          [ VDict
              [ (lit "title", title);
                (lit "description", description);
                (lit "priority", priority);
                (lit "assignee", VStr sender);
                (lit "estimated_time", VStr (lit "Not specified")) ] ]);
        (lit "confidence", confidence);
        (lit "context", VStr (lit "Detected in " ++ channel)) ]
  else
    VDict [ (lit "contains_task", VBool false); (lit "confidence", confidence) ].

Definition convert_simple (sender channel : str)
    (r : SimpleMessageAnalyzer.Analysis) : value :=
  match SimpleMessageAnalyzer.task_details r with
  | Some d =>
      convert sender channel (SimpleMessageAnalyzer.is_task r)
        (VStr (SimpleMessageAnalyzer.title d))
        (VStr (SimpleMessageAnalyzer.description d))
        (VStr (SimpleMessageAnalyzer.priority d))
        (VFloat (SimpleMessageAnalyzer.confidence r))
  | None =>
      convert sender channel false VNone VNone VNone
        (VFloat (SimpleMessageAnalyzer.confidence r))
  end.

Definition convert_llama (sender channel : str)
    (r : LlamaMessageAnalyzer.Analysis) : value :=
  match LlamaMessageAnalyzer.task_details r with
  | Some d =>
      convert sender channel (truthy (LlamaMessageAnalyzer.is_task r))
        (VStr (LlamaMessageAnalyzer.title d))
        (VStr (LlamaMessageAnalyzer.description d))
        (LlamaMessageAnalyzer.priority d)
        (VFloat (LlamaMessageAnalyzer.confidence r))
  | None =>
      convert sender channel false VNone VNone VNone
        (VFloat (LlamaMessageAnalyzer.confidence r))
  end.

(** [analysis.get("confidence")] on a returned analysis, when it has one. *)
Definition confidence_of (analysis : value) : option value :=
  match analysis with
  | VDict d => lookup (lit "confidence") d
  | _ => None
  end.

(** One digit run [\d{lo,hi}], greedy: the digits and the rest. *)
Fixpoint digits_upto (hi : nat) (s : str) : str * str :=
  match hi, s with
  | S h, c :: r =>
      if isdigit c then let (d, t) := digits_upto h r in (c :: d, t)
      else ([], s)
  | _, _ => ([], s)
  end.

(** [(\d{1,2}/\d{1,2}/\d{2,4})] at the start of [s]: the text of the group. *)
Definition full_date_at (s : str) : option str :=
  match digits_upto 2 s with
  | ([], _) => None
  | (a, c1 :: r1) =>
      if eqc c1 "/"%char then
        match digits_upto 2 r1 with
        | ([], _) => None
        | (b, c2 :: r2) =>
            if eqc c2 "/"%char then
              match digits_upto 4 r2 with
              | (y, _) =>
                  if Nat.leb 2 (List.length y)
                  then Some (a ++ [c1] ++ b ++ [c2] ++ y) else None
              end
            else None
        | (_, []) => None
        end
      else None
  | (_, []) => None
  end.

(** [re.search(prefix + r' (\d{1,2}/\d{1,2}/\d{2,4})', s)]: group 1. *)
Fixpoint search_full_date (prefix s : str) : option str :=
  match
    match strip_prefix (prefix ++ lit " ") s with
    | Some r => full_date_at r
    | None => None
    end
  with
  | Some g => Some g
  | None => match s with [] => None | _ :: r => search_full_date prefix r end
  end.

Inductive span_name := Days | Weeks | Months.

Definition span_at (s : str) : option span_name :=
  if startswith (lit "day") s then Some Days
  else if startswith (lit "week") s then Some Weeks
  else if startswith (lit "month") s then Some Months
  else None.

Definition in_span_at (s : str) : option (Z * span_name) :=
  match strip_prefix (lit "in ") s with
  | None => None
  | Some r =>
      match span_digits r with
      | ([], _) => None
      | (ds, sp :: t) =>
          if eqc sp " "%char then
            match span_at t with
            | Some u => Some (int_of_digits ds, u)
            | None => None
            end
          else None
      | (_, []) => None
      end
  end.

(** [re.search(r'in (\d+) (days?|weeks?|months?)', s)] *)
Fixpoint search_in_span (s : str) : option (Z * span_name) :=
  match in_span_at s with
  | Some m => Some m
  | None => match s with [] => None | _ :: r => search_in_span r end
  end.

(** The first three entries of [date_patterns], by their leading word. *)
Definition date_prefixes : list str := map lit ["by"; "on"; "before"]%string.

Fixpoint first_full_date (prefixes : list str) (message : str) : option str :=
  match prefixes with
  | [] => None
  | p :: rest =>
      match search_full_date p message with
      | Some g => Some g
      | None => first_full_date rest message
      end
  end.

(** [_extract_date] *)
Definition _extract_date (today : datetime) (message : str)
    : result (option str) :=
  let message_lower := lower message in
  let after n := (d <- plus_days today n ;; Return (Some (strftime_Ymd d))) in
  if contains (lit "tomorrow") message_lower then after 1%Z
  else if contains (lit "today") message_lower
  then Return (Some (strftime_Ymd today))
  else if contains (lit "next week") message_lower then
    delta <- timedelta_weeks 1 ;; d <- add today delta ;;
    Return (Some (strftime_Ymd d))
  else if contains (lit "next month") message_lower then after 30%Z
  else
    match search_in_span message_lower with
    | Some (amount, Days) => after amount
    | Some (amount, Weeks) =>
        delta <- timedelta_weeks amount ;; d <- add today delta ;;
        Return (Some (strftime_Ymd d))
    | Some (amount, Months) => after (amount * 30)%Z
    | None => Return (first_full_date date_prefixes message)
    end.

(** The number of days that an ["in N ..."] phrase stands for. *)
Definition span_days (amount : Z) (u : span_name) : Z :=
  match u with
  | Days => amount
  | Weeks => (7 * amount)%Z
  | Months => (amount * 30)%Z
  end.

(** What the dictionaries built by [convert] and [error_result] have in
    common: a boolean [contains_task], one task exactly when it is true,
    and no due date. *)
Definition own_result (x : value) : Prop :=
  exists d b,
    x = VDict d /\
    lookup (lit "contains_task") d = Some (VBool b) /\
    lookup (lit "due_date") d = None /\
    (b = true -> exists t, lookup (lit "tasks") d = Some (VList [t])) /\
    (b = false -> lookup (lit "tasks") d = None).

Section WithRuntime.

Variable list_of_set : list str -> list str.
Variable float_of_str : str -> option PyFloat.float.
Variable repr : value -> str.
Variable json_loads : str -> result value.
Variable llm : str -> result str.

(** The chat completion call, up to [response.choices[0].message.content]:
    the content, or the exception raised on the way. *)
Variable openai : str -> result str.

(** [_ai_analyze] *)
Definition _ai_analyze (self : Strategy) (today : datetime)
    (message sender channel : str) : value :=
  if use_openai self then
    match
      content <- openai (openai_prompt message sender channel) ;;
      json_loads content
    with
    | Return result_ => result_
    | Raise e => error_result e
    end
  else
    match use_llama self with
    | Some true =>
        convert_llama sender channel
          (LlamaMessageAnalyzer.analyze_message float_of_str repr json_loads
             llm today message)
    | _ =>
        match SimpleMessageAnalyzer.analyze_message list_of_set today message
        with
        | Return r => convert_simple sender channel r
        | Raise e => error_result e
        end
    end.

(** [analysis["due_date"] = due_date] *)
Definition set_due_date (analysis : value) (due_date : str) : result value :=
  match analysis with
  | VDict d => Return (VDict (dict_set (lit "due_date") (VStr due_date) d))
  | _ => Raise (mk_exn TypeError
                  (lit "object does not support item assignment"))
  end.

(** [analyze_message] *)
Definition analyze_message (self : Strategy) (today : datetime)
    (message sender channel : str) : result value :=
  if negb (_might_contain_task message)
  then Return (VDict [ (lit "contains_task", VBool false) ])
  else
    let analysis := _ai_analyze self today message sender channel in
    due_date <- _extract_date today message ;;
    match due_date with
    | Some d => if nonempty d then set_due_date analysis d
                else Return analysis
    | None => Return analysis
    end.

End WithRuntime.

End MessageAnalyzer.

(* ================================================================== *)
(** * task_manager.py *)

Module TaskManager.
Import PyStr Exn PyDate PyVal Config.

(** What the code reads of a [requests] response: the status code, the
    text, and the outcome of [response.json()]. *)
Record Response := mk_response {
  status_code : Z;
  text : str;
  json : result value
}.

(** One entry of the list that [TaskOrchestrator.create_task] returns. *)
Record Outcome := mk_outcome {
  platform : str;
  success : bool;
  data : option value;
  error : option str
}.

Section WithWorld.

(** The state of the remote services. *)
Variable World : Type.

(** [requests.post(url, headers=headers, json=body)]: the response or the
    exception raised, and the state of the services afterwards. *)
Variable post : str -> list (str * str) -> value -> World
                -> result Response * World.

Variable repr : value -> str.

(** [s.capitalize()] *)
Variable capitalize : str -> str.

(** The abstract class [TaskManager]: the name of the class of the
    instance, and its [create_task]. *)
Record TaskManager := mk_manager {
  class_name : str;
  create_task : value -> World -> result value * World
}.

Definition headers_of (api_key : str) : list (str * str) :=
  [ (lit "Authorization", lit "Bearer " ++ api_key);
    (lit "Content-Type", lit "application/json") ].

(** The values that cannot be hashed: lists and dictionaries. *)
Definition unhashable (p : value) : bool :=
  match p with
  | VList _ | VDict _ => true
  | _ => false
  end.

(** [priority_map.get(p, 2)]: a key that cannot be hashed raises. *)
Definition todoist_priority (p : value) : result value :=
  match p with
  | VList _ => Raise (mk_exn TypeError (lit "unhashable type: 'list'"))
  | VDict _ => Raise (mk_exn TypeError (lit "unhashable type: 'dict'"))
  | _ =>
      Return (VInt (if eq_str p (lit "low") then 1
                    else if eq_str p (lit "medium") then 2
                    else if eq_str p (lit "high") then 3
                    else if eq_str p (lit "urgent") then 4
                    else 2))
  end.

(** What follows the request in both managers. *)
Definition after_post (failure : str) (r : result Response * World)
    : result value * World :=
  match r with
  | (Return response, w) =>
      if Z.eqb (status_code response) 200 then (json response, w)
      else (Raise (mk_exn PlainException (failure ++ text response)), w)
  | (Raise e, w) => (Raise e, w)
  end.

(** The dictionary [todoist_task] that [TodoistManager.create_task] sends,
    or the exception raised while it is built. *)
Definition todoist_task (task : value) : result value :=
  content <- get (lit "title") (VStr []) task ;;
  description <- get (lit "description") (VStr []) task ;;
  p <- get (lit "priority") (VStr (lit "medium")) task ;;
  priority <- todoist_priority p ;;
  due_string <- get (lit "due_date") (VStr (lit "today")) task ;;
  Return (VDict [ (lit "content", content);
                  (lit "description", description);
                  (lit "priority", priority);
                  (lit "due_string", due_string) ]).

(** [TodoistManager.create_task] *)
Definition todoist_create_task (api_key : str) (task : value) (w : World)
    : result value * World :=
  let base_url := lit "https://api.todoist.com/rest/v2" in
  match
    content <- get (lit "title") (VStr []) task ;;
    description <- get (lit "description") (VStr []) task ;;
    p <- get (lit "priority") (VStr (lit "medium")) task ;;
    priority <- todoist_priority p ;;
    due_string <- get (lit "due_date") (VStr (lit "today")) task ;;
    Return (VDict [ (lit "content", content);
                    (lit "description", description);
                    (lit "priority", priority);
                    (lit "due_string", due_string) ])
  with
  | Raise e => (Raise e, w)
  | Return todoist_task =>
      after_post (lit "Failed to create Todoist task: ")
        (post (base_url ++ lit "/tasks") (headers_of api_key) todoist_task w)
  end.

Definition TodoistManager (config : Config) : TaskManager :=
  mk_manager (lit "TodoistManager")
    (todoist_create_task (todoist_api_key config)).

Definition text_content (v : value) : value :=
  VList [ VDict [ (lit "text", VDict [ (lit "content", v) ]) ] ].

Definition select_name (v : value) : value :=
  VDict [ (lit "select", VDict [ (lit "name", v) ]) ].

(** [x.capitalize()] on any value: only a string has it. *)
Definition capitalize_value (x : value) : result value :=
  match x with
  | VStr s => Return (VStr (capitalize s))
  | _ => Raise (mk_exn AttributeError
                  (lit "object has no attribute 'capitalize'"))
  end.

(** The dictionary [notion_page] that [NotionManager.create_task] sends,
    or the exception raised while it is built. *)
Definition notion_page (database_id : value) (today : datetime)
    (task : value) : result value :=
  t <- get (lit "title") (VStr []) task ;;
  d <- get (lit "description") (VStr []) task ;;
  p <- get (lit "priority") (VStr (lit "medium")) task ;;
  p <- capitalize_value p ;;
  due <- get (lit "due_date") (VStr (strftime_Ymd today)) task ;;
  ch <- get (lit "channel") (VStr (lit "Unknown")) task ;;
  sd <- get (lit "sender") (VStr (lit "Unknown")) task ;;
  Return (VDict
    [ (lit "parent", VDict [ (lit "database_id", database_id) ]);
      (lit "properties", VDict
        [ (lit "Title", VDict [ (lit "title", text_content t) ]);
          (lit "Description", VDict [ (lit "rich_text", text_content d) ]);
          (lit "Priority", select_name p);
          (lit "Due Date", VDict [ (lit "date", VDict [ (lit "start", due) ]) ]);
          (lit "Status", select_name (VStr (lit "To Do")));
          (lit "Source", select_name (VStr (lit "Slack")));
          (lit "Created From", VDict
            [ (lit "rich_text", text_content
                (VStr (lit "Channel: " ++ to_str repr ch
                       ++ lit ", Sender: " ++ to_str repr sd))) ]) ]) ]).

(** [NotionManager.create_task] *)
Definition notion_create_task (api_key : str) (database_id : value)
    (today : datetime) (task : value) (w : World) : result value * World :=
  let base_url := lit "https://api.notion.com/v1" in
  let headers := headers_of api_key
                 ++ [ (lit "Notion-Version", lit "2022-06-28") ] in
  match
    t <- get (lit "title") (VStr []) task ;;
    d <- get (lit "description") (VStr []) task ;;
    p <- get (lit "priority") (VStr (lit "medium")) task ;;
    p <- capitalize_value p ;;
    due <- get (lit "due_date") (VStr (strftime_Ymd today)) task ;;
    ch <- get (lit "channel") (VStr (lit "Unknown")) task ;;
    sd <- get (lit "sender") (VStr (lit "Unknown")) task ;;
    Return (VDict
      [ (lit "parent", VDict [ (lit "database_id", database_id) ]);
        (lit "properties", VDict
          [ (lit "Title", VDict [ (lit "title", text_content t) ]);
            (lit "Description", VDict [ (lit "rich_text", text_content d) ]);
            (lit "Priority", select_name p);
            (lit "Due Date", VDict [ (lit "date", VDict [ (lit "start", due) ]) ]);
            (lit "Status", select_name (VStr (lit "To Do")));
            (lit "Source", select_name (VStr (lit "Slack")));
            (lit "Created From", VDict
              [ (lit "rich_text", text_content
                  (VStr (lit "Channel: " ++ to_str repr ch
                         ++ lit ", Sender: " ++ to_str repr sd))) ]) ]) ])
  with
  | Raise e => (Raise e, w)
  | Return notion_page =>
      after_post (lit "Failed to create Notion task: ")
        (post (base_url ++ lit "/pages") headers notion_page w)
  end.


End WithWorld.

End TaskManager.

Module TaskOrchestrator.
Import PyStr Exn PyDate PyVal Config.
Import TaskManager.

Section WithWorld.

Variable World : Type.
Variable post : str -> list (str * str) -> value -> World
                -> result Response * World.

(** [__init__]: the list [self.managers]. *)
Definition init (config : Config) : list (TaskManager World) :=
  let managers := [] in
  let managers :=
    if nonempty (todoist_api_key config)
    then managers ++ [TodoistManager post config] else managers in
  let managers :=
    if nonempty (notion_api_key config)
    then managers (* pass *) else managers in
  managers.

(** The body of the loop of [create_task] for one manager. *)
Definition attempt (manager : TaskManager World) (task_data : value)
    (w : World) : Outcome * World :=
  match TaskManager.create_task manager task_data w with
  | (Return result_, w') =>
      (mk_outcome (class_name manager) true (Some result_) None, w')
  | (Raise e, w') =>
      (mk_outcome (class_name manager) false None (Some (msg e)), w')
  end.

(** The outcome recorded for a backend whose [create_task] raised [e]. *)
Definition failure (m : TaskManager World) (e : exn) : Outcome :=
  mk_outcome (class_name m) false None (Some (msg e)).

(** Is a backend of the class of that name among the managers? *)
Definition registered (name : str) (managers : list (TaskManager World))
    : bool :=
  existsb (fun m => str_eqb (class_name m) name) managers.

(** The loop [for manager in self.managers], appending to [results]. *)
Fixpoint create_task_loop (managers : list (TaskManager World))
    (task_data : value) (results : list Outcome) (w : World)
    : list Outcome * World :=
  match managers with
  | [] => (results, w)
  | manager :: rest =>
      let (o, w') := attempt manager task_data w in
      create_task_loop rest task_data (results ++ [o]) w'
  end.

(** [create_task] *)
Definition create_task (managers : list (TaskManager World))
    (task_data : value) (w : World) : list Outcome * World :=
  create_task_loop managers task_data [] w.

End WithWorld.

End TaskOrchestrator.

(* ================================================================== *)
(** * mention_tracker.py *)

Module MentionTracker.
Import PyStr Re Exn PyDate PyVal.

(** The dictionary [mention_data]: one entry of a user's history. *)
Record Mention := mk_mention {
  timestamp : value;
  channel : value;
  channel_name : value;
  sender : value;
  sender_name : value;
  text : str;
  clean_text : str;
  is_task : bool;
  confidence : PyFloat.float;
  task_details : option SimpleMessageAnalyzer.TaskDetails;
  permalink : value
}.

(** [user_mentions], a [defaultdict(list)] from user ids to histories. *)
Definition Store := list (str * list Mention).

(** [user_mentions[user]], read: the empty list for a new user. *)
Fixpoint history (user : str) (um : Store) : list Mention :=
  match um with
  | [] => []
  | (u, l) :: r => if str_eqb user u then l else history user r
  end.

(** [user_mentions[user] = l] *)
Fixpoint set_history (user : str) (l : list Mention) (um : Store) : Store :=
  match um with
  | [] => [(user, l)]
  | (u, l') :: r =>
      if str_eqb user u then (user, l) :: r
      else (u, l') :: set_history user l r
  end.

(** The module state: [user_mentions] and [tracked_users]. *)
Record State := mk_state {
  user_mentions : Store;
  tracked_users : list str
}.

(** The class [[A-Z0-9]]. *)
Definition is_id_char (c : ascii) : bool :=
  (in_range 65 90 (code c) || isdigit c)%bool.

(** [[A-Z0-9]*], greedy: the run and the rest. *)
Fixpoint span_id (s : str) : str * str :=
  match s with
  | c :: r =>
      if is_id_char c then let (d, t) := span_id r in (c :: d, t)
      else ([], s)
  | [] => ([], [])
  end.

(** [<@([A-Z0-9]+)>] at the start of [s]: the text of the group. *)
Definition mention_at (s : str) : option str :=
  match strip_prefix (lit "<@") s with
  | None => None
  | Some r =>
      match span_id r with
      | ([], _) => None
      | (u, c :: _) => if eqc c ">"%char then Some u else None
      | (_, []) => None
      end
  end.

(** [re.findall(r'<@([A-Z0-9]+)>', s)]: the matches from left to right
    without overlap; [skip] characters of the last match are still to be
    passed over. *)
Fixpoint findall_from (skip : nat) (s : str) : list str :=
  match s with
  | [] => []
  | _ :: r =>
      match skip with
      | S k => findall_from k r
      | O =>
          match mention_at s with
          | Some u => u :: findall_from (List.length u + 2) r
          | None => findall_from 0 r
          end
      end
  end.

Definition findall_mentions (s : str) : list str := findall_from 0 s.

(** [s.replace(old, new)] for a non-empty [old]: the occurrences from
    left to right without overlap. *)
Fixpoint replace_from (old new : str) (skip : nat) (s : str) : str :=
  match s with
  | [] => []
  | c :: r =>
      match skip with
      | S k => replace_from old new k r
      | O =>
          if startswith old s
          then new ++ replace_from old new (List.length old - 1) r
          else c :: replace_from old new 0 r
      end
  end.

Definition replace (old new s : str) : str := replace_from old new 0 s.

(** [try: x = call[k1][k2] except: x = fallback] *)
Definition or_else (fallback : value) (path : list str) (r : result value)
    : value :=
  match r with
  | Return v => match at_path path v with Some x => x | None => fallback end
  | Raise _ => fallback
  end.

(** [l[-100:]], applied when [len(l) > 100]. *)
Definition keep_last_100 (l : list Mention) : list Mention :=
  if Nat.ltb 100 (List.length l) then skipn (List.length l - 100) l else l.

(** What an entry records of the message in which [user] is mentioned. *)
Definition records (message : str) (ts : value) (user : str) (m : Mention)
    : Prop :=
  text m = message /\ timestamp m = ts /\
  clean_text m = replace (lit "<@" ++ user ++ lit ">") (lit "@you") message.

(** A history to which the entries [new] were appended one by one. *)
Definition appended (old new : list Mention) : list Mention :=
  match new with
  | [] => old
  | _ => keep_last_100 (old ++ new)
  end.

Section WithClient.

(** The state of the Slack workspace and of the clock. *)
Variable World : Type.

(** The three calls of the Slack client: the response or the exception
    raised, and the state afterwards. *)
Variable conversations_info : value -> World -> result value * World.
Variable users_info : value -> World -> result value * World.
Variable chat_getPermalink : value -> value -> World -> result value * World.

(** [datetime.now()] *)
Variable now : World -> datetime.

Variable list_of_set : list str -> list str.

(** The body of the loop [for mentioned_user in mentions]. *)
Definition track (tracked : list str) (text : str) (channel sender ts : value)
    (mentioned_user : str) (um : Store) (w : World) : result Store * World :=
  if mem mentioned_user tracked then
    let (channel_info, w1) := conversations_info channel w in
    let channel_name :=
      or_else channel [lit "channel"; lit "name"] channel_info in
    let (sender_info, w2) := users_info sender w1 in
    let sender_name :=
      or_else sender [lit "user"; lit "real_name"] sender_info in
    let clean_text :=
      replace (lit "<@" ++ mentioned_user ++ lit ">") (lit "@you") text in
    match SimpleMessageAnalyzer.analyze_message list_of_set (now w2) clean_text
    with
    | Raise e => (Raise e, w2)
    | Return analysis =>
        let (permalink_resp, w3) := chat_getPermalink channel ts w2 in
        let mention_data :=
          mk_mention ts channel channel_name sender sender_name text
            clean_text
            (SimpleMessageAnalyzer.is_task analysis)
            (SimpleMessageAnalyzer.confidence analysis)
            (SimpleMessageAnalyzer.task_details analysis)
            (or_else VNone [lit "permalink"] permalink_resp) in
        let l := history mentioned_user um ++ [mention_data] in
        (Return (set_history mentioned_user (keep_last_100 l) um), w3)
    end
  else (Return um, w).

(** The loop: an exception leaves the histories as the earlier rounds made
    them. *)
Fixpoint track_all (tracked : list str) (text : str)
    (channel sender ts : value) (mentions : list str) (um : Store)
    (w : World) : result unit * Store * World :=
  match mentions with
  | [] => (Return tt, um, w)
  | mentioned_user :: rest =>
      match track tracked text channel sender ts mentioned_user um w with
      | (Return um', w') =>
          track_all tracked text channel sender ts rest um' w'
      | (Raise e, w') => (Raise e, um, w')
      end
  end.

(** [handle_message]: the event is the dictionary that Slack delivers. *)
Definition handle_message (event : dict) (st : State) (w : World)
    : result unit * State * World :=
  if truthy (dict_get (lit "bot_id") VNone event) then (Return tt, st, w)
  else
    match dict_get (lit "text") (VStr []) event with
    | VStr text =>
        let channel := dict_get (lit "channel") VNone event in
        let sender := dict_get (lit "user") VNone event in
        let ts := dict_get (lit "ts") VNone event in
        match
          track_all (tracked_users st) text channel sender ts
            (findall_mentions text) (user_mentions st) w
        with
        | (r, um, w') => (r, mk_state um (tracked_users st), w')
        end
    | _ =>
        (Raise (mk_exn TypeError (lit "expected string or bytes-like object")),
         st, w)
    end.

End WithClient.

End MentionTracker.

(* ================================================================== *)
(** * slack_bot.py: the preferences of the users *)

Module SlackBot.
Import PyStr Exn PyVal.

(** [user_preferences]: from user ids to preference dictionaries. *)
Definition Preferences := list (str * dict).

Fixpoint prefs_lookup (user : str) (up : Preferences) : option dict :=
  match up with
  | [] => None
  | (u, p) :: r => if str_eqb user u then Some p else prefs_lookup user r
  end.

(** [user_preferences[user] = prefs] *)
Fixpoint prefs_set (user : str) (prefs : dict) (up : Preferences)
    : Preferences :=
  match up with
  | [] => [(user, prefs)]
  | (u, p) :: r =>
      if str_eqb user u then (user, prefs) :: r
      else (u, p) :: prefs_set user prefs r
  end.

Definition default_prefs : dict :=
  [ (lit "auto_analyze", VBool true);
    (lit "notification_level", VStr (lit "high")) ].

(** [user_preferences.get(user, {...})] *)
Definition prefs_get (user : str) (up : Preferences) : dict :=
  match prefs_lookup user up with Some p => p | None => default_prefs end.

(** [d[k]] *)
Definition getitem (k : str) (d : dict) : result value :=
  match lookup k d with
  | Some v => Return v
  | None => Raise (mk_exn KeyError (lit "'" ++ k ++ lit "'"))
  end.

(** [handle_toggle_auto_analyze], after [ack()], for the user id
    [body['user']['id']], a string: the preferences afterwards and the
    text that is said. *)
Definition handle_toggle_auto_analyze (user : str) (up : Preferences)
    : result (Preferences * str) :=
  let prefs := prefs_get user up in
  old <- getitem (lit "auto_analyze") prefs ;;
  let prefs := dict_set (lit "auto_analyze") (VBool (negb (truthy old))) prefs in
  let up := prefs_set user prefs up in
  now_ <- getitem (lit "auto_analyze") prefs ;;
  Return (up, lit "Auto-analyze is now "
              ++ (if truthy now_ then lit "enabled" else lit "disabled")
              ++ lit ".").

(** [handle_change_notification_level], for the user id and the selected
    value [body['actions'][0]['selected_option']['value']]. *)
Definition handle_change_notification_level (repr : value -> str)
    (user : str) (new_level : value) (up : Preferences)
    : Preferences * str :=
  let prefs := prefs_get user up in
  let prefs := dict_set (lit "notification_level") new_level prefs in
  let up := prefs_set user prefs up in
  (up, lit "Notification level set to " ++ to_str repr new_level ++ lit ".").

(** The two reads of [handle_message]: [prefs.get('auto_analyze', True)]
    as a truth value, and [prefs.get('notification_level')]. *)
Definition auto_analyze_enabled (user : str) (up : Preferences) : bool :=
  truthy (dict_get (lit "auto_analyze") (VBool true) (prefs_get user up)).

Definition notification_level (user : str) (up : Preferences) : value :=
  dict_get (lit "notification_level") VNone (prefs_get user up).

(** Every stored dictionary has both keys. *)
Definition complete (up : Preferences) : Prop :=
  forall u p, prefs_lookup u up = Some p ->
    lookup (lit "auto_analyze") p <> None /\
    lookup (lit "notification_level") p <> None.

End SlackBot.

(* ================================================================== *)
(** * Concrete inputs for the examples *)

Module Examples.
Import PyStr Exn PyDate PyVal Config TaskManager MessageAnalyzer.

(** Monday 2024-03-11, 10:00. *)
Definition monday_morning : datetime := mk_datetime 2024 3 11 36000000000.

(** Friday 2024-03-15, 10:00 and 00:00. *)
Definition march_15_morning : datetime := mk_datetime 2024 3 15 36000000000.
Definition march_15_midnight : datetime := mk_datetime 2024 3 15 0.

(** One iteration order of a set of strings: the elements in the order of
    their last occurrence. *)
Definition set_order (l : list str) : list str :=
  nodup (list_eq_dec ascii_dec) l.



(** A question that carries task keywords and a strong indicator. *)
Definition question_with_keywords : str :=
  lit "Please, what is the deadline for the urgent task? ".

(** [repr] on the values of the examples that are not strings. *)
Definition repr_small (v : value) : str :=
  match v with
  | VNone => lit "None"
  | VBool true => lit "True"
  | VBool false => lit "False"
  | _ => []
  end.

(** [s.capitalize()] on a text of ASCII letters: the first letter in upper
    case, the others in lower case. *)
Definition upper_ascii (c : ascii) : ascii :=
  if in_range 97 122 (code c) then ascii_of_N (code c - 32) else c.

Definition capitalize_ascii (s : str) : str :=
  match s with
  | [] => []
  | c :: r => upper_ascii c :: lower r
  end.

(** Two remote services that count the tasks they hold: the list manager
    accepts every request, the page database answers 500. *)
Definition demo_post (url : str) (headers : list (str * str)) (body : value)
    (w : nat) : result Response * nat :=
  if contains (lit "todoist") url
  then (Return (mk_response 200 (lit "ok")
                  (Return (VDict [(lit "id", VInt (Z.of_nat w))]))), S w)
  else (Return (mk_response 500 (lit "down")
                  (Raise (mk_exn JSONDecodeError (lit "Expecting value")))), w).

(** Both credentials configured. *)
Definition demo_config : Config :=
  mk_config [] (lit "todoist-key") (lit "notion-key") false.



Definition demo_task : value :=
  VDict [ (lit "title", VStr (lit "Write report"));
          (lit "priority", VStr (lit "high")) ].







(** Three replies of a text-generation backend. *)
Definition reply_is_task_only : str :=
  lit "{" ++ q (lit "is_task") ++ lit ": true}".

Definition reply_urgent_task : str :=
  lit "{" ++ q (lit "is_task") ++ lit ": true, "
  ++ q (lit "confidence") ++ lit ": 7, "
  ++ q (lit "task_details") ++ lit ": {"
  ++ q (lit "title") ++ lit ": " ++ q (lit "Ship it") ++ lit ", "
  ++ q (lit "priority") ++ lit ": " ++ q (lit "urgent") ++ lit "}}".

Definition reply_confidence_5 : str :=
  lit "{" ++ q (lit "contains_task") ++ lit ": true, "
  ++ q (lit "confidence") ++ lit ": 5}".

(** [json.loads] on these three replies; every other text of the examples
    is not JSON. *)
Definition demo_json_loads (s : str) : result value :=
  if str_eqb s reply_is_task_only
  then Return (VDict [ (lit "is_task", VBool true) ])
  else if str_eqb s reply_urgent_task
  then Return (VDict
         [ (lit "is_task", VBool true);
           (lit "confidence", VInt 7);
           (lit "task_details", VDict
             [ (lit "title", VStr (lit "Ship it"));
               (lit "priority", VStr (lit "urgent")) ]) ])
  else if str_eqb s reply_confidence_5
  then Return (VDict [ (lit "contains_task", VBool true);
                       (lit "confidence", VInt 5) ])
  else Raise (mk_exn JSONDecodeError (lit "Expecting value")).

(** A backend that answers every prompt with the same reply. *)
Definition always (reply : str) (prompt : str) : result str := Return reply.

(** A backend that cannot be reached. *)
Definition unreachable (prompt : str) : result str :=
  Raise (mk_exn ConnectionError (lit "Connection refused")).

(** [float(s)] on the strings of the examples: none of them is a number. *)
Definition no_number (s : str) : option PyFloat.float := None.

(** A configuration with an OpenAI key, and one without. *)
Definition openai_config : Config :=
  mk_config (lit "sk-live") [] [] false.

Definition local_config : Config := mk_config [] [] [] false.

(** A Slack client without a connection, and a clock that stands still. *)
Definition offline (x : value) (w : nat) : result value * nat :=
  (Raise (mk_exn ConnectionError (lit "Connection refused")), w).

Definition offline2 (x y : value) (w : nat) : result value * nat :=
  (Raise (mk_exn ConnectionError (lit "Connection refused")), w).

Definition frozen_clock (w : nat) : datetime := monday_morning.

(** A message that mentions the user U1 twice and the user U2 once. *)
Definition mention_event : dict :=
  [ (lit "text", VStr (lit "<@U1> please review this with <@U2>, thanks <@U1>"));
    (lit "user", VStr (lit "U3"));
    (lit "channel", VStr (lit "C1"));
    (lit "ts", VStr (lit "1710151200.000100")) ].

End Examples.

(* ================================================================== *)
(** * Facts about strings *)

(** From here on every argument of a lemma is written out. *)
Unset Implicit Arguments.

Module PyStrFacts.
Import PyStr.

Lemma eqc_true (a b : ascii) : eqc a b = true <-> a = b.
Proof. apply Ascii.eqb_eq. Qed.

Lemma str_eqb_true (a b : str) : str_eqb a b = true <-> a = b.
Proof.
  revert b. induction a as [|x a IH]; intros [|y b]; simpl;
    try (split; intros; congruence).
  rewrite andb_true_iff, eqc_true, IH. split.
  - now intros [-> ->].
  - intros E. inversion E. auto.
Qed.







Lemma lstrip_length (s : str) : List.length (lstrip s) <= List.length s.
Proof.
  induction s as [|c r IH]; simpl; trivial.
  destruct (isspace c); simpl; lia.
Qed.

Lemma strip_length (s : str) : List.length (strip s) <= List.length s.
Proof.
  unfold strip, rstrip. rewrite length_rev.
  etransitivity; [apply lstrip_length|]. rewrite length_rev.
  apply lstrip_length.
Qed.




(** What [strip_prefix] leaves is what follows the prefix. *)
Lemma strip_prefix_eq (p : str) : forall s r,
  strip_prefix p s = Some r -> s = p ++ r.
Proof.
  induction p as [|a p IH]; intros s r; simpl.
  - intros E. now inversion E.
  - destruct s as [|b s]; [discriminate|].
    destruct (eqc a b) eqn:Q; [|discriminate].
    apply eqc_true in Q. subst b. intros E. now rewrite (IH s r E).
Qed.

End PyStrFacts.

(* ================================================================== *)
(** * Facts about dates *)

Module PyDateFacts.
Import PyStr Exn PyDate.
Local Open Scope Z_scope.

Lemma month_day_table :
  forallb (fun k => (Nat.eqb k 365 || month_day_ok false k)
                    && month_day_ok true k)%bool
    (seq 0 366) = true.
Proof. vm_compute. reflexivity. Qed.

Lemma month_day_spec (leapyear : bool) (n : Z) :
  0 <= n < 365 + b2z leapyear ->
  1 <= fst (month_day leapyear n) <= 12 /\
  1 <= snd (month_day leapyear n)
    <= DAYS_IN_MONTH (fst (month_day leapyear n))
       + b2z ((fst (month_day leapyear n) =? 2) && leapyear) /\
  DAYS_BEFORE_MONTH (fst (month_day leapyear n))
    + b2z ((2 <? fst (month_day leapyear n)) && leapyear)
    + snd (month_day leapyear n) = n + 1.
Proof.
  intros Hn.
  assert (Hin : In (Z.to_nat n) (seq 0 366)).
  { apply in_seq. destruct leapyear; simpl in Hn; lia. }
  pose proof (proj1 (forallb_forall _ _) month_day_table _ Hin) as H.
  apply andb_prop in H. destruct H as [H1 H2].
  assert (Hk : month_day_ok leapyear (Z.to_nat n) = true).
  { destruct leapyear; trivial.
    apply orb_prop in H1. destruct H1 as [H1|H1]; trivial.
    apply Nat.eqb_eq in H1. simpl in Hn. lia. }
  unfold month_day_ok in Hk. rewrite Z2Nat.id in Hk by lia.
  destruct (month_day leapyear n) as [m d]; simpl.
  repeat (apply andb_prop in Hk; destruct Hk as [Hk ?]).
  lia.
Qed.

Lemma ord2ymd_unfold (o : Z) :
  ord2ymd o =
  let n := o - 1 in
  let n400 := n / DI400Y in
  let r1 := n mod DI400Y in
  let n100 := r1 / DI100Y in
  let r2 := r1 mod DI100Y in
  let n4 := r2 / DI4Y in
  let r3 := r2 mod DI4Y in
  let n1 := r3 / 365 in
  let r4 := r3 mod 365 in
  let yr := n400 * 400 + 1 + n100 * 100 + n4 * 4 + n1 in
  if ((n1 =? 4) || (n100 =? 4))%bool then (yr - 1, 12, 31)
  else
    let leapyear := ((n1 =? 3) && (negb (n4 =? 24) || (n100 =? 3)))%bool in
    (yr, fst (month_day leapyear r4), snd (month_day leapyear r4)).
Proof.
  unfold ord2ymd, month_day. cbv zeta.
  destruct (_ || _)%bool; [reflexivity|].
  destruct (_ <? _); reflexivity.
Qed.

Ltac split_eqb :=
  repeat match goal with
         | |- context [?a =? ?b] => destruct (Z.eqb_spec a b)
         | |- context [?a <? ?b] => destruct (Z.ltb_spec a b)
         end.

(** The leap-year flag of [_ord2ymd] agrees with [_is_leap]. *)
Lemma leap_flag (n400 n100 n4 n1 : Z) :
  0 <= n100 <= 3 -> 0 <= n4 <= 24 -> 0 <= n1 <= 3 ->
  is_leap (n400 * 400 + 1 + n100 * 100 + n4 * 4 + n1) =
  ((n1 =? 3) && (negb (n4 =? 24) || (n100 =? 3)))%bool.
Proof.
  intros H100 H4 H1. unfold is_leap.
  split_eqb; simpl; try reflexivity; exfalso;
    Z.div_mod_to_equations; lia.
Qed.

Lemma days_before_year_split (n400 n100 n4 n1 : Z) :
  0 <= n100 <= 3 -> 0 <= n4 <= 24 -> 0 <= n1 <= 3 ->
  days_before_year (n400 * 400 + 1 + n100 * 100 + n4 * 4 + n1) =
  DI400Y * n400 + DI100Y * n100 + DI4Y * n4 + 365 * n1.
Proof.
  intros H100 H4 H1. unfold days_before_year, DI400Y, DI100Y, DI4Y.
  Z.div_mod_to_equations; lia.
Qed.

Lemma days_in_month_flag (y m : Z) :
  days_in_month y m = DAYS_IN_MONTH m + b2z ((m =? 2) && is_leap y).
Proof.
  unfold days_in_month.
  destruct (Z.eqb_spec m 2) as [->|]; simpl; [|lia].
  destruct (is_leap y); reflexivity.
Qed.

(** [_ord2ymd] returns a calendar date, and [_ymd2ord] maps it back. *)
Lemma ord2ymd_spec (o : Z) :
  1 <= o ->
  match ord2ymd o with
  | (y, m, d) =>
      1 <= y /\ 1 <= m <= 12 /\ 1 <= d <= days_in_month y m
      /\ ymd2ord y m d = o
  end.
Proof.
  intros Ho. rewrite ord2ymd_unfold. cbv zeta.
  pose proof (Z.div_mod (o - 1) DI400Y ltac:(discriminate)) as E1.
  pose proof (Z.mod_pos_bound (o - 1) DI400Y eq_refl) as B1.
  set (n400 := (o - 1) / DI400Y) in *. set (r1 := (o - 1) mod DI400Y) in *.
  pose proof (Z.div_mod r1 DI100Y ltac:(discriminate)) as E2.
  pose proof (Z.mod_pos_bound r1 DI100Y eq_refl) as B2.
  set (n100 := r1 / DI100Y) in *. set (r2 := r1 mod DI100Y) in *.
  pose proof (Z.div_mod r2 DI4Y ltac:(discriminate)) as E3.
  pose proof (Z.mod_pos_bound r2 DI4Y eq_refl) as B3.
  set (n4 := r2 / DI4Y) in *. set (r3 := r2 mod DI4Y) in *.
  pose proof (Z.div_mod r3 365 ltac:(discriminate)) as E4.
  pose proof (Z.mod_pos_bound r3 365 eq_refl) as B4.
  set (n1 := r3 / 365) in *. set (r4 := r3 mod 365) in *.
  clearbody n400 r1 n100 r2 n4 r3 n1 r4.
  unfold DI400Y, DI100Y, DI4Y in *.
  assert (H400 : 0 <= n400) by lia.
  assert (H100 : 0 <= n100 <= 4) by lia.
  assert (H4 : 0 <= n4 <= 24) by lia.
  assert (H1 : 0 <= n1 <= 4) by lia.
  destruct (Z.eqb_spec n1 4) as [e1|ne1]; simpl.
  - (* the last day of a leap year *)
    assert (n4 <= 23 /\ n100 <= 3) as [? ?] by lia.
    replace (n400 * 400 + 1 + n100 * 100 + n4 * 4 + n1 - 1)
      with (n400 * 400 + 1 + n100 * 100 + n4 * 4 + 3) by lia.
    unfold ymd2ord, days_before_month.
    rewrite days_in_month_flag, days_before_year_split by lia.
    rewrite leap_flag by lia.
    unfold DI400Y, DI100Y, DI4Y.
    replace (n4 =? 24) with false by (symmetry; apply Z.eqb_neq; lia).
    cbn -[Z.mul Z.add Z.sub]. lia.
  - destruct (Z.eqb_spec n100 4) as [e100|ne100]; simpl.
    + (* the last day of a 400-year cycle *)
      assert (n4 = 0 /\ n1 = 0) as [-> ->] by lia.
      replace (n400 * 400 + 1 + n100 * 100 + 0 * 4 + 0 - 1)
        with (n400 * 400 + 1 + 3 * 100 + 24 * 4 + 3) by lia.
      unfold ymd2ord, days_before_month.
      rewrite days_in_month_flag, days_before_year_split by lia.
      rewrite leap_flag by lia.
      unfold DI400Y, DI100Y, DI4Y. cbn -[Z.mul Z.add Z.sub]. lia.
    + assert (H100' : 0 <= n100 <= 3) by lia.
      assert (H1' : 0 <= n1 <= 3) by lia.
      assert (L := leap_flag n400 n100 n4 n1 H100' H4 H1').
      set (leapyear := ((n1 =? 3) && (negb (n4 =? 24) || (n100 =? 3)))%bool)
        in *.
      assert (Hr : 0 <= r4 < 365 + b2z leapyear)
        by (destruct leapyear; simpl; lia).
      destruct (month_day_spec leapyear r4 Hr) as (Hm & Hd & Hs).
      unfold ymd2ord, days_before_month.
      rewrite days_in_month_flag, days_before_year_split by lia.
      rewrite L. unfold DI400Y, DI100Y, DI4Y. lia.
Qed.


Lemma days_before_year_mono (a b : Z) :
  a <= b -> days_before_year a <= days_before_year b.
Proof. unfold days_before_year. intros H. Z.div_mod_to_equations; lia. Qed.

Lemma days_before_year_next (y : Z) :
  days_before_year (y + 1) = days_before_year y + 365 + b2z (is_leap y).
Proof.
  unfold days_before_year, is_leap.
  split_eqb; simpl; Z.div_mod_to_equations; lia.
Qed.

(** The day of the year of a calendar date lies within its year. *)
Lemma day_of_year_bounds (y m d : Z) :
  1 <= m <= 12 -> 1 <= d <= days_in_month y m ->
  1 <= days_before_month y m + d <= 365 + b2z (is_leap y).
Proof.
  intros Hm Hd. rewrite days_in_month_flag in Hd. unfold days_before_month.
  assert (m = 1 \/ m = 2 \/ m = 3 \/ m = 4 \/ m = 5 \/ m = 6 \/ m = 7
          \/ m = 8 \/ m = 9 \/ m = 10 \/ m = 11 \/ m = 12) as Hc by lia.
  set (l := is_leap y) in *. clearbody l.
  destruct l;
    repeat (destruct Hc as [->|Hc]; [cbn -[Z.add Z.mul Z.sub] in *; lia|]);
    subst; cbn -[Z.add Z.mul Z.sub] in *; lia.
Qed.

Lemma ymd2ord_bounds (y m d : Z) :
  1 <= m <= 12 -> 1 <= d <= days_in_month y m ->
  days_before_year y < ymd2ord y m d <= days_before_year (y + 1).
Proof.
  intros Hm Hd. pose proof (day_of_year_bounds y m d Hm Hd).
  rewrite days_before_year_next. unfold ymd2ord. lia.
Qed.

(** Within one year, the month and the day are determined by the day of
    the year. *)
Lemma day_of_year_inj (y m d m' d' : Z) :
  1 <= m <= 12 -> 1 <= d <= days_in_month y m ->
  1 <= m' <= 12 -> 1 <= d' <= days_in_month y m' ->
  days_before_month y m + d = days_before_month y m' + d' ->
  m = m' /\ d = d'.
Proof.
  intros Hm Hd Hm' Hd' E.
  rewrite days_in_month_flag in Hd, Hd'. unfold days_before_month in E.
  assert (m = 1 \/ m = 2 \/ m = 3 \/ m = 4 \/ m = 5 \/ m = 6 \/ m = 7
          \/ m = 8 \/ m = 9 \/ m = 10 \/ m = 11 \/ m = 12) as Hc by lia.
  assert (m' = 1 \/ m' = 2 \/ m' = 3 \/ m' = 4 \/ m' = 5 \/ m' = 6 \/ m' = 7
          \/ m' = 8 \/ m' = 9 \/ m' = 10 \/ m' = 11 \/ m' = 12) as Hc' by lia.
  set (l := is_leap y) in *. clearbody l.
  destruct l;
    repeat (destruct Hc as [->|Hc]);
    try subst m;
    repeat (destruct Hc' as [->|Hc']);
    try subst m'; cbn -[Z.add Z.mul Z.sub] in *; lia.
Qed.

Lemma ymd2ord_inj (y m d y' m' d' : Z) :
  1 <= m <= 12 -> 1 <= d <= days_in_month y m ->
  1 <= m' <= 12 -> 1 <= d' <= days_in_month y' m' ->
  ymd2ord y m d = ymd2ord y' m' d' ->
  y = y' /\ m = m' /\ d = d'.
Proof.
  intros Hm Hd Hm' Hd' E.
  pose proof (ymd2ord_bounds y m d Hm Hd) as B.
  pose proof (ymd2ord_bounds y' m' d' Hm' Hd') as B'.
  assert (y = y').
  { destruct (Z.lt_trichotomy y y') as [L|[L|L]]; trivial; exfalso.
    - pose proof (days_before_year_mono (y + 1) (y')). lia.
    - pose proof (days_before_year_mono (y' + 1) (y)). lia. }
  subst y'. split; trivial.
  apply (day_of_year_inj y); trivial. unfold ymd2ord in E. lia.
Qed.

Lemma valid_ymd_iff (y m d : Z) :
  valid_ymd y m d = true <->
  (1 <= y <= 9999 /\ 1 <= m <= 12 /\ 1 <= d <= days_in_month y m).
Proof.
  unfold valid_ymd, MINYEAR, MAXYEAR.
  rewrite !andb_true_iff, !Z.leb_le. tauto.
Qed.

Lemma ymd2ord_range (y m d : Z) :
  valid_ymd y m d = true -> 1 <= ymd2ord y m d <= MAXORDINAL.
Proof.
  rewrite valid_ymd_iff. intros (Hy & Hm & Hd).
  pose proof (ymd2ord_bounds y m d Hm Hd) as B.
  pose proof (days_before_year_mono (1) (y)).
  pose proof (days_before_year_mono (y + 1) (10000)).
  change (days_before_year 1) with 0 in *.
  change (days_before_year 10000) with MAXORDINAL in *. lia.
Qed.

(** [_ord2ymd] of an ordinal in range is a date that [datetime] accepts. *)
Lemma ord2ymd_valid (o : Z) :
  1 <= o <= MAXORDINAL ->
  match ord2ymd o with
  | (y, m, d) => valid_ymd y m d = true /\ ymd2ord y m d = o
  end.
Proof.
  intros [Ho Hmax]. pose proof (ord2ymd_spec o Ho) as S.
  destruct (ord2ymd o) as [[y m] d]. destruct S as (Hy & Hm & Hd & E).
  split; trivial. apply valid_ymd_iff. repeat split; try lia.
  pose proof (ymd2ord_bounds y m d Hm Hd) as B.
  destruct (Z_le_gt_dec y 9999); trivial. exfalso.
  pose proof (days_before_year_mono (10000) (y)).
  change (days_before_year 10000) with MAXORDINAL in *. lia.
Qed.

(** [_ord2ymd] inverts [_ymd2ord] on the dates that [datetime] accepts. *)
Lemma ord2ymd_ymd2ord (y m d : Z) :
  valid_ymd y m d = true -> ord2ymd (ymd2ord y m d) = (y, m, d).
Proof.
  intros V. pose proof (ymd2ord_range y m d V) as R.
  pose proof (ord2ymd_valid _ R) as S.
  destruct (ord2ymd (ymd2ord y m d)) as [[y' m'] d'].
  destruct S as [V' E].
  apply valid_ymd_iff in V, V'.
  destruct V as (_ & Hm & Hd), V' as (_ & Hm' & Hd').
  destruct (ymd2ord_inj y' m' d' y m d Hm' Hd' Hm Hd E) as (-> & -> & ->).
  reflexivity.
Qed.


Lemma toordinal_range (t : datetime) :
  wf t -> 1 <= toordinal t <= MAXORDINAL.
Proof. intros [V _]. now apply ymd2ord_range. Qed.

(** [t + delta] when the resulting day is in range. *)
Lemma add_in_range (t : datetime) (delta : timedelta) :
  wf t -> 0 <= td_us delta < US_PER_DAY ->
  1 <= toordinal t + td_days delta + (tod t + td_us delta) / US_PER_DAY
    <= MAXORDINAL ->
  exists d,
    add t delta = Return d /\ wf d /\
    toordinal d =
      toordinal t + td_days delta + (tod t + td_us delta) / US_PER_DAY /\
    tod d = (tod t + td_us delta) mod US_PER_DAY.
Proof.
  intros [V T] U R. unfold add.
  set (o := toordinal t + td_days delta + (tod t + td_us delta) / US_PER_DAY)
    in *.
  replace ((0 <? o) && (o <=? MAXORDINAL))%bool with true
    by (symmetry; apply andb_true_iff; split;
        [apply Z.ltb_lt|apply Z.leb_le]; lia).
  pose proof (ord2ymd_valid _ R) as S.
  destruct (ord2ymd o) as [[y m] d]. destruct S as [V' E].
  eexists; split; [reflexivity|].
  repeat split; simpl; trivial;
    apply Z.mod_pos_bound; reflexivity.
Qed.

(** [t + delta] raises when the resulting day is out of range. *)
Lemma add_out_of_range (t : datetime) (delta : timedelta) :
  MAXORDINAL
    < toordinal t + td_days delta + (tod t + td_us delta) / US_PER_DAY ->
  exists e, add t delta = Raise e /\ cls e = OverflowError.
Proof.
  intros R. unfold add.
  replace (_ <=? MAXORDINAL) with false
    by (symmetry; apply Z.leb_gt; lia).
  rewrite andb_false_r. eexists; split; reflexivity.
Qed.

Lemma timedelta_days_ok (n : Z) :
  0 <= n <= 999999999 -> timedelta_days n = Return (mk_timedelta n 0).
Proof.
  intros H. unfold timedelta_days, new_timedelta.
  replace (n + 7 * 0 + 0 * US_PER_HOUR / US_PER_DAY) with n
    by (change (0 * US_PER_HOUR / US_PER_DAY) with 0; lia).
  replace (999999999 <? Z.abs n) with false
    by (symmetry; apply Z.ltb_ge; lia).
  reflexivity.
Qed.

(** [today + timedelta(days=n)] for a day that stays in range. *)
Lemma plus_days_ok (t : datetime) (n : Z) :
  wf t -> 0 <= n -> toordinal t + n <= MAXORDINAL ->
  exists d,
    plus_days t n = Return d /\ wf d /\
    toordinal d = toordinal t + n /\ tod d = tod t.
Proof.
  intros W Hn R. pose proof (toordinal_range t W) as B.
  unfold plus_days. rewrite timedelta_days_ok by (unfold MAXORDINAL in *; lia).
  simpl bind. destruct W as [V T].
  assert (Q : (tod t + 0) / US_PER_DAY = 0)
    by (apply Z.div_small; lia).
  destruct (@add_in_range t (mk_timedelta n 0)) as (d & E & Wd & O & T');
    simpl; try rewrite Q; try (unfold US_PER_DAY; lia); try (split; trivial).
  exists d. simpl in O, T'. rewrite Q in O.
  rewrite Z.add_0_r, Z.mod_small in T' by lia.
  repeat split; trivial; try lia; apply Wd.
Qed.

(** [today + timedelta(days=0)] is [today]. *)
Lemma plus_days_zero (t : datetime) : wf t -> plus_days t 0 = Return t.
Proof.
  intros [V T]. unfold plus_days.
  rewrite timedelta_days_ok by lia. simpl bind. unfold add.
  simpl td_days; simpl td_us.
  pose proof (ymd2ord_range _ _ _ V) as R.
  replace (toordinal t + 0 + (tod t + 0) / US_PER_DAY) with (toordinal t)
    by (rewrite Z.div_small; lia).
  replace ((0 <? toordinal t) && (toordinal t <=? MAXORDINAL))%bool with true
    by (symmetry; apply andb_true_iff; split;
        [apply Z.ltb_lt|apply Z.leb_le]; unfold toordinal; lia).
  unfold toordinal. rewrite ord2ymd_ymd2ord by trivial.
  rewrite Z.add_0_r, Z.mod_small by lia. now destruct t.
Qed.

Lemma weekday_shift (t d : datetime) (n : Z) :
  toordinal d = toordinal t + n -> weekday d = (weekday t + n) mod 7.
Proof.
  unfold weekday. intros ->.
  rewrite Zplus_mod_idemp_l. f_equal. lia.
Qed.

Lemma days_in_month_le (y m : Z) : 1 <= m <= 12 -> days_in_month y m <= 31.
Proof.
  intros Hm. rewrite days_in_month_flag.
  assert (m = 1 \/ m = 2 \/ m = 3 \/ m = 4 \/ m = 5 \/ m = 6 \/ m = 7
          \/ m = 8 \/ m = 9 \/ m = 10 \/ m = 11 \/ m = 12) as Hc by lia.
  destruct (is_leap y);
    repeat (destruct Hc as [->|Hc]; [cbn; lia|]); subst; cbn; lia.
Qed.

Lemma digit_inj (a b : Z) : digit a = digit b -> a mod 10 = b mod 10.
Proof.
  unfold digit. intros E.
  pose proof (Z.mod_pos_bound a 10 eq_refl).
  pose proof (Z.mod_pos_bound b 10 eq_refl).
  apply (f_equal N_of_ascii) in E.
  rewrite !N_ascii_embedding in E by lia. lia.
Qed.

(** The rendering ['%Y-%m-%d'] determines the calendar date. *)
Lemma strftime_Ymd_inj (a b : datetime) :
  wf a -> wf b -> strftime_Ymd a = strftime_Ymd b ->
  year a = year b /\ month a = month b /\ day a = day b.
Proof.
  intros [Va _] [Vb _] E.
  apply valid_ymd_iff in Va, Vb.
  destruct Va as (Ya & Ma & Da), Vb as (Yb & Mb & Db).
  pose proof (days_in_month_le (year a) (month a) Ma).
  pose proof (days_in_month_le (year b) (month b) Mb).
  unfold strftime_Ymd, pad4, pad2 in E. simpl in E.
  injection E as E1 E2 E3 E4 E5 E6 E7 E8.
  apply digit_inj in E1, E2, E3, E4, E5, E6, E7, E8.
  repeat split; Z.div_mod_to_equations; lia.
Qed.

Lemma toordinal_eq (a b : datetime) :
  year a = year b -> month a = month b -> day a = day b ->
  toordinal a = toordinal b.
Proof. unfold toordinal. now intros -> -> ->. Qed.

End PyDateFacts.

(* ================================================================== *)
(** * Facts about floats and exceptions *)

Module PyFloatFacts.
Import PyFloat.

Lemma ltb_leb (a b : float) : ltb a b = true -> leb a b = true.
Proof.
  unfold ltb, leb, SFltb, SFleb.
  destruct (SFcompare a b) as [[| |]|]; intros H; trivial; discriminate.
Qed.

(** [max(0.0, min(1.0, c))] lies in the unit interval for every float [c],
    a NaN and the infinities included. *)
Lemma clamp_in_unit (c : float) :
  in_unit (max2 f0_0 (min2 f1_0 c)) = true.
Proof.
  unfold min2. destruct (ltb c f1_0) eqn:L1.
  - unfold max2. destruct (ltb f0_0 c) eqn:L0.
    + unfold in_unit. now rewrite (ltb_leb _ _ L0), (ltb_leb _ _ L1).
    + vm_compute. reflexivity.
  - vm_compute. reflexivity.
Qed.

End PyFloatFacts.

Module ExnFacts.
Import Exn.

Lemma Return_inj (A : Type) (x y : A) : Return x = Return y -> x = y.
Proof. intros H. now inversion H. Qed.

Lemma bind_Return (A B : Type) (r : result A) (k : A -> result B) (b : B) :
  bind r k = Return b -> exists a, r = Return a /\ k a = Return b.
Proof. destruct r as [a|e]; simpl; [eauto|discriminate]. Qed.

End ExnFacts.


(* ================================================================== *)
(** * Facts about the rule-based classifier *)

Module SimpleFacts.
Import PyStr Re Exn PyDate PyStrFacts ExnFacts SimpleMessageAnalyzer Examples.

Section Rules.

Variable list_of_set : list str -> list str.
Implicit Types (today : datetime) (message : str).

Lemma make_priority_cases message :
  make_priority message = lit "high" \/ make_priority message = lit "low"
  \/ make_priority message = lit "medium".
Proof.
  unfold make_priority.
  destruct (any_in high_priority_words _); auto.
  destruct (any_in low_priority_words _); auto.
Qed.

(** What [_extract_task_details] returns, when the due date is resolved. *)
Lemma extract_task_details_fields today message d :
  _extract_task_details list_of_set today message = Return d ->
  title d = make_title message /\ description d = message
  /\ priority d = make_priority message.
Proof.
  unfold _extract_task_details.
  destruct (_extract_due_date today message) as [due|e]; unfold bind;
    [|discriminate].
  intros E. apply Return_inj in E. subst d. cbn [title description priority]. auto.
Qed.

(** [analyze_message] returns details exactly on the branch that sets
    [is_task]. *)
Lemma analyze_message_shape today message a :
  analyze_message list_of_set today message = Return a ->
  (is_task a = true /\ decide_is_task message = true
   /\ confidence a = score_confidence (task_score (lower message))
   /\ exists d, task_details a = Some d
                /\ _extract_task_details list_of_set today message = Return d)
  \/ (is_task a = false /\ decide_is_task message = false
      /\ confidence a =
           PyFloat.sub PyFloat.f1_0
             (score_confidence (task_score (lower message)))
      /\ task_details a = None).
Proof.
  unfold analyze_message. cbv zeta.
  destruct (decide_is_task message).
  - destruct (_extract_task_details list_of_set today message) as [d|e] eqn:E;
      unfold bind; [|discriminate].
    intros H. apply Return_inj in H. subst a. left. cbn [is_task confidence task_details].
    eauto 6.
  - intros H. apply Return_inj in H. subst a. right. cbn [is_task confidence task_details].
    auto.
Qed.

Lemma analyze_message_not_task today message :
  decide_is_task message = false ->
  exists a, analyze_message list_of_set today message = Return a
            /\ is_task a = false /\ task_details a = None.
Proof.
  intros D. unfold analyze_message. cbv zeta. rewrite D.
  eexists; split; [reflexivity|]. cbn [is_task task_details]. auto.
Qed.

End Rules.

(** C5. A text that ends with a question mark once stripped, and whose
    lower-cased form contains none of "could you", "can you", "will you",
    is classified as not a task by the rule-based classifier, whatever its
    keyword score and whatever strong indicator it contains. *)
Theorem question_is_not_a_task :
  forall (list_of_set : list str -> list str) (today : datetime)
         (message : str),
    endswith (lit "?") (strip message) = true ->
    any_in polite_requests (lower message) = false ->
    decide_is_task message = false /\
    exists a, analyze_message list_of_set today message = Return a
              /\ is_task a = false /\ task_details a = None.
Proof.
  intros los today message Q P.
  assert (D : decide_is_task message = false).
  { unfold decide_is_task. cbv zeta. rewrite Q, P. reflexivity. }
  split; trivial. now apply analyze_message_not_task.
Qed.

Lemma question_is_not_a_task_witness :
  any_in strong_indicators (lower question_with_keywords) = true
  /\ decide_is_task question_with_keywords = false.
Proof.
  assert (Q : endswith (lit "?") (strip question_with_keywords) = true)
    by (vm_compute; reflexivity).
  assert (P : any_in polite_requests (lower question_with_keywords) = false)
    by (vm_compute; reflexivity).
  split.
  - vm_compute; reflexivity.
  - exact (proj1 (question_is_not_a_task set_order monday_morning
                    question_with_keywords Q P)).
Defined.


(** ** The title *)






End SimpleFacts.

(* ================================================================== *)
(** * Facts about the AI-backed classifier *)

Module LlamaFacts.
Import PyStr Re Exn PyDate PyVal PyFloatFacts ExnFacts LlamaMessageAnalyzer.

Lemma in_strs_true (p : value) (l : list str) :
  in_strs p l = true -> exists s, p = VStr s /\ In s l.
Proof.
  unfold in_strs. intros H. apply existsb_exists in H.
  destruct H as (s & I & E). destruct p; try discriminate.
  simpl in E. apply PyStrFacts.str_eqb_true in E. subst. eauto.
Qed.

Section Runtime.

Variable float_of_str : str -> option PyFloat.float.
Variable repr : value -> str.
Variable json_loads : str -> result value.
Variable llm : str -> result str.

(** The priority after the check of [_validate_result]: one of the three
    allowed strings, and ["medium"] whenever the parsed priority is not one
    of them. *)
Lemma validate_details_priority (details : value) (d : TaskDetails) :
  validate_details repr details = Return d ->
  (exists s, priority d = VStr s /\ In s allowed_priorities) /\
  (forall p, get (lit "priority") (VStr (lit "medium")) details = Return p ->
             in_strs p allowed_priorities = false ->
             priority d = VStr (lit "medium")).
Proof.
  unfold validate_details. intros H.
  apply bind_Return in H. destruct H as (t & _ & H).
  apply bind_Return in H. destruct H as (ds & _ & H).
  apply bind_Return in H. destruct H as (p & Hp & H).
  apply bind_Return in H. destruct H as (due & _ & H).
  apply bind_Return in H. destruct H as (tg & _ & H).
  apply Return_inj in H. subst d. cbn [priority]. split.
  - destruct (in_strs p allowed_priorities) eqn:I; cbn [negb].
    + now apply in_strs_true.
    + exists (lit "medium"). split; trivial. right; left; reflexivity.
  - intros p' Hp' I. rewrite Hp in Hp'. apply Return_inj in Hp'. subst p'.
    now rewrite I.
Qed.

(** What [_validate_result] returns: the clamped confidence, [is_task] as
    parsed, and details exactly when both [is_task] and the parsed
    [task_details] are true values. *)
Lemma validate_result_shape (today : datetime) (result_ : value)
    (a : Analysis) :
  _validate_result float_of_str repr today result_ = Return a ->
  exists it c td,
    get (lit "is_task") (VBool false) result_ = Return it /\
    get (lit "task_details") VNone result_ = Return td /\
    is_task a = it /\
    confidence a = PyFloat.max2 PyFloat.f0_0 (PyFloat.min2 PyFloat.f1_0 c) /\
    ((truthy it && truthy td)%bool = true ->
       exists d, task_details a = Some d
                 /\ validate_details repr td = Return d) /\
    ((truthy it && truthy td)%bool = false -> task_details a = None).
Proof.
  unfold _validate_result. intros H.
  apply bind_Return in H. destruct H as (it & Hit & H).
  apply bind_Return in H. destruct H as (cv & _ & H).
  apply bind_Return in H. destruct H as (c & _ & H).
  cbv zeta in H.
  apply bind_Return in H. destruct H as (td & Htd & H).
  exists it, c, td.
  destruct (truthy it && truthy td)%bool.
  - apply bind_Return in H. destruct H as (d & Hd & H).
    apply Return_inj in H. subst a.
    cbn [is_task confidence task_details].
    repeat split; trivial; [eauto|discriminate].
  - apply Return_inj in H. subst a.
    cbn [is_task confidence task_details].
    repeat split; trivial. discriminate.
Qed.

(** [analyze_message] returns either a validated result or the safe
    default. *)
Lemma analyze_message_cases (today : datetime) (message : str) :
  (exists result_,
     _validate_result float_of_str repr today result_
     = Return (analyze_message float_of_str repr json_loads llm today message))
  \/ (exists e,
        analyze_message float_of_str repr json_loads llm today message
        = safe_default e).
Proof.
  unfold analyze_message.
  destruct (analyze_try float_of_str repr json_loads llm today message)
    as [a|e] eqn:E.
  - left. unfold analyze_try in E.
    apply bind_Return in E. destruct E as (text & _ & E). cbv zeta in E.
    apply bind_Return in E. destruct E as (r & _ & E). eauto.
  - right. eauto.
Qed.

Lemma analyze_message_confidence (today : datetime) (message : str) :
  PyFloat.in_unit
    (confidence
       (analyze_message float_of_str repr json_loads llm today message))
  = true.
Proof.
  destruct (analyze_message_cases today message) as [(r & H)|(e & ->)].
  - apply validate_result_shape in H.
    destruct H as (it & c & td & _ & _ & _ & -> & _).
    apply clamp_in_unit.
  - vm_compute. reflexivity.
Qed.

(** Details are present only when [is_task] is a true value. *)
Lemma analyze_message_details (today : datetime) (message : str)
    (d : TaskDetails) :
  task_details
    (analyze_message float_of_str repr json_loads llm today message) = Some d ->
  truthy (is_task
            (analyze_message float_of_str repr json_loads llm today message))
  = true
  /\ exists s, priority d = VStr s /\ In s allowed_priorities.
Proof.
  destruct (analyze_message_cases today message) as [(r & H)|(e & ->)].
  - apply validate_result_shape in H.
    destruct H as (it & c & td & _ & _ & -> & _ & Hs & Hn).
    intros E.
    destruct (truthy it && truthy td)%bool eqn:T.
    + destruct (Hs eq_refl) as (d' & E' & V). rewrite E in E'.
      inversion E'; subst d'.
      apply andb_prop in T. split; [tauto|].
      now apply validate_details_priority in V.
    + rewrite (Hn eq_refl) in E. discriminate.
  - cbn. discriminate.
Qed.

End Runtime.

End LlamaFacts.

(* ================================================================== *)
(** * The orchestrator: one outcome per backend, failures isolated *)

Module OrchestratorFacts.
Import PyStr Exn PyVal Config TaskManager TaskOrchestrator Examples.

Section Loop.

Variable World : Type.
Implicit Types (ms : list (TaskManager World)) (task : value) (w : World).







Lemma attempt_return m task w r w' :
  TaskManager.create_task m task w = (Return r, w') ->
  attempt m task w = (mk_outcome (class_name m) true (Some r) None, w').
Proof. unfold attempt; intros ->; reflexivity. Qed.

End Loop.




(** C4 (amended). At startup the orchestrator registers the REST
    list-manager exactly when its credential is present, and never
    registers the page-database integration, whether its credential is
    present or not; no configuration raises an error. *)
Theorem registration_by_credentials :
  forall (World : Type)
         (post : str -> list (str * str) -> value -> World
                 -> result Response * World)
         (config : Config),
    init post config =
      (if nonempty (todoist_api_key config)
       then [TodoistManager post config] else []) /\
    registered (lit "TodoistManager") (init post config)
      = nonempty (todoist_api_key config) /\
    registered (lit "NotionManager") (init post config) = false.
Proof.
  intros World post config. unfold init.
  destruct (nonempty (todoist_api_key config));
    destruct (nonempty (notion_api_key config));
    repeat split; reflexivity.
Qed.

(** C4, as stated, fails for the page-database integration: with both
    credentials configured only the list manager is registered. *)
Lemma notion_is_not_registered :
  nonempty (notion_api_key demo_config) = true
  /\ registered (lit "NotionManager") (init demo_post demo_config) = false
  /\ ~ (registered (lit "NotionManager") (init demo_post demo_config) = true
        <-> nonempty (notion_api_key demo_config) = true).
Proof.
  split; [reflexivity|]. split; [reflexivity|].
  intros [_ H]. specialize (H eq_refl). discriminate.
Qed.

End OrchestratorFacts.

(* ================================================================== *)
(** * Facts about due dates *)

Module DueDateFacts.
Import PyStr Re Exn PyDate PyStrFacts PyDateFacts ExnFacts.
Import SimpleMessageAnalyzer Examples.
Local Open Scope Z_scope.

Lemma target_weekday_names (w : str) (k : Z) :
  In (w, k) weekday_names -> target_weekday (pattern_of w) = Some k.
Proof.
  unfold weekday_names. intros H.
  repeat (destruct H as [H|H];
          [inversion H; subst; vm_compute; reflexivity|]).
  destruct H.
Qed.

Lemma target_end_of_week :
  target_weekday (pattern_of (lit "end of week")) = Some 4
  /\ target_weekday (pattern_of (lit "eow")) = Some 4.
Proof. split; vm_compute; reflexivity. Qed.

(** The loop over [patterns] returns at the first pattern that matches;
    no entry of the list reaches the [continue]. *)
Lemma scan_first_match (today : datetime) (message_lower : str) :
  scan_patterns today message_lower patterns =
  match first_match message_lower with
  | Some p => resolve today p
  | None => None
  end.
Proof.
  pose proof (@target_weekday_names (lit "monday") 0) as T0.
  pose proof (@target_weekday_names (lit "tuesday") 1) as T1.
  pose proof (@target_weekday_names (lit "wednesday") 2) as T2.
  pose proof (@target_weekday_names (lit "thursday") 3) as T3.
  pose proof (@target_weekday_names (lit "friday") 4) as T4.
  destruct target_end_of_week as [T5 T6].
  unfold first_match, patterns. cbn [scan_patterns find fst].
  rewrite T0, T1, T2, T3, T4, T5, T6
    by (unfold weekday_names; simpl; tauto).
  repeat match goal with
         | |- context [search_word ?w message_lower] =>
             destruct (search_word w message_lower)
         end;
    cbn [resolve];
    rewrite ?T0, ?T1, ?T2, ?T3, ?T4, ?T5, ?T6
      by (unfold weekday_names; simpl; tauto);
    reflexivity.
Qed.

Lemma weekday_bounds (t : datetime) : 0 <= weekday t < 7.
Proof. unfold weekday. apply Z.mod_pos_bound. reflexivity. Qed.

(** [days_ahead] is the distance to the next day of weekday [k] strictly
    after today. *)
Lemma days_ahead_spec (today : datetime) (k : Z) :
  0 <= k < 7 ->
  1 <= days_ahead today k <= 7 /\
  (weekday today + days_ahead today k) mod 7 = k /\
  (forall j, 1 <= j < days_ahead today k -> (weekday today + j) mod 7 <> k) /\
  (weekday today = k -> days_ahead today k = 7).
Proof.
  intros Hk. pose proof (weekday_bounds today) as Hw.
  unfold days_ahead. set (wd := weekday today) in *. clearbody wd.
  cbv zeta. destruct (Z.eqb_spec ((k - wd) mod 7) 0) as [E|E].
  - repeat split; try lia.
    + Z.div_mod_to_equations; lia.
    + intros j Hj. Z.div_mod_to_equations; lia.
  - repeat split.
    + Z.div_mod_to_equations; lia.
    + Z.div_mod_to_equations; lia.
    + Z.div_mod_to_equations; lia.
    + intros j Hj. Z.div_mod_to_equations; lia.
    + intros ->. exfalso. apply E. rewrite Z.sub_diag. reflexivity.
Qed.

Lemma weekday_names_range (w : str) (k : Z) :
  In (w, k) weekday_names -> 0 <= k < 7.
Proof.
  unfold weekday_names. intros H.
  repeat (destruct H as [H|H]; [inversion H; subst; lia|]).
  destruct H.
Qed.

(** The date [n] days after today, for a day that stays in range. *)
Lemma date_after_ok (today : datetime) (n : Z) :
  wf today -> 0 <= n -> toordinal today + n <= MAXORDINAL ->
  exists d,
    plus_days today n = Return d /\
    date_after today n = Return (strftime_Ymd d) /\
    wf d /\ toordinal d = toordinal today + n.
Proof.
  intros W Hn R.
  destruct (plus_days_ok today n W Hn R) as (d & E & Wd & O & _).
  exists d. unfold date_after. rewrite E. repeat split; trivial; apply Wd.
Qed.

Lemma extract_due_date_first_match (today : datetime) (text : str)
    (p : str * option Z) (r : result str) :
  first_match (lower text) = Some p -> resolve today p = Some r ->
  _extract_due_date today text = (s <- r ;; Return (Some s)).
Proof.
  intros F R. unfold _extract_due_date. cbv zeta.
  now rewrite scan_first_match, F, R.
Qed.

(** C6. When the first matched date phrase of a text is a day name, the
    due date is the next day of that weekday strictly after the reference
    date: between 1 and 7 days later, never the reference date itself, and
    7 days later when the reference date falls on the named weekday.  (The
    reference date is at least a week before the last day that [datetime]
    can hold.) *)
Theorem weekday_is_strictly_after :
  forall (today : datetime) (text w : str) (k : Z),
    wf today ->
    toordinal today + 7 <= MAXORDINAL ->
    In (w, k) weekday_names ->
    first_match (lower text) = Some (w, None) ->
    exists d n,
      _extract_due_date today text = Return (Some (strftime_Ymd d)) /\
      plus_days today n = Return d /\
      1 <= n <= 7 /\
      toordinal d = toordinal today + n /\
      weekday d = k /\
      (forall j, 1 <= j < n -> (weekday today + j) mod 7 <> k) /\
      strftime_Ymd d <> strftime_Ymd today /\
      (weekday today = k -> n = 7).
Proof.
  intros today text w k W R I F.
  pose proof (weekday_names_range _ _ I) as Hk.
  destruct (days_ahead_spec today k Hk) as (Hn & Hmod & Hmin & Hsame).
  set (n := days_ahead today k) in *.
  destruct (@date_after_ok today n W) as (d & P & D & Wd & O); try lia.
  exists d, n. repeat split; trivial; try lia.
  - rewrite (@extract_due_date_first_match today text (w, None)
               (date_after today n) F).
    + now rewrite D.
    + cbn [resolve]. now rewrite (target_weekday_names _ _ I).
  - now rewrite (weekday_shift today d n O).
  - intros E. destruct (strftime_Ymd_inj d today Wd W E) as (Ey & Em & Ed).
    pose proof (toordinal_eq d today Ey Em Ed). lia.
Qed.

Lemma weekday_is_strictly_after_witness :
  weekday monday_morning = 0 /\
  exists d,
    _extract_due_date monday_morning (lit "Let's meet Monday")
    = Return (Some (strftime_Ymd d)) /\
    toordinal d = toordinal monday_morning + 7 /\
    strftime_Ymd d <> strftime_Ymd monday_morning.
Proof.
  assert (W : wf monday_morning)
    by (split; [reflexivity|vm_compute; intuition discriminate]).
  assert (R : toordinal monday_morning + 7 <= MAXORDINAL)
    by (vm_compute; discriminate).
  assert (I : In (lit "monday", 0) weekday_names) by (left; reflexivity).
  assert (F : first_match (lower (lit "Let's meet Monday"))
              = Some (lit "monday", None)) by (vm_compute; reflexivity).
  assert (M : weekday monday_morning = 0) by (vm_compute; reflexivity).
  split; trivial.
  destruct (weekday_is_strictly_after monday_morning (lit "Let's meet Monday")
              (lit "monday") 0 W R I F)
    as (d & n & E & _ & _ & O & _ & _ & N & S).
  exists d. rewrite <- (S M). auto.
Defined.


(** ** The order of the rules *)

Lemma resolve_patterns (today : datetime) (p : str * option Z) :
  In p patterns -> exists r, resolve today p = Some r.
Proof.
  pose proof (@target_weekday_names (lit "monday") 0) as T0.
  pose proof (@target_weekday_names (lit "tuesday") 1) as T1.
  pose proof (@target_weekday_names (lit "wednesday") 2) as T2.
  pose proof (@target_weekday_names (lit "thursday") 3) as T3.
  pose proof (@target_weekday_names (lit "friday") 4) as T4.
  destruct target_end_of_week as [T5 T6].
  unfold patterns. intros H.
  repeat (destruct H as [H|H];
          [subst p; cbn [resolve];
           rewrite ?T0, ?T1, ?T2, ?T3, ?T4, ?T5, ?T6
             by (unfold weekday_names; simpl; tauto);
           eexists; reflexivity|]).
  destruct H.
Qed.

Lemma first_match_in (message_lower : str) (p : str * option Z) :
  first_match message_lower = Some p -> In p patterns.
Proof. unfold first_match. intros H. now apply find_some in H. Qed.

Lemma first_match_leading (ml : str) :
  has_leading ml = true ->
  exists w n, In (w, n) leading_offsets /\ first_match ml = Some (w, Some n).
Proof.
  unfold has_leading, first_match, leading_offsets, patterns.
  cbn [existsb find fst].
  destruct (search_word (lit "today") ml);
    [intros _; do 2 eexists; split; [|reflexivity]; simpl; tauto|].
  destruct (search_word (lit "tomorrow") ml);
    [intros _; do 2 eexists; split; [|reflexivity]; simpl; tauto|].
  destruct (search_word (lit "next week") ml);
    [intros _; do 2 eexists; split; [|reflexivity]; simpl; tauto|].
  destruct (search_word (lit "next month") ml);
    [intros _; do 2 eexists; split; [|reflexivity]; simpl; tauto|].
  discriminate.
Qed.

Lemma first_match_weekday (ml : str) :
  has_leading ml = false -> has_weekday ml = true ->
  exists w k, In (w, k) weekday_names /\ first_match ml = Some (w, None).
Proof.
  unfold has_leading, has_weekday, first_match, leading_offsets,
    weekday_names, patterns.
  cbn [existsb find fst]. intros L.
  repeat (apply orb_false_elim in L; destruct L as [?L L]).
  rewrite L0, L1, L2, L3.
  destruct (search_word (lit "monday") ml);
    [intros _; do 2 eexists; split; [|reflexivity]; simpl; tauto|].
  destruct (search_word (lit "tuesday") ml);
    [intros _; do 2 eexists; split; [|reflexivity]; simpl; tauto|].
  destruct (search_word (lit "wednesday") ml);
    [intros _; do 2 eexists; split; [|reflexivity]; simpl; tauto|].
  destruct (search_word (lit "thursday") ml);
    [intros _; do 2 eexists; split; [|reflexivity]; simpl; tauto|].
  destruct (search_word (lit "friday") ml);
    [intros _; do 2 eexists; split; [|reflexivity]; simpl; tauto|].
  discriminate.
Qed.

Lemma first_match_end_of_day (ml : str) :
  has_leading ml = false -> has_weekday ml = false ->
  has_end_of_day ml = true ->
  exists w, first_match ml = Some (w, Some 0).
Proof.
  unfold has_leading, has_weekday, has_end_of_day, first_match,
    leading_offsets, weekday_names, patterns.
  cbn [existsb find fst]. intros L K.
  repeat (apply orb_false_elim in L; destruct L as [?L L]).
  repeat (apply orb_false_elim in K; destruct K as [?K K]).
  rewrite L0, L1, L2, L3, K0, K1, K2, K3, K4.
  destruct (search_word (lit "end of day") ml);
    [intros _; eexists; reflexivity|].
  destruct (search_word (lit "eod") ml);
    [intros _; eexists; reflexivity|].
  discriminate.
Qed.

(** C7 (amended). [_extract_due_date] returns at the first pattern of its
    list that matches, in the order of the list: "today", "tomorrow",
    "next week", "next month", then the day names, then "end of day" and
    "eod", then "end of week" and "eow"; the "in N ..." rule and the MM/DD
    rule are consulted only when no pattern matches.  So a leading offset
    wins over a day name, and a day name wins over "end of day"/"eod": a
    text with both a day name and an end-of-day phrase, and no leading
    offset, resolves to the next such weekday; an end-of-day phrase alone
    resolves to the reference date. *)
Theorem first_match_wins :
  forall (today : datetime) (text : str),
    (forall p, first_match (lower text) = Some p ->
       exists r, resolve today p = Some r /\
                 _extract_due_date today text = (s <- r ;; Return (Some s))) /\
    (first_match (lower text) = None ->
       _extract_due_date today text =
       match search_in (lower text) with
       | Some (amount, u) =>
           s <- in_rule today amount u ;; Return (Some s)
       | None => date_rule today text
       end) /\
    (has_leading (lower text) = true ->
       exists w n, In (w, n) leading_offsets /\
         _extract_due_date today text
         = (s <- date_after today n ;; Return (Some s))) /\
    (has_leading (lower text) = false -> has_weekday (lower text) = true ->
       exists w k, In (w, k) weekday_names /\
         _extract_due_date today text
         = (s <- date_after today (days_ahead today k) ;; Return (Some s))) /\
    (has_leading (lower text) = false -> has_weekday (lower text) = false ->
     has_end_of_day (lower text) = true -> wf today ->
       _extract_due_date today text = Return (Some (strftime_Ymd today))).
Proof.
  intros today text. repeat split.
  - intros p F.
    destruct (resolve_patterns today p (first_match_in _ _ F)) as [r R].
    exists r. split; trivial.
    now apply (extract_due_date_first_match today text _ _ F).
  - intros F. unfold _extract_due_date. cbv zeta.
    now rewrite scan_first_match, F.
  - intros L. destruct (first_match_leading _ L) as (w & n & I & F).
    exists w, n. split; trivial.
    now apply (extract_due_date_first_match today text _ _ F).
  - intros L K. destruct (first_match_weekday _ L K) as (w & k & I & F).
    exists w, k. split; trivial.
    apply (extract_due_date_first_match today text _ _ F).
    cbn [resolve]. now rewrite (target_weekday_names _ _ I).
  - intros L K E W. destruct (first_match_end_of_day _ L K E) as (w & F).
    rewrite (@extract_due_date_first_match today text (w, Some 0)
               (date_after today 0) F eq_refl).
    unfold date_after. now rewrite plus_days_zero.
Qed.

Lemma first_match_wins_witness :
  _extract_due_date monday_morning (lit "send the report by EOD")
  = Return (Some (strftime_Ymd monday_morning)).
Proof.
  assert (W : wf monday_morning)
    by (split; [reflexivity|vm_compute; intuition discriminate]).
  assert (L : has_leading (lower (lit "send the report by EOD")) = false)
    by (vm_compute; reflexivity).
  assert (K : has_weekday (lower (lit "send the report by EOD")) = false)
    by (vm_compute; reflexivity).
  assert (E : has_end_of_day (lower (lit "send the report by EOD")) = true)
    by (vm_compute; reflexivity).
  destruct (first_match_wins monday_morning (lit "send the report by EOD"))
    as (_ & _ & _ & _ & H).
  exact (H L K E W).
Defined.

(** C7, as stated, fails: a text with both "eod" and a day name resolves to
    that weekday, not to the reference date. *)
Lemma weekday_wins_over_end_of_day :
  has_end_of_day (lower (lit "finish by friday eod")) = true
  /\ has_weekday (lower (lit "finish by friday eod")) = true
  /\ _extract_due_date monday_morning (lit "finish by friday eod")
     = Return (Some (lit "2024-03-15"))
  /\ strftime_Ymd monday_morning = lit "2024-03-11"
  /\ _extract_due_date monday_morning (lit "finish by friday eod")
     <> Return (Some (strftime_Ymd monday_morning)).
Proof.
  split; [vm_compute; reflexivity|].
  split; [vm_compute; reflexivity|].
  split; [vm_compute; reflexivity|].
  split; [vm_compute; reflexivity|].
  vm_compute. discriminate.
Qed.


(** ** The MM/DD rule *)

(** Midnight of today's date is before now as soon as the clock is past
    midnight. *)
Lemma lt_same_day (today : datetime) :
  lt (mk_datetime (year today) (month today) (day today) 0) today
  = (0 <? tod today).
Proof.
  unfold lt. cbn [year month day tod]. now rewrite !Z.ltb_irrefl.
Qed.

Lemma date_rule_invalid (today : datetime) (message g1 g2 : str) :
  search_date message = Some (g1, g2) ->
  valid_ymd (year today) (int_of_digits g1) (int_of_digits g2) = false ->
  date_rule today message = Return None.
Proof.
  intros S V. unfold date_rule, date_rule_try, new_datetime.
  rewrite S. cbv zeta. now rewrite V.
Qed.

Lemma date_rule_this_year (today : datetime) (message g1 g2 : str) :
  search_date message = Some (g1, g2) ->
  valid_ymd (year today) (int_of_digits g1) (int_of_digits g2) = true ->
  lt (mk_datetime (year today) (int_of_digits g1) (int_of_digits g2) 0) today
  = false ->
  date_rule today message =
  Return (Some (strftime_Ymd
    (mk_datetime (year today) (int_of_digits g1) (int_of_digits g2) 0))).
Proof.
  intros S V L. unfold date_rule, date_rule_try, new_datetime.
  rewrite S. cbv zeta. rewrite V. cbn [bind]. now rewrite L.
Qed.

Lemma date_rule_next_year (today : datetime) (message g1 g2 : str) :
  search_date message = Some (g1, g2) ->
  valid_ymd (year today) (int_of_digits g1) (int_of_digits g2) = true ->
  lt (mk_datetime (year today) (int_of_digits g1) (int_of_digits g2) 0) today
  = true ->
  date_rule today message =
  if valid_ymd (year today + 1) (int_of_digits g1) (int_of_digits g2)
  then Return (Some (strftime_Ymd
         (mk_datetime (year today + 1) (int_of_digits g1)
            (int_of_digits g2) 0)))
  else Return None.
Proof.
  intros S V L. unfold date_rule, date_rule_try, new_datetime.
  rewrite S. cbv zeta. rewrite V. cbn [bind]. rewrite L.
  destruct (valid_ymd (year today + 1) _ _); reflexivity.
Qed.

(** The month and day of today, written as MM/DD after midnight, is taken
    for a date in the past. *)
Lemma date_rule_same_day (today : datetime) (message g1 g2 : str) :
  wf today -> 0 < tod today ->
  search_date message = Some (g1, g2) ->
  int_of_digits g1 = month today -> int_of_digits g2 = day today ->
  date_rule today message =
  if valid_ymd (year today + 1) (month today) (day today)
  then Return (Some (strftime_Ymd
         (mk_datetime (year today + 1) (month today) (day today) 0)))
  else Return None.
Proof.
  intros [V _] T S E1 E2.
  rewrite (date_rule_next_year today message g1 g2 S); rewrite E1, E2; trivial.
  rewrite lt_same_day. now apply Z.ltb_lt.
Qed.

(** C8 at the failing input.  On 2024-03-15 at 10:00 the text "3/15"
    resolves to 2025-03-15; at midnight of the same day it resolves to
    2024-03-15.  A later day of the year stays in the reference year, an
    earlier day rolls over, and month/day pairs that are no calendar date
    give [None]. *)
Theorem mmdd_same_day_rolls_over :
  _extract_due_date march_15_morning (lit "3/15")
    = Return (Some (lit "2025-03-15")) /\
  _extract_due_date march_15_midnight (lit "3/15")
    = Return (Some (lit "2024-03-15")) /\
  _extract_due_date march_15_morning (lit "3/16")
    = Return (Some (lit "2024-03-16")) /\
  _extract_due_date march_15_morning (lit "3-14")
    = Return (Some (lit "2025-03-14")) /\
  _extract_due_date march_15_morning (lit "13/40") = Return None.
Proof. repeat split; vm_compute; reflexivity. Qed.

End DueDateFacts.

(* ================================================================== *)
(** * Facts about the classifiers together *)

(** Short names for the three classifiers. *)
Module Simple := SimpleMessageAnalyzer.
Module Llama := LlamaMessageAnalyzer.
Module Wrapper := MessageAnalyzer.

Module ClassifierFacts.
Import PyStr Re Exn PyDate PyVal Config PyStrFacts PyFloatFacts ExnFacts.
Import SimpleFacts LlamaFacts Examples.

(** ** Confidence *)

Lemma task_score_le (message_lower : str) :
  Simple.task_score message_lower <= 32.
Proof.
  unfold Simple.task_score.
  etransitivity; [apply filter_length_le|].
  vm_compute. reflexivity.
Qed.

Lemma score_confidence_table :
  forallb
    (fun k =>
       (PyFloat.in_unit (Simple.score_confidence k)
        && PyFloat.in_unit
             (PyFloat.sub PyFloat.f1_0 (Simple.score_confidence k)))%bool)
    (seq 0 33) = true.
Proof. vm_compute. reflexivity. Qed.

Lemma score_confidence_in_unit (k : nat) :
  k <= 32 ->
  PyFloat.in_unit (Simple.score_confidence k) = true /\
  PyFloat.in_unit (PyFloat.sub PyFloat.f1_0 (Simple.score_confidence k)) = true.
Proof.
  intros H.
  assert (I : In k (seq 0 33)) by (apply in_seq; lia).
  pose proof (proj1 (forallb_forall _ _) score_confidence_table k I) as T.
  now apply andb_prop in T.
Qed.

(** The confidence of the rule-based classifier lies in the unit
    interval. *)
Lemma simple_confidence_in_unit (list_of_set : list str -> list str)
    (today : datetime) (message : str) (a : Simple.Analysis) :
  Simple.analyze_message list_of_set today message = Return a ->
  PyFloat.in_unit (Simple.confidence a) = true.
Proof.
  intros H.
  destruct (score_confidence_in_unit (Simple.task_score (lower message))
              (task_score_le _)) as [T F].
  destruct (analyze_message_shape list_of_set today message a H)
    as [(_ & _ & -> & _)|(_ & _ & -> & _)]; trivial.
Qed.


Section Wrapper.

Variable list_of_set : list str -> list str.
Variable float_of_str : str -> option PyFloat.float.
Variable repr : value -> str.
Variable json_loads : str -> result value.
Variable llm : str -> result str.
Variable openai : str -> result str.

Lemma convert_confidence (sender channel : str) (b : bool)
    (t d p : value) (c : PyFloat.float) :
  Wrapper.confidence_of (Wrapper.convert sender channel b t d p (VFloat c))
  = Some (VFloat c).
Proof. destruct b; reflexivity. Qed.

(** With a local strategy, a confidence returned by [_ai_analyze] is a
    float of the unit interval. *)
Lemma ai_analyze_local_confidence (self : Wrapper.Strategy) (today : datetime)
    (message sender channel : str) (v : value) :
  Wrapper.use_openai self = false ->
  Wrapper.confidence_of
    (Wrapper._ai_analyze list_of_set float_of_str repr json_loads llm openai
       self today message sender channel) = Some v ->
  exists c, v = VFloat c /\ PyFloat.in_unit c = true.
Proof.
  intros U. unfold Wrapper._ai_analyze. rewrite U.
  destruct (Wrapper.use_llama self) as [[|]|].
  - unfold Wrapper.convert_llama.
    pose proof (analyze_message_confidence float_of_str repr json_loads llm
                  today message) as C.
    destruct (Llama.task_details _); rewrite convert_confidence;
      intros E; inversion E; eauto.
  - destruct (Simple.analyze_message list_of_set today message) as [r|e] eqn:A.
    + pose proof (simple_confidence_in_unit _ _ _ _ A) as C.
      unfold Wrapper.convert_simple.
      destruct (Simple.task_details r); rewrite convert_confidence;
        intros E; inversion E; eauto.
    + cbn. discriminate.
  - destruct (Simple.analyze_message list_of_set today message) as [r|e] eqn:A.
    + pose proof (simple_confidence_in_unit _ _ _ _ A) as C.
      unfold Wrapper.convert_simple.
      destruct (Simple.task_details r); rewrite convert_confidence;
        intros E; inversion E; eauto.
    + cbn. discriminate.
Qed.

End Wrapper.

(** C2 at the failing input.  With an OpenAI key configured, the wrapper
    returns the parsed reply of the backend as it is: for the reply
    [{"contains_task": true, "confidence": 5}] the confidence of the
    returned analysis is 5, outside the unit interval. *)
Theorem openai_confidence_is_unchecked :
  Wrapper.use_openai (Wrapper.init openai_config (Return tt)) = true /\
  Wrapper._ai_analyze set_order no_number repr_small demo_json_loads unreachable
    (always reply_confidence_5) (Wrapper.init openai_config (Return tt))
    monday_morning (lit "please fix the bug") (lit "U1") (lit "C1")
  = VDict [ (lit "contains_task", VBool true); (lit "confidence", VInt 5) ] /\
  to_float no_number (VInt 5) = Return (PyFloat.of_Z 5) /\
  PyFloat.in_unit (PyFloat.of_Z 5) = false.
Proof. repeat split; vm_compute; reflexivity. Qed.


(** ** Task details and [is_task] *)

(** C3 (amended).  The rule-based classifier returns task details exactly
    when [is_task] is true.  The AI-backed classifier returns task details
    only when [is_task] is a true value, and none when it is a false value;
    it returns them exactly when both [is_task] and the [task_details] of
    the parsed reply are true values, so a reply with [is_task] true and no
    details yields [is_task] true without task details. *)
Theorem details_follow_is_task :
  (forall (list_of_set : list str -> list str) (today : datetime)
          (message : str) (a : Simple.Analysis),
     Simple.analyze_message list_of_set today message = Return a ->
     (Simple.task_details a <> None <-> Simple.is_task a = true)) /\
  (forall (float_of_str : str -> option PyFloat.float) (repr : value -> str)
          (json_loads : str -> result value) (llm : str -> result str)
          (today : datetime) (message : str),
     let a := Llama.analyze_message float_of_str repr json_loads llm today message
     in (Llama.task_details a <> None -> truthy (Llama.is_task a) = true) /\
        (truthy (Llama.is_task a) = false -> Llama.task_details a = None)) /\
  (forall (float_of_str : str -> option PyFloat.float) (repr : value -> str)
          (today : datetime) (result_ : value) (a : Llama.Analysis),
     Llama._validate_result float_of_str repr today result_ = Return a ->
     exists it td,
       get (lit "is_task") (VBool false) result_ = Return it /\
       get (lit "task_details") VNone result_ = Return td /\
       Llama.is_task a = it /\
       (Llama.task_details a <> None <-> (truthy it && truthy td)%bool = true)).
Proof.
  split; [|split].
  - intros los today message a H.
    destruct (analyze_message_shape los today message a H)
      as [(I & _ & _ & d & D & _)|(I & _ & _ & D)]; rewrite I, D; split;
      congruence.
  - intros f r jl llm today message a.
    assert (P : Llama.task_details a <> None -> truthy (Llama.is_task a) = true).
    { destruct (Llama.task_details a) as [d|] eqn:D; [|congruence].
      intros _. now apply (analyze_message_details f r jl llm today message d). }
    split; trivial.
    intros F. destruct (Llama.task_details a); trivial.
    rewrite P in F; [discriminate|congruence].
  - intros f r today v a H.
    destruct (validate_result_shape f r today v a H)
      as (it & c & td & Hit & Htd & I & _ & Hs & Hn).
    exists it, td. repeat split; trivial.
    + intros D. destruct (truthy it && truthy td)%bool; trivial.
      now rewrite Hn in D.
    + intros T. destruct (Hs T) as (d & -> & _). discriminate.
Qed.

Lemma details_follow_is_task_witness :
  Simple.decide_is_task (lit "please fix the bug") = true /\
  exists a,
    Simple.analyze_message set_order monday_morning (lit "please fix the bug")
    = Return a /\ Simple.task_details a <> None.
Proof.
  split; [vm_compute; reflexivity|].
  destruct (Simple.analyze_message set_order monday_morning
              (lit "please fix the bug")) as [a|e] eqn:A;
    [|vm_compute in A; discriminate].
  exists a. split; trivial.
  apply (proj1 details_follow_is_task set_order monday_morning
           (lit "please fix the bug") a A).
  apply (f_equal (fun r => match r with
                           | Return x => Simple.is_task x
                           | Raise _ => false
                           end)) in A.
  rewrite <- A. vm_compute. reflexivity.
Defined.

(** C3, as stated, fails for the AI-backed classifier: the reply
    [{"is_task": true}] is returned with [is_task] true and no task
    details. *)
Lemma is_task_without_details :
  let a := Llama.analyze_message no_number repr_small demo_json_loads
             (always reply_is_task_only) monday_morning
             (lit "please fix the bug") in
  Llama.is_task a = VBool true /\ Llama.task_details a = None /\
  ~ (Llama.task_details a <> None <-> truthy (Llama.is_task a) = true).
Proof.
  cbv zeta. split; [vm_compute; reflexivity|].
  split; [vm_compute; reflexivity|].
  intros [_ H].
  apply H; vm_compute; reflexivity.
Qed.

(** ** Priority *)

Lemma high_is_not_urgent :
  lit "low" <> lit "urgent" /\ lit "medium" <> lit "urgent"
  /\ lit "high" <> lit "urgent".
Proof. repeat split; discriminate. Qed.

(** C10.  The priority that the rule-based classifier produces is one of
    "low", "medium", "high", never "urgent"; the urgency keywords give
    "high".  The priority that the AI-backed classifier returns after
    validation is one of the same three strings, and every parsed priority
    outside them, "urgent" included, becomes "medium". *)
Theorem priority_is_low_medium_or_high :
  (forall (list_of_set : list str -> list str) (today : datetime)
          (message : str) (a : Simple.Analysis) (d : Simple.TaskDetails),
     Simple.analyze_message list_of_set today message = Return a ->
     Simple.task_details a = Some d ->
     In (Simple.priority d) [lit "low"; lit "medium"; lit "high"] /\
     Simple.priority d <> lit "urgent" /\
     (any_in Simple.high_priority_words (lower message) = true ->
      Simple.priority d = lit "high")) /\
  (forall (repr : value -> str) (details : value) (d : Llama.TaskDetails),
     Llama.validate_details repr details = Return d ->
     (exists s, Llama.priority d = VStr s /\ In s Llama.allowed_priorities) /\
     (forall p,
        get (lit "priority") (VStr (lit "medium")) details = Return p ->
        in_strs p Llama.allowed_priorities = false ->
        Llama.priority d = VStr (lit "medium"))) /\
  in_strs (VStr (lit "urgent")) Llama.allowed_priorities = false /\
  (forall (float_of_str : str -> option PyFloat.float) (repr : value -> str)
          (json_loads : str -> result value) (llm : str -> result str)
          (today : datetime) (message : str) (d : Llama.TaskDetails),
     Llama.task_details
       (Llama.analyze_message float_of_str repr json_loads llm today message)
     = Some d ->
     exists s, Llama.priority d = VStr s /\ In s Llama.allowed_priorities).
Proof.
  split; [|split; [|split]].
  - intros los today message a d H D.
    destruct (analyze_message_shape los today message a H)
      as [(_ & _ & _ & d' & D' & E)|(_ & _ & _ & D')];
      [|congruence].
    rewrite D in D'. inversion D'; subst d'.
    destruct (extract_task_details_fields los today message d E)
      as (_ & _ & P).
    rewrite P. destruct high_is_not_urgent as (N1 & N2 & N3).
    unfold Simple.make_priority. cbv zeta.
    destruct (any_in Simple.high_priority_words (lower message)).
    + repeat split; simpl; auto.
    + destruct (any_in Simple.low_priority_words (lower message));
        repeat split; simpl; auto; discriminate.
  - intros repr details d H.
    exact (validate_details_priority repr details d H).
  - vm_compute. reflexivity.
  - intros f r jl llm today message d H.
    now apply (analyze_message_details f r jl llm today message d).
Qed.

Lemma priority_is_low_medium_or_high_witness :
  Llama.priority
    (Llama.mk_details (lit "Ship it") [] (VStr (lit "medium")) VNone (VList []))
  = VStr (lit "medium").
Proof.
  destruct priority_is_low_medium_or_high as (_ & H & U & _).
  destruct (H repr_small
              (VDict [ (lit "title", VStr (lit "Ship it"));
                       (lit "priority", VStr (lit "urgent")) ])
              (Llama.mk_details (lit "Ship it") [] (VStr (lit "medium")) VNone
                 (VList []))
              eq_refl) as [_ C].
  exact (C (VStr (lit "urgent")) eq_refl U).
Defined.

End ClassifierFacts.

(* ================================================================== *)
(** * More about due dates *)

Module DueDateRange.
Import PyStr Re Exn PyDate PyStrFacts PyDateFacts ExnFacts.
Import SimpleMessageAnalyzer DueDateFacts Examples.
Local Open Scope Z_scope.

(** ** What a successful datetime addition says *)

Lemma add_returns (t : datetime) (delta : timedelta) (d : datetime) :
  wf t -> 0 <= td_us delta < US_PER_DAY ->
  add t delta = Return d ->
  wf d /\
  toordinal d
  = toordinal t + td_days delta + (tod t + td_us delta) / US_PER_DAY /\
  toordinal d <= MAXORDINAL.
Proof.
  intros W U E.
  set (o := toordinal t + td_days delta + (tod t + td_us delta) / US_PER_DAY).
  destruct (Z_le_gt_dec 1 o) as [L|G], (Z_le_gt_dec o MAXORDINAL) as [R|R].
  - destruct (add_in_range t delta W U (conj L R)) as (d' & E' & W' & O & _).
    rewrite E in E'. apply Return_inj in E'. subst d'. fold o in O.
    repeat split; try apply W'; lia.
  - destruct (add_out_of_range t delta) as (e & E' & _); [fold o; lia|].
    rewrite E in E'. discriminate.
  - exfalso. unfold add in E. fold o in E.
    replace (0 <? o) with false in E by (symmetry; apply Z.ltb_ge; lia).
    simpl in E. discriminate.
  - exfalso. unfold add in E. fold o in E.
    replace (0 <? o) with false in E by (symmetry; apply Z.ltb_ge; lia).
    simpl in E. discriminate.
Qed.

Lemma new_timedelta_returns (days hours weeks : Z) (delta : timedelta) :
  new_timedelta days hours weeks = Return delta ->
  td_days delta = days + 7 * weeks + hours * US_PER_HOUR / US_PER_DAY /\
  td_us delta = (hours * US_PER_HOUR) mod US_PER_DAY /\
  0 <= td_us delta < US_PER_DAY.
Proof.
  unfold new_timedelta. cbv zeta.
  destruct (999999999 <? _); [discriminate|].
  intros E. apply Return_inj in E. subst delta. cbn [td_days td_us].
  repeat split; apply Z.mod_pos_bound; reflexivity.
Qed.

Lemma plus_days_returns (t : datetime) (n : Z) (d : datetime) :
  wf t -> plus_days t n = Return d ->
  wf d /\ toordinal d = toordinal t + n /\ tod d = tod t.
Proof.
  intros W E. unfold plus_days, timedelta_days in E.
  apply bind_Return in E. destruct E as (delta & D & E).
  destruct (new_timedelta_returns _ _ _ _ D) as (Hd & Hu & Hb).
  change (0 * US_PER_HOUR) with 0 in Hd, Hu.
  change (0 / US_PER_DAY) with 0 in Hd. change (0 mod US_PER_DAY) with 0 in Hu.
  destruct (add_returns t delta d W Hb E) as (Wd & O & _).
  assert (Q : (tod t + 0) / US_PER_DAY = 0)
    by (apply Z.div_small; destruct W; lia).
  rewrite Hd, Hu, Q in O. split; trivial. split; [lia|].
  unfold add in E. destruct (_ && _)%bool; [|discriminate].
  destruct (ord2ymd _) as [[y m] dd]. apply Return_inj in E. subst d.
  cbn [tod]. rewrite Hu, Z.add_0_r. apply Z.mod_small. destruct W; lia.
Qed.


(** ** The amounts and dates that the rules read are not negative *)

Lemma digit_val_nonneg (c : ascii) : isdigit c = true -> 0 <= digit_val c <= 9.
Proof.
  unfold isdigit, in_range, digit_val. intros H.
  apply andb_prop in H. destruct H as [H1 H2].
  apply N.leb_le in H1, H2.
  set (n := code c) in *. clearbody n. lia.
Qed.

Lemma int_of_digits_nonneg_from (s : str) : forall acc,
  forallb isdigit s = true -> 0 <= acc ->
  0 <= fold_left (fun a c => 10 * a + digit_val c) s acc.
Proof.
  induction s as [|c r IH]; intros acc H A; cbn [fold_left forallb] in *;
    trivial.
  apply andb_prop in H. destruct H as [Hc Hr].
  apply IH; trivial. pose proof (digit_val_nonneg c Hc). lia.
Qed.

Lemma int_of_digits_nonneg (s : str) :
  forallb isdigit s = true -> 0 <= int_of_digits s.
Proof. intros H. now apply int_of_digits_nonneg_from. Qed.

Lemma span_digits_digits (s : str) :
  forallb isdigit (fst (span_digits s)) = true.
Proof.
  induction s as [|c r IH]; simpl; trivial.
  destruct (isdigit c) eqn:D; simpl; trivial.
  destruct (span_digits r) as [d t]. simpl in *. now rewrite D, IH.
Qed.

Lemma in_at_nonneg (s : str) (amount : Z) (u : unit_name) :
  in_at s = Some (amount, u) -> 0 <= amount.
Proof.
  unfold in_at. destruct (strip_prefix (lit "in ") s) as [r|]; [|discriminate].
  pose proof (span_digits_digits r) as D.
  destruct (span_digits r) as [[|d ds] [|sp t]]; try discriminate.
  destruct (eqc sp " "%char); [|discriminate].
  destruct (unit_at t); [|discriminate].
  intros E. inversion E; subst. now apply int_of_digits_nonneg.
Qed.

(** The amount of an ["in N ..."] match is a natural number. *)
Lemma search_in_nonneg (s : str) (amount : Z) (u : unit_name) :
  search_in s = Some (amount, u) -> 0 <= amount.
Proof.
  induction s as [|c r IH]; simpl.
  - discriminate.
  - destruct (in_at (c :: r)) as [[a v]|] eqn:E; trivial.
    intros H. inversion H; subst. now apply (in_at_nonneg (c :: r) amount u).
Qed.

(** Within one year, a later month and day is a later day of the year. *)
Lemma day_of_year_mono (y m d m' d' : Z) :
  1 <= m <= 12 -> 1 <= d <= days_in_month y m ->
  1 <= m' <= 12 -> 1 <= d' <= days_in_month y m' ->
  m < m' \/ (m = m' /\ d <= d') ->
  ymd2ord y m d <= ymd2ord y m' d'.
Proof.
  intros Hm Hd Hm' Hd' L. unfold ymd2ord.
  rewrite days_in_month_flag in Hd, Hd'. unfold days_before_month.
  assert (m = 1 \/ m = 2 \/ m = 3 \/ m = 4 \/ m = 5 \/ m = 6 \/ m = 7
          \/ m = 8 \/ m = 9 \/ m = 10 \/ m = 11 \/ m = 12) as Hc by lia.
  assert (m' = 1 \/ m' = 2 \/ m' = 3 \/ m' = 4 \/ m' = 5 \/ m' = 6 \/ m' = 7
          \/ m' = 8 \/ m' = 9 \/ m' = 10 \/ m' = 11 \/ m' = 12) as Hc' by lia.
  set (l := is_leap y) in *. clearbody l.
  destruct l;
    repeat (destruct Hc as [->|Hc]);
    try subst m;
    repeat (destruct Hc' as [->|Hc']);
    try subst m'; cbn -[Z.add Z.mul Z.sub] in *; lia.
Qed.

(** A date of the same year that is not before now is today or later. *)
Lemma not_lt_same_year (today : datetime) (m d : Z) :
  wf today -> valid_ymd (year today) m d = true ->
  lt (mk_datetime (year today) m d 0) today = false ->
  toordinal today <= ymd2ord (year today) m d.
Proof.
  intros [V T] V' L.
  apply valid_ymd_iff in V, V'.
  destruct V as (_ & Hm & Hd), V' as (_ & Hm' & Hd').
  unfold lt in L. cbn [year month day tod] in L.
  rewrite Z.ltb_irrefl in L.
  unfold toordinal. apply day_of_year_mono; trivial.
  destruct (Z.ltb_spec m (month today)); [discriminate|].
  destruct (Z.ltb_spec (month today) m); [lia|].
  destruct (Z.ltb_spec d (day today)); [discriminate|].
  lia.
Qed.

Lemma next_year_is_later (today : datetime) (m d : Z) :
  wf today -> valid_ymd (year today + 1) m d = true ->
  toordinal today <= ymd2ord (year today + 1) m d.
Proof.
  intros [V T] V'. apply valid_ymd_iff in V, V'.
  destruct V as (_ & Hm & Hd), V' as (_ & Hm' & Hd').
  pose proof (ymd2ord_bounds _ _ _ Hm Hd).
  pose proof (ymd2ord_bounds _ _ _ Hm' Hd').
  unfold toordinal. lia.
Qed.


(** ** Every due date is a rendered calendar date, today or later *)

Lemma isdigit_digit (n : Z) : isdigit (digit n) = true.
Proof.
  unfold isdigit, digit, in_range, code.
  pose proof (Z.mod_pos_bound n 10 eq_refl) as B.
  rewrite N_ascii_embedding by lia.
  apply andb_true_iff. split; apply N.leb_le; lia.
Qed.

Lemma strftime_Ymd_shape (d : datetime) : is_ymd_text (strftime_Ymd d) = true.
Proof.
  unfold strftime_Ymd, pad4, pad2. cbn [app lit list_ascii_of_string is_ymd_text].
  now rewrite !isdigit_digit.
Qed.

(** Every pattern of the list resolves to today plus a number of days that
    is not negative. *)
Lemma resolve_offset (today : datetime) (p : str * option Z) :
  In p patterns ->
  exists n, 0 <= n /\ resolve today p = Some (date_after today n).
Proof.
  pose proof (target_weekday_names (lit "monday") 0) as T0.
  pose proof (target_weekday_names (lit "tuesday") 1) as T1.
  pose proof (target_weekday_names (lit "wednesday") 2) as T2.
  pose proof (target_weekday_names (lit "thursday") 3) as T3.
  pose proof (target_weekday_names (lit "friday") 4) as T4.
  destruct target_end_of_week as [T5 T6].
  assert (A : forall k, 0 <= k < 7 -> 0 <= days_ahead today k)
    by (intros k Hk; destruct (days_ahead_spec today k Hk); lia).
  unfold patterns. intros H.
  repeat (destruct H as [H|H];
          [subst p; cbn [resolve];
           rewrite ?T0, ?T1, ?T2, ?T3, ?T4, ?T5, ?T6
             by (unfold weekday_names; simpl; tauto);
           eexists; split; [|reflexivity]; try lia; apply A; lia|]).
  destruct H.
Qed.

Lemma date_after_returns (today : datetime) (n : Z) (s : str) :
  date_after today n = Return s ->
  exists d, s = strftime_Ymd d /\
            (wf today -> wf d /\ toordinal d = toordinal today + n).
Proof.
  unfold date_after. intros E.
  apply bind_Return in E. destruct E as (d & P & E).
  apply Return_inj in E. exists d. split; [congruence|].
  intros W. destruct (plus_days_returns today n d W P) as (Wd & O & _). auto.
Qed.

Lemma in_rule_returns (today : datetime) (amount : Z) (u : unit_name)
    (s : str) :
  0 <= amount -> in_rule today amount u = Return s ->
  exists d, s = strftime_Ymd d /\
            (wf today -> wf d /\ toordinal today <= toordinal d).
Proof.
  unfold in_rule. intros A E.
  apply bind_Return in E. destruct E as (delta & D & E).
  apply bind_Return in E. destruct E as (d & P & E).
  apply Return_inj in E. exists d. split; [congruence|].
  intros W.
  assert (B : 0 <= td_us delta < US_PER_DAY /\ 0 <= td_days delta).
  { destruct u; unfold timedelta_hours, timedelta_days, timedelta_weeks in D;
      destruct (new_timedelta_returns _ _ _ _ D) as (Hd & _ & Hb);
      split; trivial; rewrite Hd.
    - assert (0 <= amount * US_PER_HOUR / US_PER_DAY)
        by (apply Z.div_pos; unfold US_PER_HOUR, US_PER_DAY; lia).
      lia.
    - change (0 * US_PER_HOUR / US_PER_DAY) with 0. lia.
    - change (0 * US_PER_HOUR / US_PER_DAY) with 0. lia. }
  destruct B as [Bu Bd].
  destruct (add_returns today delta d W Bu P) as (Wd & O & _).
  split; trivial.
  assert (0 <= (tod today + td_us delta) / US_PER_DAY)
    by (apply Z.div_pos; destruct W; unfold US_PER_DAY in *; lia).
  lia.
Qed.

Lemma date_rule_returns (today : datetime) (message s : str) :
  date_rule today message = Return (Some s) ->
  exists d, s = strftime_Ymd d /\
            (wf today -> wf d /\ toordinal today <= toordinal d).
Proof.
  unfold date_rule.
  destruct (search_date message) as [[g1 g2]|]; [|discriminate].
  set (m := int_of_digits g1). set (dd := int_of_digits g2).
  unfold date_rule_try, new_datetime. cbv zeta.
  destruct (valid_ymd (year today) m dd) eqn:V; cbn [bind is_value_error cls];
    [|discriminate].
  destruct (lt (mk_datetime (year today) m dd 0) today) eqn:L.
  - destruct (valid_ymd (year today + 1) m dd) eqn:V';
      cbn [bind is_value_error cls]; [|discriminate].
    intros E. apply Return_inj in E. inversion E; subst s.
    eexists; split; [reflexivity|]. intros W. split.
    + split; [exact V'|]. cbn [tod]. unfold US_PER_DAY. lia.
    + exact (next_year_is_later today m dd W V').
  - intros E. apply Return_inj in E. inversion E; subst s.
    eexists; split; [reflexivity|]. intros W. split.
    + split; [exact V|]. cbn [tod]. unfold US_PER_DAY. lia.
    + exact (not_lt_same_year today m dd W V L).
Qed.

(** A later day does not lie in an earlier year. *)
Lemma year_mono (a b : datetime) :
  wf a -> wf b -> toordinal a <= toordinal b -> year a <= year b.
Proof.
  intros [Va _] [Vb _]. unfold toordinal.
  apply valid_ymd_iff in Va, Vb.
  destruct Va as (_ & Ma & Da), Vb as (_ & Mb & Db).
  pose proof (ymd2ord_bounds _ _ _ Ma Da) as Ba.
  pose proof (ymd2ord_bounds _ _ _ Mb Db) as Bb.
  intros L.
  destruct (Z_le_gt_dec (year a) (year b)) as [H|H]; trivial.
  pose proof (days_before_year_mono (year b + 1) (year a)). lia.
Qed.

(** The years in which [strftime] writes four digits. *)
Lemma later_year_has_four_digits (a b : datetime) :
  wf a -> wf b -> 1000 <= year a -> toordinal a <= toordinal b ->
  1000 <= year b <= 9999.
Proof.
  intros Wa Wb Y L. pose proof (year_mono a b Wa Wb L).
  destruct Wb as [Vb _]. apply valid_ymd_iff in Vb. lia.
Qed.

(** ** The digits from which an amount is read *)

Lemma longest_digit_run_ge (s : str) : forall run,
  (run <= longest_digit_run run s)%nat.
Proof.
  induction s as [|c r IH]; intros run; simpl; [lia|].
  destruct (isdigit c).
  - specialize (IH (S run)). lia.
  - lia.
Qed.

Lemma longest_digit_run_mono (s : str) : forall a b,
  (a <= b)%nat -> (longest_digit_run a s <= longest_digit_run b s)%nat.
Proof.
  induction s as [|c r IH]; intros a b H; simpl; [lia|].
  destruct (isdigit c).
  - apply IH. lia.
  - lia.
Qed.

Lemma longest_digit_run_digits (ds rest : str) : forall run,
  forallb isdigit ds = true ->
  (run + List.length ds <= longest_digit_run run (ds ++ rest))%nat.
Proof.
  induction ds as [|c r IH]; intros run H; simpl in *.
  - pose proof (longest_digit_run_ge rest run). lia.
  - apply andb_prop in H. destruct H as [Hc Hr]. rewrite Hc.
    specialize (IH (S run) Hr). lia.
Qed.

Lemma longest_digit_run_skip (pre s : str) :
  (longest_digit_run 0 s <= longest_digit_run 0 (pre ++ s))%nat.
Proof.
  induction pre as [|c r IH]; simpl; [lia|].
  destruct (isdigit c).
  - pose proof (longest_digit_run_mono (r ++ s) 0 1). lia.
  - lia.
Qed.

(** A run of digits that stands in the text is no longer than the longest
    run of the text. *)
Lemma digits_in_text (pre ds rest : str) :
  forallb isdigit ds = true ->
  (List.length ds <= longest_digit_run 0 (pre ++ ds ++ rest))%nat.
Proof.
  intros H. pose proof (longest_digit_run_skip pre (ds ++ rest)).
  pose proof (longest_digit_run_digits ds rest 0%nat H). lia.
Qed.

Lemma span_digits_eq (s : str) :
  s = fst (span_digits s) ++ snd (span_digits s).
Proof.
  induction s as [|c r IH]; simpl; trivial.
  destruct (isdigit c); trivial.
  destruct (span_digits r) as [d t]. simpl in *. now rewrite <- IH.
Qed.

Lemma in_at_digits (s : str) (amount : Z) (u : unit_name) :
  in_at s = Some (amount, u) ->
  exists ds, amount = int_of_digits ds /\
             (List.length ds <= longest_digit_run 0 s)%nat.
Proof.
  unfold in_at. destruct (strip_prefix (lit "in ") s) as [r|] eqn:P;
    [|discriminate].
  apply strip_prefix_eq in P.
  pose proof (span_digits_digits r) as D.
  pose proof (span_digits_eq r) as Q.
  destruct (span_digits r) as [[|d ds] [|sp t]]; try discriminate.
  destruct (eqc sp " "%char); [|discriminate].
  destruct (unit_at t); [|discriminate].
  intros E. injection E as <- _. exists (d :: ds). split; trivial.
  cbn [fst snd] in *. rewrite P, Q. now apply digits_in_text.
Qed.

(** The amount of an ["in N ..."] match is read from a run of digits of
    the text. *)
Lemma search_in_digits (s : str) (amount : Z) (u : unit_name) :
  search_in s = Some (amount, u) ->
  exists ds, amount = int_of_digits ds /\
             (List.length ds <= longest_digit_run 0 s)%nat.
Proof.
  induction s as [|c r IH]; simpl.
  - discriminate.
  - destruct (in_at (c :: r)) as [[a v]|] eqn:E.
    + intros H. inversion H; subst.
      exact (in_at_digits (c :: r) amount u E).
    + intros H. destruct (IH H) as (ds & A & L). exists ds. split; trivial.
      pose proof (longest_digit_run_skip [c] r) as K. simpl app in K.
      simpl in K. lia.
Qed.

Lemma readable_amount (s ds : str) :
  int_readable s = true ->
  (List.length ds <= longest_digit_run 0 s)%nat ->
  (List.length ds <= 4300)%nat.
Proof.
  unfold int_readable. intros R L. apply Nat.leb_le in R. lia.
Qed.

(** Whatever [_extract_due_date] returns is the rendering of a calendar
    date; with a well-formed clock that date is today or later. *)
Lemma extract_due_date_returns (today : datetime) (text s : str) :
  _extract_due_date today text = Return (Some s) ->
  exists d, s = strftime_Ymd d /\
            (wf today -> wf d /\ toordinal today <= toordinal d).
Proof.
  unfold _extract_due_date. cbv zeta. rewrite scan_first_match.
  destruct (first_match (lower text)) as [p|] eqn:F.
  - destruct (resolve_offset today p (first_match_in _ _ F)) as (n & Hn & R).
    rewrite R. intros E.
    apply bind_Return in E. destruct E as (s' & D & E).
    apply Return_inj in E. inversion E; subst s'.
    destruct (date_after_returns today n s D) as (d & -> & H).
    exists d. split; trivial. intros W. destruct (H W). split; trivial. lia.
  - destruct (search_in (lower text)) as [[amount u]|] eqn:S.
    + intros E. apply bind_Return in E. destruct E as (s' & D & E).
      apply Return_inj in E. inversion E; subst s'.
      apply (in_rule_returns today amount u s); trivial.
      now apply (search_in_nonneg (lower text) amount u).
    + apply date_rule_returns.
Qed.

(** X1. With a well-formed clock of the year 1000 or later, a due date
    returned by [_extract_due_date] renders a calendar date of the years
    1000 to 9999, and so has the form YYYY-MM-DD. *)
Theorem due_date_is_iso_text :
  forall (today : datetime) (text s : str),
    wf today -> 1000 <= year today ->
    _extract_due_date today text = Return (Some s) ->
    exists d,
      s = strftime_Ymd d /\ wf d /\ 1000 <= year d <= 9999 /\
      is_ymd_text s = true.
Proof.
  intros today text s W Y E.
  destruct (extract_due_date_returns today text s E) as (d & -> & H).
  destruct (H W) as [Wd L].
  exists d. split; [reflexivity|]. split; [exact Wd|].
  split; [exact (later_year_has_four_digits today d W Wd Y L)|].
  apply strftime_Ymd_shape.
Qed.

Lemma due_date_is_iso_text_witness :
  exists d,
    lit "2024-03-18" = strftime_Ymd d /\ wf d /\ 1000 <= year d <= 9999 /\
    is_ymd_text (lit "2024-03-18") = true.
Proof.
  assert (W : wf monday_morning)
    by (split; [reflexivity|vm_compute; intuition discriminate]).
  assert (Y : 1000 <= year monday_morning) by (vm_compute; discriminate).
  apply (due_date_is_iso_text monday_morning (lit "Let's meet Monday")
           (lit "2024-03-18") W Y).
  vm_compute. reflexivity.
Defined.

(** X2. With a well-formed clock, [_extract_due_date] never returns a date
    before the reference date: the result renders a calendar date whose
    ordinal is at least the ordinal of today. *)
Theorem due_date_is_not_in_the_past :
  forall (today : datetime) (text s : str),
    wf today ->
    _extract_due_date today text = Return (Some s) ->
    exists d, s = strftime_Ymd d /\ wf d /\ toordinal today <= toordinal d.
Proof.
  intros today text s W E.
  destruct (extract_due_date_returns today text s E) as (d & -> & H).
  exists d. destruct (H W). auto.
Qed.

Lemma due_date_is_not_in_the_past_witness :
  exists d, lit "2025-03-14" = strftime_Ymd d /\ wf d
            /\ toordinal march_15_morning <= toordinal d.
Proof.
  assert (W : wf march_15_morning)
    by (split; [reflexivity|vm_compute; intuition discriminate]).
  apply (due_date_is_not_in_the_past march_15_morning (lit "3-14")
           (lit "2025-03-14") W).
  vm_compute. reflexivity.
Defined.


(** ** The ["in N hours/days/weeks"] rule *)

Lemma new_timedelta_ok (days hours weeks : Z) :
  Z.abs (days + 7 * weeks + hours * US_PER_HOUR / US_PER_DAY) <= 999999999 ->
  new_timedelta days hours weeks =
  Return (mk_timedelta (days + 7 * weeks + hours * US_PER_HOUR / US_PER_DAY)
            ((hours * US_PER_HOUR) mod US_PER_DAY)).
Proof.
  intros H. unfold new_timedelta. cbv zeta.
  replace (999999999 <? _) with false by (symmetry; apply Z.ltb_ge; lia).
  reflexivity.
Qed.

Lemma new_timedelta_overflow (days hours weeks : Z) :
  999999999 < Z.abs (days + 7 * weeks + hours * US_PER_HOUR / US_PER_DAY) ->
  exists e, new_timedelta days hours weeks = Raise e /\ cls e = OverflowError.
Proof.
  intros H. unfold new_timedelta. cbv zeta.
  replace (999999999 <? _) with true by (symmetry; apply Z.ltb_lt; lia).
  eexists; split; reflexivity.
Qed.

Lemma div_carry (a b D : Z) :
  D <> 0 -> a / D + (b + a mod D) / D = (b + a) / D.
Proof.
  intros H.
  replace (b + a) with (a / D * D + (b + a mod D))
    by (pose proof (Z.div_mod a D H); lia).
  now rewrite Z.div_add_l.
Qed.

(** The timedelta of the rule and the day it reaches, whatever the unit. *)
Lemma rule_delta (today : datetime) (amount : Z) (u : unit_name)
    (delta : timedelta) :
  wf today -> 0 <= amount ->
  match u with
  | Hour => timedelta_hours amount
  | Day => timedelta_days amount
  | Week => timedelta_weeks amount
  end = Return delta ->
  0 <= td_us delta < US_PER_DAY /\
  td_days delta + (tod today + td_us delta) / US_PER_DAY
  = shift_days today amount u.
Proof.
  intros [_ T] A D.
  assert (E : exists days hours weeks,
             new_timedelta days hours weeks = Return delta /\
             ((u = Hour /\ days = 0 /\ hours = amount /\ weeks = 0) \/
              (u = Day /\ days = amount /\ hours = 0 /\ weeks = 0) \/
              (u = Week /\ days = 0 /\ hours = 0 /\ weeks = amount))).
  { destruct u; do 3 eexists; (split; [exact D|]); tauto. }
  destruct E as (days & hours & weeks & N & C).
  destruct (new_timedelta_returns _ _ _ _ N) as (Hd & Hu & Hb).
  split; trivial. rewrite Hd, Hu.
  destruct C as [(-> & -> & -> & ->)|[(-> & -> & -> & ->)|(-> & -> & -> & ->)]];
    cbn [shift_days].
  - rewrite !Z.add_0_l. apply div_carry. discriminate.
  - change (0 * US_PER_HOUR) with 0. change (0 mod US_PER_DAY) with 0.
    change (0 / US_PER_DAY) with 0.
    replace (tod today + 0) with (tod today) by lia.
    rewrite (Z.div_small (tod today)) by lia. lia.
  - change (0 * US_PER_HOUR) with 0. change (0 mod US_PER_DAY) with 0.
    change (0 / US_PER_DAY) with 0.
    replace (tod today + 0) with (tod today) by lia.
    rewrite (Z.div_small (tod today)) by lia. lia.
Qed.

Lemma shift_days_nonneg (today : datetime) (amount : Z) (u : unit_name) :
  wf today -> 0 <= amount -> 0 <= shift_days today amount u.
Proof.
  intros [_ T] A. destruct u; cbn [shift_days]; try lia.
  apply Z.div_pos; unfold US_PER_HOUR, US_PER_DAY in *; lia.
Qed.

(** The rule raises or returns according to the day it reaches alone. *)
Lemma rule_delta_defined (today : datetime) (amount : Z) (u : unit_name) :
  wf today -> 0 <= amount ->
  toordinal today + shift_days today amount u <= MAXORDINAL ->
  exists delta,
    match u with
    | Hour => timedelta_hours amount
    | Day => timedelta_days amount
    | Week => timedelta_weeks amount
    end = Return delta.
Proof.
  intros W A R. pose proof (toordinal_range today W) as B.
  destruct W as [_ T].
  assert (Q : 0 <= amount * US_PER_HOUR / US_PER_DAY
              <= (tod today + amount * US_PER_HOUR) / US_PER_DAY).
  { split.
    - apply Z.div_pos; unfold US_PER_HOUR, US_PER_DAY; lia.
    - apply Z.div_le_mono; [reflexivity|lia]. }
  unfold MAXORDINAL in *.
  destruct u; cbn [shift_days] in R; eexists;
    unfold timedelta_hours, timedelta_days, timedelta_weeks;
    apply new_timedelta_ok;
    try change (0 * US_PER_HOUR / US_PER_DAY) with 0; lia.
Qed.

(** X3. With a well-formed clock of the year 1000 or later, when no date
    phrase of the pattern list occurs and no number of the text has more
    than 4300 digits, the text "in N hours", "in N days" or "in N weeks"
    moves the date by whole days: N days, 7 N days for weeks, and for
    hours the number of midnights passed when N hours are added to the
    clock.  N is the number written by the digits of the match. *)
Theorem in_n_units_rule :
  forall (today : datetime) (text : str) (amount : Z) (u : unit_name),
    wf today -> 1000 <= year today ->
    int_readable (lower text) = true ->
    first_match (lower text) = None ->
    search_in (lower text) = Some (amount, u) ->
    toordinal today + shift_days today amount u <= MAXORDINAL ->
    (exists ds, amount = int_of_digits ds /\ (List.length ds <= 4300)%nat) /\
    0 <= shift_days today amount u /\
    exists d,
      _extract_due_date today text = Return (Some (strftime_Ymd d)) /\
      wf d /\ 1000 <= year d <= 9999 /\
      toordinal d = toordinal today + shift_days today amount u.
Proof.
  intros today text amount u W Y I F S R.
  split.
  { destruct (search_in_digits _ _ _ S) as (ds & A & L).
    exists ds. split; trivial. exact (readable_amount _ _ I L). }
  pose proof (search_in_nonneg _ _ _ S) as A.
  pose proof (shift_days_nonneg today amount u W A) as N.
  split; trivial.
  destruct (rule_delta_defined today amount u W A R) as (delta & D).
  destruct (rule_delta today amount u delta W A D) as (Bu & Q).
  pose proof (toordinal_range today W) as B.
  destruct (add_in_range today delta W Bu) as (d & E & Wd & O & _);
    [rewrite <- Z.add_assoc, Q; lia|].
  rewrite <- Z.add_assoc, Q in O.
  exists d. split.
  { unfold _extract_due_date. cbv zeta. rewrite scan_first_match, F, S.
    unfold in_rule. rewrite D. cbn [bind]. rewrite E. reflexivity. }
  split; [exact Wd|]. split; [|exact O].
  apply (later_year_has_four_digits today d W Wd Y). lia.
Qed.

Lemma in_n_units_rule_witness :
  exists d,
    _extract_due_date monday_morning (lit "ship it in 30 hours")
    = Return (Some (strftime_Ymd d)) /\
    toordinal d = toordinal monday_morning + 1.
Proof.
  assert (W : wf monday_morning)
    by (split; [reflexivity|vm_compute; intuition discriminate]).
  assert (Y : 1000 <= year monday_morning) by (vm_compute; discriminate).
  assert (I : int_readable (lower (lit "ship it in 30 hours")) = true)
    by (vm_compute; reflexivity).
  assert (F : first_match (lower (lit "ship it in 30 hours")) = None)
    by (vm_compute; reflexivity).
  assert (S : search_in (lower (lit "ship it in 30 hours")) = Some (30, Hour))
    by (vm_compute; reflexivity).
  assert (R : toordinal monday_morning + shift_days monday_morning 30 Hour
              <= MAXORDINAL) by (vm_compute; discriminate).
  destruct (in_n_units_rule monday_morning (lit "ship it in 30 hours")
              30 Hour W Y I F S R) as (_ & _ & d & E & _ & _ & O).
  exists d. split; trivial.
Defined.


(** ** Amounts that leave the range of [datetime] *)

Lemma new_timedelta_raises (days hours weeks : Z) (e : exn) :
  new_timedelta days hours weeks = Raise e -> cls e = OverflowError.
Proof.
  unfold new_timedelta. cbv zeta.
  destruct (999999999 <? _); [|discriminate].
  intros E. inversion E. reflexivity.
Qed.

Lemma in_rule_overflow (today : datetime) (amount : Z) (u : unit_name) :
  wf today -> 0 <= amount ->
  MAXORDINAL < toordinal today + shift_days today amount u ->
  exists e, cls e = OverflowError /\ in_rule today amount u = Raise e.
Proof.
  intros W A R. unfold in_rule.
  destruct (match u with
            | Hour => timedelta_hours amount
            | Day => timedelta_days amount
            | Week => timedelta_weeks amount
            end) as [delta|e] eqn:D.
  - destruct (rule_delta today amount u delta W A D) as (Bu & Q).
    destruct (add_out_of_range today delta) as (e & E & C);
      [rewrite <- Z.add_assoc, Q; lia|].
    exists e. cbn [bind]. rewrite E. auto.
  - exists e. split; [|reflexivity].
    destruct u; unfold timedelta_hours, timedelta_days, timedelta_weeks in D;
      now apply new_timedelta_raises in D.
Qed.

(** X4. When no number of the text has more than 4300 digits, an amount
    that carries the date past the last day [datetime] can hold makes
    [_extract_due_date] raise [OverflowError].  The rule-based classifier
    lets it through when the message is a task, and returns normally when
    it is not a task, since it then never looks for a date; the wrapper
    turns the exception into an analysis without a task that carries an
    error text. *)
Theorem amount_overflow_is_raised :
  forall (today : datetime) (text : str) (amount : Z) (u : unit_name),
    wf today ->
    int_readable (lower text) = true ->
    first_match (lower text) = None ->
    search_in (lower text) = Some (amount, u) ->
    MAXORDINAL < toordinal today + shift_days today amount u ->
    (exists ds, amount = int_of_digits ds /\ (List.length ds <= 4300)%nat) /\
    exists e,
      cls e = OverflowError /\
      _extract_due_date today text = Raise e /\
      (decide_is_task text = true ->
       forall list_of_set,
         analyze_message list_of_set today text = Raise e /\
         forall float_of_str repr json_loads llm openai self sender channel,
           MessageAnalyzer.use_openai self = false ->
           MessageAnalyzer.use_llama self <> Some true ->
           exists error_text,
             MessageAnalyzer._ai_analyze list_of_set float_of_str repr
               json_loads llm openai self today text sender channel
             = PyVal.VDict
                 [ (lit "contains_task", PyVal.VBool false);
                   (lit "error", PyVal.VStr error_text) ]) /\
      (decide_is_task text = false ->
       forall list_of_set,
         exists a, analyze_message list_of_set today text = Return a
                   /\ is_task a = false).
Proof.
  intros today text amount u W Rd F S R.
  split.
  { destruct (search_in_digits _ _ _ S) as (ds & A & L).
    exists ds. split; trivial. exact (readable_amount _ _ Rd L). }
  pose proof (search_in_nonneg _ _ _ S) as A.
  destruct (in_rule_overflow today amount u W A R) as (e & C & I).
  exists e. split; trivial.
  assert (D : _extract_due_date today text = Raise e).
  { unfold _extract_due_date. cbv zeta.
    rewrite scan_first_match, F, S, I. reflexivity. }
  split; trivial. split.
  - intros T los.
    assert (Q : analyze_message los today text = Raise e).
    { unfold analyze_message, _extract_task_details. cbv zeta.
      rewrite T, D. reflexivity. }
    split; trivial.
    intros f r jl llm openai self sender channel U L.
    exists (msg e).
    unfold MessageAnalyzer._ai_analyze. rewrite U.
    destruct (MessageAnalyzer.use_llama self) as [[|]|];
      [congruence| |]; now rewrite Q.
  - intros T los.
    destruct (SimpleFacts.analyze_message_not_task los today text T)
      as (a & E & I' & _).
    eauto.
Qed.

Lemma amount_overflow_is_raised_witness :
  exists e,
    cls e = OverflowError /\
    analyze_message set_order monday_morning
      (lit "please finish in 99999999999 days") = Raise e.
Proof.
  assert (W : wf monday_morning)
    by (split; [reflexivity|vm_compute; intuition discriminate]).
  assert (I : int_readable (lower (lit "please finish in 99999999999 days"))
              = true) by (vm_compute; reflexivity).
  assert (F : first_match (lower (lit "please finish in 99999999999 days"))
              = None) by (vm_compute; reflexivity).
  assert (S : search_in (lower (lit "please finish in 99999999999 days"))
              = Some (99999999999, Day)) by (vm_compute; reflexivity).
  assert (R : MAXORDINAL
              < toordinal monday_morning
                + shift_days monday_morning 99999999999 Day)
    by (vm_compute; reflexivity).
  assert (T : decide_is_task (lit "please finish in 99999999999 days") = true)
    by (vm_compute; reflexivity).
  destruct (amount_overflow_is_raised monday_morning
              (lit "please finish in 99999999999 days") 99999999999 Day
              W I F S R) as (_ & e & C & _ & H & _).
  exists e. split; trivial. exact (proj1 (H T set_order)).
Defined.

End DueDateRange.

(* ================================================================== *)
(** * More about the rule-based classifier *)

Module SimpleExtras.
Import PyStr Re Exn PyDate PyStrFacts ExnFacts.
Import SimpleMessageAnalyzer SimpleFacts ClassifierFacts Examples.

(** ** Tags *)

Lemma in_firstn (A : Type) (n : nat) (l : list A) (x : A) :
  In x (firstn n l) -> In x l.
Proof.
  intros H. rewrite <- (firstn_skipn n l). apply in_or_app. now left.
Qed.

(** A tag is collected exactly when a keyword of its cluster occurs, and
    "urgent" exactly when an urgency word occurs. *)
Lemma collected_tags_spec (message t : str) :
  In t (collected_tags message) <->
  (exists keywords, In (t, keywords) tag_patterns
                    /\ any_in keywords (lower message) = true)
  \/ (t = lit "urgent"
      /\ any_in (map lit ["urgent"; "asap"; "critical"]%string)
           (lower message) = true).
Proof.
  unfold collected_tags. cbv zeta. rewrite in_app_iff, in_map_iff. split.
  - intros [((t' & kws) & E & I)|I].
    + simpl in E. subst t'. apply filter_In in I. destruct I as [I A].
      left. exists kws. auto.
    + right. destruct (any_in _ (lower message)); [|destruct I].
      destruct I as [<-|[]]. auto.
  - intros [(kws & I & A)|(-> & A)].
    + left. exists (t, kws). split; trivial. apply filter_In. auto.
    + right. rewrite A. now left.
Qed.

(** X5. [_extract_tags] returns at most 5 tags.  When [list(set(...))]
    yields the elements of its argument without repetition, the tags are
    distinct, each is a tag whose keywords occur in the message, and no
    tag is lost when at most 5 were collected. *)
Theorem simple_tags_are_bounded :
  forall (list_of_set : list str -> list str) (message : str),
    (forall l, NoDup (list_of_set l)
               /\ forall x, In x (list_of_set l) <-> In x l) ->
    List.length (_extract_tags list_of_set message) <= 5 /\
    NoDup (_extract_tags list_of_set message) /\
    (forall t, In t (_extract_tags list_of_set message) ->
               In t (collected_tags message)) /\
    (List.length (collected_tags message) <= 5 ->
     forall t, In t (collected_tags message) ->
               In t (_extract_tags list_of_set message)).
Proof.
  intros los message H. unfold _extract_tags.
  destruct (H (collected_tags message)) as [N I].
  repeat split.
  - rewrite length_firstn. lia.
  - rewrite <- (firstn_skipn 5 (los (collected_tags message))) in N.
    now apply NoDup_app_remove_r in N.
  - intros t T. apply I. now apply in_firstn in T.
  - intros L t T.
    assert (List.length (los (collected_tags message)) <= 5).
    { etransitivity; [|exact L].
      apply NoDup_incl_length; trivial. intros x X. now apply I. }
    rewrite firstn_all2 by trivial. now apply I.
Qed.

Lemma simple_tags_are_bounded_witness :
  List.length
    (_extract_tags set_order
       (lit "Please review the code and email me the docs, it is urgent"))
  <= 5
  /\ NoDup
       (_extract_tags set_order
          (lit "Please review the code and email me the docs, it is urgent")).
Proof.
  assert (H : forall l, NoDup (set_order l)
                        /\ forall x, In x (set_order l) <-> In x l).
  { intros l. split; [apply NoDup_nodup|]. intros x. apply nodup_In. }
  destruct (simple_tags_are_bounded set_order
              (lit "Please review the code and email me the docs, it is urgent")
              H) as (L & N & _).
  split; assumption.
Defined.

(** ** Confidence and the keyword count *)

Lemma strip_prefix_app (a b s : str) :
  startswith (a ++ b) s = true -> startswith a s = true.
Proof.
  unfold startswith. revert s.
  induction a as [|x a IH]; intros s; simpl; trivial.
  destruct s as [|y s]; trivial.
  destruct (eqc x y); trivial. apply IH.
Qed.

(** A text that contains a phrase contains every prefix of the phrase. *)
Lemma contains_app_l (a b s : str) :
  contains (a ++ b) s = true -> contains a s = true.
Proof.
  induction s as [|c r IH]; simpl; intros H.
  - rewrite orb_false_r in *. now apply strip_prefix_app in H.
  - apply orb_prop in H. apply orb_true_iff. destruct H as [H|H].
    + left. now apply strip_prefix_app in H.
    + right. now apply IH.
Qed.

(** Each strong indicator brings a keyword with it. *)
Lemma strong_indicator_scores (message_lower : str) :
  any_in strong_indicators message_lower = true ->
  1 <= task_score message_lower.
Proof.
  intros H. unfold any_in in H. apply existsb_exists in H.
  destruct H as (w & I & C).
  assert (K : exists k, In k task_keywords /\ contains k message_lower = true).
  { unfold strong_indicators in I. simpl in I.
    destruct I as [<-|[<-|[<-|[<-|[<-|[]]]]]].
    - exists (lit "remind"). split; [simpl; tauto|].
      now apply (contains_app_l (lit "remind") (lit " me")).
    - exists (lit "don't forget"). split; [simpl; tauto|trivial].
    - exists (lit "need to"). split; [simpl; tauto|trivial].
    - exists (lit "have to"). split; [simpl; tauto|trivial].
    - exists (lit "please"). split; [simpl; tauto|trivial]. }
  destruct K as (k & Ik & Ck). unfold task_score.
  assert (F : In k (filter (fun k => contains k message_lower) task_keywords))
    by (apply filter_In; auto).
  destruct (filter _ task_keywords); [destruct F|simpl; lia].
Qed.

Lemma confidence_table :
  forallb
    (fun k =>
       (forallb
          (fun j => implb (Nat.leb j k)
                      (PyFloat.leb (score_confidence j) (score_confidence k)))
          (seq 0 33)
        && Bool.eqb (PyFloat.ltb PyFloat.f0_7 (score_confidence k))
             (Nat.leb 3 k)
        && Bool.eqb (PyFloat.leb PyFloat.f0_9 (score_confidence k))
             (Nat.leb 5 k)
        && PyFloat.leb (score_confidence k) PyFloat.f0_9
        && PyFloat.ltb PyFloat.f0_0
             (PyFloat.sub PyFloat.f1_0 (score_confidence k))
        && PyFloat.leb (PyFloat.sub PyFloat.f1_0 (score_confidence k))
             PyFloat.f0_7)%bool)
    (seq 0 33) = true.
Proof. vm_compute. reflexivity. Qed.

(** X6. The confidence of the rule-based classifier, in binary64
    arithmetic: it does not decrease when the keyword count grows, is at
    most 0.9 and reaches 0.9 from 5 keywords on, and exceeds 0.7 exactly
    from 3 keywords on.  A result with [is_task] true has at least one
    keyword and this confidence; a result with [is_task] false has the
    complement, which is positive and at most 0.7. *)
Theorem simple_confidence_levels :
  (forall j k, j <= k -> k <= 32 ->
     PyFloat.leb (score_confidence j) (score_confidence k) = true) /\
  (forall k, k <= 32 ->
     PyFloat.leb (score_confidence k) PyFloat.f0_9 = true /\
     (PyFloat.leb PyFloat.f0_9 (score_confidence k) = true <-> 5 <= k) /\
     (PyFloat.ltb PyFloat.f0_7 (score_confidence k) = true <-> 3 <= k)) /\
  (forall list_of_set today message a,
     analyze_message list_of_set today message = Return a ->
     task_score (lower message) <= 32 /\
     (is_task a = true ->
      1 <= task_score (lower message) /\
      confidence a = score_confidence (task_score (lower message))) /\
     (is_task a = false ->
      PyFloat.ltb PyFloat.f0_0 (confidence a) = true /\
      PyFloat.leb (confidence a) PyFloat.f0_7 = true)).
Proof.
  assert (T : forall k, k <= 32 ->
    forallb
      (fun j => implb (Nat.leb j k)
                  (PyFloat.leb (score_confidence j) (score_confidence k)))
      (seq 0 33) = true /\
    Bool.eqb (PyFloat.ltb PyFloat.f0_7 (score_confidence k)) (Nat.leb 3 k)
      = true /\
    Bool.eqb (PyFloat.leb PyFloat.f0_9 (score_confidence k)) (Nat.leb 5 k)
      = true /\
    PyFloat.leb (score_confidence k) PyFloat.f0_9 = true /\
    PyFloat.ltb PyFloat.f0_0 (PyFloat.sub PyFloat.f1_0 (score_confidence k))
      = true /\
    PyFloat.leb (PyFloat.sub PyFloat.f1_0 (score_confidence k)) PyFloat.f0_7
      = true).
  { intros k Hk.
    assert (I : In k (seq 0 33)) by (apply in_seq; lia).
    pose proof (proj1 (forallb_forall _ _) confidence_table k I) as H.
    cbv beta in H.
    do 5 (apply andb_prop in H; destruct H as [H ?]).
    repeat split; assumption. }
  split; [|split].
  - intros j k Hj Hk. destruct (T k Hk) as (M & _).
    assert (I : In j (seq 0 33)) by (apply in_seq; lia).
    pose proof (proj1 (forallb_forall _ _) M j I) as H. cbv beta in H.
    replace (Nat.leb j k) with true in H
      by (symmetry; apply Nat.leb_le; lia).
    exact H.
  - intros k Hk. destruct (T k Hk) as (_ & H7 & H9 & L9 & _).
    split; trivial. apply Bool.eqb_prop in H7, H9. rewrite H7, H9.
    split; apply Nat.leb_le.
  - intros los today message a H.
    pose proof (task_score_le (lower message)) as B.
    split; trivial.
    destruct (analyze_message_shape los today message a H)
      as [(I & D & C & _)|(I & D & C & _)]; rewrite I; split;
      try discriminate; intros _.
    + split; trivial.
      unfold decide_is_task in D. cbv zeta in D.
      destruct (endswith (lit "?") (strip message)
                && negb (any_in polite_requests (lower message)))%bool;
        [discriminate|].
      destruct (any_in strong_indicators (lower message)) eqn:S.
      * now apply strong_indicator_scores.
      * apply Nat.leb_le in D. lia.
    + rewrite C. destruct (T _ B) as (_ & _ & _ & _ & P & Q). auto.
Qed.

Lemma simple_confidence_levels_witness :
  PyFloat.ltb PyFloat.f0_7 (score_confidence 3) = true
  /\ PyFloat.ltb PyFloat.f0_7 (score_confidence 2) = false.
Proof.
  destruct simple_confidence_levels as (_ & H & _).
  destruct (H 3 ltac:(lia)) as (_ & _ & H3).
  destruct (H 2 ltac:(lia)) as (_ & _ & H2).
  split.
  - apply H3. lia.
  - destruct (PyFloat.ltb PyFloat.f0_7 (score_confidence 2)); trivial.
    assert (3 <= 2) by (apply H2; reflexivity). lia.
Defined.

End SimpleExtras.

(* ================================================================== *)
(** * More about the AI-backed classifier *)

Module LlamaExtras.
Import PyStr Re Exn PyDate PyVal PyStrFacts ExnFacts.
Import LlamaMessageAnalyzer LlamaFacts Examples.

(** ** Tags *)

Lemma NoDup_map_fst_filter (A B : Type) (f : A * B -> bool)
    (l : list (A * B)) :
  NoDup (map fst l) -> NoDup (map fst (filter f l)).
Proof.
  induction l as [|x l IH]; simpl; intros N; trivial.
  inversion N as [|y ys Hn N']; subst.
  destruct (f x); simpl; [|auto].
  constructor; [|auto].
  intros I. apply Hn. apply in_map_iff in I.
  destruct I as (z & E & Z). apply filter_In in Z.
  apply in_map_iff. exists z. tauto.
Qed.

(** X7. The [_extract_tags] of the AI-backed classifier returns, in the
    order of its table and without repetition, exactly the tags of the
    clusters of which a keyword occurs; the cut to 5 tags never removes
    one. *)
Theorem llama_tags_are_complete :
  forall message : str,
    _extract_tags message =
      map fst (filter (fun p => any_in (snd p) (lower message)) tag_patterns)
    /\ List.length (_extract_tags message) <= 5
    /\ NoDup (_extract_tags message)
    /\ forall t,
         In t (_extract_tags message) <->
         exists keywords, In (t, keywords) tag_patterns
                          /\ any_in keywords (lower message) = true.
Proof.
  intros message.
  set (f := fun p : str * list str => any_in (snd p) (lower message)).
  assert (L : List.length (map fst (filter f tag_patterns)) <= 5).
  { rewrite length_map. etransitivity; [apply filter_length_le|].
    reflexivity. }
  assert (E : _extract_tags message = map fst (filter f tag_patterns)).
  { unfold _extract_tags. cbv zeta. fold f. now apply firstn_all2. }
  rewrite E. repeat split; trivial.
  - apply NoDup_map_fst_filter.
    repeat (constructor; [simpl; intuition discriminate|]). constructor.
  - intros I. apply in_map_iff in I. destruct I as ((t' & kws) & <- & I).
    apply filter_In in I. exists kws. tauto.
  - intros (kws & I & A). apply in_map_iff. exists (t, kws).
    split; trivial. apply filter_In. auto.
Qed.


(** ** The fallback parse *)

Lemma validate_fallback_task (float_of_str : str -> option PyFloat.float)
    (repr : value -> str) (today : datetime)
    (title description priority : str) (due : value) (tags : list value) :
  In priority allowed_priorities ->
  _validate_result float_of_str repr today
    (VDict
      [ (lit "is_task", VBool true);
        (lit "confidence", VFloat PyFloat.f0_7);
        (lit "task_details", VDict
          [ (lit "title", VStr title);
            (lit "description", VStr description);
            (lit "priority", VStr priority);
            (lit "due_date", due);
            (lit "tags", VList tags) ]) ])
  = Return (mk_analysis (VBool true) PyFloat.f0_7
              (Some (mk_details title description (VStr priority) due
                       (VList tags)))
              (validated_meta today)).
Proof.
  intros [<-|[<-|[<-|[]]]]; vm_compute; reflexivity.
Qed.

Lemma validate_fallback_no_task (float_of_str : str -> option PyFloat.float)
    (repr : value -> str) (today : datetime) :
  _validate_result float_of_str repr today
    (VDict
      [ (lit "is_task", VBool false);
        (lit "confidence", VFloat PyFloat.f0_8);
        (lit "task_details", VNone) ])
  = Return (mk_analysis (VBool false) PyFloat.f0_8 None
              (validated_meta today)).
Proof. vm_compute. reflexivity. Qed.

Lemma fallback_priority_allowed (message_lower : str) :
  In (if any_in (map lit ["urgent"; "asap"; "critical"; "important"]%string)
          message_lower then lit "high"
      else if any_in (map lit ["whenever"; "eventually"; "low priority"]%string)
                message_lower then lit "low"
      else lit "medium") allowed_priorities.
Proof.
  destruct (any_in _ message_lower); [simpl; tauto|].
  destruct (any_in _ message_lower); simpl; tauto.
Qed.

Lemma fallback_title_length (original_message : str) :
  List.length
    (if Nat.ltb 50 (List.length original_message)
     then strip (slice_to 50 original_message) ++ lit "..."
     else strip (slice_to 50 original_message)) <= 53.
Proof.
  pose proof (strip_length (slice_to 50 original_message)) as S.
  unfold slice_to in *. rewrite length_firstn in S.
  destruct (Nat.ltb 50 _);
    [rewrite length_app; change (List.length (lit "...")) with 3|]; lia.
Qed.

Lemma parse_generated_fallback (json_loads : str -> result value)
    (today : datetime) (generated_text message : str) :
  not_json json_loads generated_text ->
  parse_generated json_loads today generated_text message
  = _parse_natural_response today generated_text message.
Proof.
  unfold parse_generated. intros [N|(j & e & S & J & I)].
  - now rewrite N.
  - now rewrite S, J, I.
Qed.

(** X8. When the reply of the model holds no JSON object that
    [json.loads] accepts, and the fallback date arithmetic stays in
    range, the AI-backed classifier answers from its keyword fallback:
    [is_task] is a boolean, true when the reply says so or the message
    has a fallback keyword; the confidence is 0.7 for a task and 0.8
    otherwise; task details are present exactly for a task, with the
    message as description, a title of at most 53 characters and a
    priority among "low", "medium", "high". *)
Theorem llama_fallback_shape :
  forall (float_of_str : str -> option PyFloat.float) (repr : value -> str)
         (json_loads : str -> result value) (llm : str -> result str)
         (today : datetime) (message text : str) (due : value),
    llm (make_prompt message) = Return text ->
    not_json json_loads (strip text) ->
    fallback_due_date today (lower message) date_patterns = Return due ->
    let a := analyze_message float_of_str repr json_loads llm today message in
    is_task a = VBool (fallback_is_task (strip text) message) /\
    confidence a =
      (if fallback_is_task (strip text) message
       then PyFloat.f0_7 else PyFloat.f0_8) /\
    (fallback_is_task (strip text) message = true ->
     exists d,
       task_details a = Some d /\
       description d = message /\
       List.length (title d) <= 53 /\
       (exists p, priority d = VStr p /\ In p allowed_priorities) /\
       due_date d = due /\
       tags d = VList (map VStr (_extract_tags message))) /\
    (fallback_is_task (strip text) message = false ->
     task_details a = None).
Proof.
  intros f r jl llm today message text due Hl Hn Hd a.
  assert (E : analyze_try f r jl llm today message
              = _validate_result f r today
                  (if fallback_is_task (strip text) message then
                     VDict
                       [ (lit "is_task", VBool true);
                         (lit "confidence", VFloat PyFloat.f0_7);
                         (lit "task_details", VDict
                            [ (lit "title", VStr
                                 (if Nat.ltb 50 (List.length message)
                                  then strip (slice_to 50 message) ++ lit "..."
                                  else strip (slice_to 50 message)));
                              (lit "description", VStr message);
                              (lit "priority", VStr
                                 (if any_in
                                       (map lit ["urgent"; "asap"; "critical";
                                                 "important"]%string)
                                       (lower message) then lit "high"
                                  else if any_in
                                            (map lit ["whenever"; "eventually";
                                                      "low priority"]%string)
                                            (lower message) then lit "low"
                                  else lit "medium"));
                              (lit "due_date", due);
                              (lit "tags",
                                VList (map VStr (_extract_tags message))) ]) ]
                   else
                     VDict
                       [ (lit "is_task", VBool false);
                         (lit "confidence", VFloat PyFloat.f0_8);
                         (lit "task_details", VNone) ])).
  { unfold analyze_try. rewrite Hl. cbn [bind].
    rewrite (parse_generated_fallback jl today (strip text) message Hn).
    unfold _parse_natural_response. cbv zeta. rewrite Hd. cbn [bind].
    unfold fallback_is_task.
    destruct (any_in task_phrases (lower (strip text)));
      cbn [negb orb];
      destruct (any_in fallback_keywords (lower message)); reflexivity. }
  subst a. unfold analyze_message. rewrite E.
  destruct (fallback_is_task (strip text) message).
  - rewrite validate_fallback_task by apply fallback_priority_allowed.
    cbn [is_task confidence task_details].
    repeat split; trivial; [|discriminate].
    intros _. eexists. split; [reflexivity|].
    cbn [title description priority due_date tags].
    repeat split; trivial.
    + apply fallback_title_length.
    + eexists. split; [reflexivity|]. apply fallback_priority_allowed.
  - rewrite validate_fallback_no_task.
    cbn [is_task confidence task_details].
    repeat split; trivial. discriminate.
Qed.

Lemma llama_fallback_shape_witness :
  is_task
    (analyze_message no_number repr_small demo_json_loads
       (always (lit "This is a task.")) monday_morning
       (lit "see you at lunch"))
  = VBool true.
Proof.
  assert (N : not_json demo_json_loads (strip (lit "This is a task.")))
    by (left; vm_compute; reflexivity).
  destruct (llama_fallback_shape no_number repr_small demo_json_loads
              (always (lit "This is a task.")) monday_morning
              (lit "see you at lunch") (lit "This is a task.") VNone
              eq_refl N eq_refl) as (I & _).
  exact I.
Defined.

(** ** Errors *)

(** X9. Every failure inside the AI-backed classifier ends in the safe
    default: not a task, confidence 0.0, no details, and the text of the
    exception.  That holds when the model call raises, when [json.loads]
    raises something other than a decoding error, and when validation
    raises; validation raises for a reply that is not an object, and for
    a reply whose confidence cannot be converted to a float, whatever the
    other fields of the reply say. *)
Theorem llama_errors_give_safe_default :
  forall (float_of_str : str -> option PyFloat.float) (repr : value -> str)
         (json_loads : str -> result value) (llm : str -> result str)
         (today : datetime) (message : str),
    let a := analyze_message float_of_str repr json_loads llm today message in
    (forall e, llm (make_prompt message) = Raise e -> a = safe_default e) /\
    (forall text json_text e,
       llm (make_prompt message) = Return text ->
       search_braces (strip text) = Some json_text ->
       json_loads json_text = Raise e -> is_json_error e = false ->
       a = safe_default e) /\
    (forall text json_text v e,
       llm (make_prompt message) = Return text ->
       search_braces (strip text) = Some json_text ->
       json_loads json_text = Return v ->
       _validate_result float_of_str repr today v = Raise e ->
       a = safe_default e) /\
    (forall d e,
       to_float float_of_str
         (dict_get (lit "confidence") (VFloat PyFloat.f0_0) d) = Raise e ->
       _validate_result float_of_str repr today (VDict d) = Raise e) /\
    (forall v, (forall d, v <> VDict d) ->
       _validate_result float_of_str repr today v = Raise no_attribute) /\
    (forall e,
       is_task (safe_default e) = VBool false /\
       confidence (safe_default e) = PyFloat.f0_0 /\
       task_details (safe_default e) = None /\
       error (analysis_metadata (safe_default e)) = Some (msg e)).
Proof.
  intros f r jl llm today message a. subst a.
  unfold analyze_message, analyze_try. repeat split.
  - intros e ->. reflexivity.
  - intros text j e -> S J I. cbn [bind]. unfold parse_generated.
    now rewrite S, J, I.
  - intros text j v e -> S J V. cbn [bind]. unfold parse_generated.
    rewrite S, J. cbn [bind]. now rewrite V.
  - intros d e T. unfold _validate_result, get. cbn [bind]. now rewrite T.
  - intros v N. unfold _validate_result, get.
    destruct v; try reflexivity. now destruct (N d).
Qed.

Lemma llama_errors_give_safe_default_witness :
  analyze_message no_number repr_small demo_json_loads unreachable
    monday_morning (lit "please fix the bug")
  = safe_default (mk_exn ConnectionError (lit "Connection refused")).
Proof.
  destruct (llama_errors_give_safe_default no_number repr_small
              demo_json_loads unreachable monday_morning
              (lit "please fix the bug")) as (H & _).
  exact (H (mk_exn ConnectionError (lit "Connection refused")) eq_refl).
Defined.

End LlamaExtras.

(* ================================================================== *)
(** * Further properties of the wrapper *)

Module WrapperExtras.
Import PyStr Re Exn PyDate PyVal Config PyStrFacts PyDateFacts ExnFacts.
Import MessageAnalyzer ClassifierFacts DueDateRange SimpleExtras Examples.

(** ** The keyword gate *)

Lemma gate_keywords_are_rule_keywords (k : str) :
  In k task_keywords -> In k Simple.task_keywords.
Proof.
  unfold task_keywords, Simple.task_keywords. simpl. intuition.
Qed.

Lemma keyword_scores (k message_lower : str) :
  In k Simple.task_keywords -> contains k message_lower = true ->
  1 <= Simple.task_score message_lower.
Proof.
  intros I C. unfold Simple.task_score.
  assert (F : In k (filter (fun k => contains k message_lower)
                      Simple.task_keywords))
    by (apply filter_In; auto).
  destruct (filter _ Simple.task_keywords); [destruct F|simpl; lia].
Qed.

(** X10. The keyword gate of the wrapper lets through every message with
    a strong indicator of the rule-based classifier, and only messages in
    which the rule-based classifier counts at least one keyword.  A
    message that fails the gate is answered with [contains_task] false and
    nothing else, whatever the strategy; the gate is stricter than the
    rule-based classifier, which calls "schedule a meeting" a task. *)
Theorem gate_and_rule_keywords :
  (forall message,
     any_in Simple.strong_indicators (lower message) = true ->
     _might_contain_task message = true) /\
  (forall message,
     _might_contain_task message = true ->
     1 <= Simple.task_score (lower message)) /\
  (forall list_of_set float_of_str repr json_loads llm openai self today
          message sender channel,
     _might_contain_task message = false ->
     analyze_message list_of_set float_of_str repr json_loads llm openai
       self today message sender channel
     = Return (VDict [ (lit "contains_task", VBool false) ])) /\
  (_might_contain_task (lit "schedule a meeting") = false /\
   Simple.decide_is_task (lit "schedule a meeting") = true).
Proof.
  split; [|split; [|split; [|split]]].
  - intros message H. unfold _might_contain_task, any_in in *.
    apply existsb_exists in H. destruct H as (w & I & C).
    apply existsb_exists.
    unfold Simple.strong_indicators in I. simpl in I.
    destruct I as [<-|[<-|[<-|[<-|[<-|[]]]]]].
    + exists (lit "remind"). split; [simpl; tauto|].
      now apply (contains_app_l (lit "remind") (lit " me")).
    + exists (lit "don't forget"). split; [simpl; tauto|trivial].
    + exists (lit "need to"). split; [simpl; tauto|trivial].
    + exists (lit "have to"). split; [simpl; tauto|trivial].
    + exists (lit "please"). split; [simpl; tauto|trivial].
  - intros message H. unfold _might_contain_task, any_in in H.
    apply existsb_exists in H. destruct H as (k & I & C).
    apply (keyword_scores k); trivial.
    now apply gate_keywords_are_rule_keywords.
  - intros los f r jl llm openai self today message sender channel G.
    unfold analyze_message. now rewrite G.
  - vm_compute. reflexivity.
  - vm_compute. reflexivity.
Qed.

Lemma gate_and_rule_keywords_witness :
  _might_contain_task (lit "Remind me about the invoice") = true.
Proof.
  destruct gate_and_rule_keywords as (H & _).
  apply (H (lit "Remind me about the invoice")).
  vm_compute. reflexivity.
Defined.


(** ** The date rules of the wrapper *)

Local Open Scope Z_scope.

Lemma strip_prefix_app_same (p r : str) : strip_prefix p (p ++ r) = Some r.
Proof.
  induction p as [|a p IH]; simpl; trivial.
  replace (eqc a a) with true by (symmetry; now apply eqc_true). exact IH.
Qed.

Lemma contains_at_start (x t : str) : contains x (x ++ t) = true.
Proof.
  assert (S : startswith x (x ++ t) = true)
    by (unfold startswith; now rewrite strip_prefix_app_same).
  destruct (x ++ t); simpl; now rewrite S.
Qed.

Lemma contains_later (x s : str) (c : ascii) :
  contains x s = true -> contains x (c :: s) = true.
Proof. intros H. simpl. rewrite H. apply orb_true_r. Qed.

Lemma digits_upto_split (hi : nat) : forall s d t,
  digits_upto hi s = (d, t) -> s = d ++ t.
Proof.
  induction hi as [|h IH]; intros s d t; simpl.
  - destruct s; intros E; now inversion E.
  - destruct s as [|c r]; [intros E; now inversion E|].
    destruct (isdigit c); [|intros E; now inversion E].
    destruct (digits_upto h r) as [d' t'] eqn:D.
    intros E. inversion E; subst. simpl. now rewrite (IH r d' t D).
Qed.

(** A matched date is the text that follows the prefix, as written. *)
Lemma full_date_at_written (r g : str) :
  full_date_at r = Some g -> nonempty g = true /\ exists t, r = g ++ t.
Proof.
  unfold full_date_at.
  destruct (digits_upto 2 r) as [a ra] eqn:A.
  apply digits_upto_split in A.
  destruct a as [|a0 a]; [discriminate|].
  destruct ra as [|c1 r1]; [discriminate|].
  destruct (eqc c1 "/"%char); [|discriminate].
  destruct (digits_upto 2 r1) as [b rb] eqn:B.
  apply digits_upto_split in B.
  destruct b as [|b0 b]; [discriminate|].
  destruct rb as [|c2 r2]; [discriminate|].
  destruct (eqc c2 "/"%char); [|discriminate].
  destruct (digits_upto 4 r2) as [y ry] eqn:Y.
  apply digits_upto_split in Y.
  destruct (Nat.leb 2 (List.length y)); [|discriminate].
  intros E. inversion E; subst. split; [reflexivity|].
  exists ry. subst. simpl. f_equal. rewrite <- app_assoc. simpl. f_equal.
  f_equal. rewrite <- app_assoc. reflexivity.
Qed.

Lemma search_full_date_written (prefix : str) : forall s g,
  search_full_date prefix s = Some g ->
  nonempty g = true /\ contains (prefix ++ lit " " ++ g) s = true.
Proof.
  assert (At : forall s g,
             match strip_prefix (prefix ++ lit " ") s with
             | Some r => full_date_at r
             | None => None
             end = Some g ->
             nonempty g = true /\ contains (prefix ++ lit " " ++ g) s = true).
  { intros s g. destruct (strip_prefix _ s) as [r|] eqn:P; [|discriminate].
    intros F. apply strip_prefix_eq in P.
    destruct (full_date_at_written r g F) as (N & t & ->).
    split; trivial. subst s.
    replace ((prefix ++ lit " ") ++ g ++ t)
      with ((prefix ++ lit " " ++ g) ++ t)
      by now rewrite <- !app_assoc.
    apply contains_at_start. }
  induction s as [|c r IH]; intros g.
  - cbn [search_full_date].
    destruct (match strip_prefix _ [] with Some _ => _ | None => _ end)
      eqn:M; [|discriminate].
    intros E. inversion E; subst. now apply At.
  - cbn [search_full_date].
    destruct (match strip_prefix _ (c :: r) with Some _ => _ | None => _ end)
      eqn:M.
    + intros E. inversion E; subst. now apply At.
    + intros E. destruct (IH g E) as (N & C). split; trivial.
      now apply contains_later.
Qed.

Lemma first_full_date_written (message g : str) : forall prefixes,
  first_full_date prefixes message = Some g ->
  nonempty g = true /\
  exists p, In p prefixes /\ contains (p ++ lit " " ++ g) message = true.
Proof.
  induction prefixes as [|p rest IH]; simpl; [discriminate|].
  destruct (search_full_date p message) as [g'|] eqn:S.
  - intros E. inversion E; subst.
    destruct (search_full_date_written p message g S) as (N & C).
    split; trivial. exists p. split; [now left|trivial].
  - intros E. destruct (IH E) as (N & q & I & C).
    split; trivial. exists q. split; [now right|trivial].
Qed.

Lemma in_span_at_nonneg (s : str) (amount : Z) (u : span_name) :
  in_span_at s = Some (amount, u) -> 0 <= amount.
Proof.
  unfold in_span_at.
  destruct (strip_prefix (lit "in ") s) as [r|]; [|discriminate].
  pose proof (span_digits_digits r) as D.
  destruct (span_digits r) as [[|d ds] [|sp t]]; try discriminate.
  destruct (eqc sp " "%char); [|discriminate].
  destruct (span_at t); [|discriminate].
  intros E. inversion E; subst. now apply int_of_digits_nonneg.
Qed.

Lemma search_in_span_nonneg (s : str) (amount : Z) (u : span_name) :
  search_in_span s = Some (amount, u) -> 0 <= amount.
Proof.
  induction s as [|c r IH]; simpl.
  - discriminate.
  - destruct (in_span_at (c :: r)) as [[a v]|] eqn:E; trivial.
    intros H. inversion H; subst.
    now apply (in_span_at_nonneg (c :: r) amount u).
Qed.

Lemma in_span_at_digits (s : str) (amount : Z) (u : span_name) :
  in_span_at s = Some (amount, u) ->
  exists ds, amount = int_of_digits ds /\
             (List.length ds <= longest_digit_run 0 s)%nat.
Proof.
  unfold in_span_at.
  destruct (strip_prefix (lit "in ") s) as [r|] eqn:P; [|discriminate].
  apply strip_prefix_eq in P.
  pose proof (span_digits_digits r) as D.
  pose proof (span_digits_eq r) as Q.
  destruct (span_digits r) as [[|d ds] [|sp t]]; try discriminate.
  destruct (eqc sp " "%char); [|discriminate].
  destruct (span_at t); [|discriminate].
  intros E. injection E as <- _. exists (d :: ds). split; trivial.
  cbn [fst snd] in *. rewrite P, Q. now apply digits_in_text.
Qed.

(** The amount of an ["in N ..."] match of the wrapper is read from a run
    of digits of the text. *)
Lemma search_in_span_digits (s : str) (amount : Z) (u : span_name) :
  search_in_span s = Some (amount, u) ->
  exists ds, amount = int_of_digits ds /\
             (List.length ds <= longest_digit_run 0 s)%nat.
Proof.
  induction s as [|c r IH]; simpl.
  - discriminate.
  - destruct (in_span_at (c :: r)) as [[a v]|] eqn:E.
    + intros H. inversion H; subst.
      exact (in_span_at_digits (c :: r) amount u E).
    + intros H. destruct (IH H) as (ds & A & L). exists ds. split; trivial.
      pose proof (longest_digit_run_skip [c] r) as K. simpl app in K.
      simpl in K. lia.
Qed.

(** [today + timedelta(days=.., weeks=..)] reaches the day that many days
    later, or raises [OverflowError] when that day is after the year 9999. *)
Lemma shift_in_range (today : datetime) (days weeks : Z) :
  wf today -> 0 <= days -> 0 <= weeks ->
  toordinal today + (days + 7 * weeks) <= MAXORDINAL ->
  exists delta d,
    new_timedelta days 0 weeks = Return delta /\
    add today delta = Return d /\ wf d /\
    toordinal d = toordinal today + (days + 7 * weeks).
Proof.
  intros W Hd Hw R. pose proof (toordinal_range today W) as B.
  assert (N : new_timedelta days 0 weeks
              = Return (mk_timedelta (days + 7 * weeks) 0)).
  { rewrite new_timedelta_ok.
    - change (0 * US_PER_HOUR) with 0. change (0 / US_PER_DAY) with 0.
      change (0 mod US_PER_DAY) with 0. now rewrite Z.add_0_r.
    - change (0 * US_PER_HOUR / US_PER_DAY) with 0.
      unfold MAXORDINAL in *. lia. }
  assert (Q : (tod today + 0) / US_PER_DAY = 0)
    by (apply Z.div_small; destruct W; lia).
  destruct (add_in_range today (mk_timedelta (days + 7 * weeks) 0) W)
    as (d & E & Wd & O & _).
  - cbn [td_us]. unfold US_PER_DAY. lia.
  - cbn [td_days td_us]. rewrite Q. lia.
  - cbn [td_days td_us] in O. rewrite Q in O.
    exists (mk_timedelta (days + 7 * weeks) 0), d.
    split; [exact N|]. split; [exact E|]. split; [exact Wd|lia].
Qed.

Lemma shift_overflow (today : datetime) (days weeks : Z) :
  wf today -> 0 <= days -> 0 <= weeks ->
  MAXORDINAL < toordinal today + (days + 7 * weeks) ->
  exists e,
    (delta <- new_timedelta days 0 weeks ;; add today delta) = Raise e /\
    cls e = OverflowError.
Proof.
  intros W Hd Hw R.
  destruct (Z_le_gt_dec (days + 7 * weeks) 999999999) as [L|G].
  - rewrite new_timedelta_ok
      by (change (0 * US_PER_HOUR / US_PER_DAY) with 0; lia).
    cbn [bind].
    apply add_out_of_range. cbn [td_days td_us].
    change (0 * US_PER_HOUR) with 0. change (0 / US_PER_DAY) with 0.
    change (0 mod US_PER_DAY) with 0.
    rewrite (Z.div_small (tod today + 0)) by (destruct W; lia). lia.
  - destruct (new_timedelta_overflow days 0 weeks) as (e & E & C).
    + change (0 * US_PER_HOUR / US_PER_DAY) with 0. lia.
    + rewrite E. exists e. split; trivial.
Qed.

(** The two ways in which [_extract_date] writes a shifted day. *)
Lemma after_days (today : datetime) (n : Z) :
  wf today -> 0 <= n ->
  (toordinal today + n <= MAXORDINAL ->
   exists d,
     (d <- plus_days today n ;; Return (Some (strftime_Ymd d)))
     = Return (Some (strftime_Ymd d)) /\
     wf d /\ toordinal d = toordinal today + n) /\
  (MAXORDINAL < toordinal today + n ->
   exists e,
     (d <- plus_days today n ;; Return (Some (strftime_Ymd d))) = Raise e /\
     cls e = OverflowError).
Proof.
  intros W N. unfold plus_days, timedelta_days. split; intros R.
  - destruct (shift_in_range today n 0 W N (Z.le_refl 0))
      as (delta & d & T & A & Wd & O); [lia|].
    exists d. rewrite T. cbn [bind]. rewrite A. cbn [bind].
    split; [reflexivity|]. split; [exact Wd|lia].
  - destruct (shift_overflow today n 0 W N (Z.le_refl 0)) as (e & E & C);
      [lia|].
    exists e. rewrite E. split; trivial.
Qed.

Lemma after_weeks (today : datetime) (n : Z) :
  wf today -> 0 <= n ->
  (toordinal today + 7 * n <= MAXORDINAL ->
   exists d,
     (delta <- timedelta_weeks n ;; d <- add today delta ;;
      Return (Some (strftime_Ymd d)))
     = Return (Some (strftime_Ymd d)) /\
     wf d /\ toordinal d = toordinal today + 7 * n) /\
  (MAXORDINAL < toordinal today + 7 * n ->
   exists e,
     (delta <- timedelta_weeks n ;; d <- add today delta ;;
      Return (Some (strftime_Ymd d))) = Raise e /\
     cls e = OverflowError).
Proof.
  intros W N. unfold timedelta_weeks. split; intros R.
  - destruct (shift_in_range today 0 n W (Z.le_refl 0) N)
      as (delta & d & T & A & Wd & O); [lia|].
    exists d. rewrite T. cbn [bind]. rewrite A. cbn [bind].
    split; [reflexivity|]. split; [exact Wd|lia].
  - destruct (shift_overflow today 0 n W (Z.le_refl 0) N) as (e & E & C);
      [lia|].
    exists e. unfold bind in *.
    destruct (new_timedelta 0 0 n) as [delta|e'].
    + rewrite E. split; trivial.
    + inversion E; subst. split; trivial.
Qed.

(** X12. The date rules of the wrapper, in their order, for a well-formed
    clock of the year 1000 or later.  "tomorrow" gives the next day and
    wins over every other phrase; then "today" gives the current day; then
    "next week" gives the day 7 days later and "next month" the day 30
    days later.  Without these words, and when no number of the text has
    more than 4300 digits, "in N days", "in N weeks" or "in N months"
    gives the day N, 7 N or 30 N days later, and raises OverflowError when
    that day is after the year 9999.  Every day that is given is a
    calendar date of the years 1000 to 9999.  Without any of these, a
    date that follows "by", "on" or "before" is returned as it is written
    in the message. *)
Theorem wrapper_date_rules (today : datetime) (message : str) :
  wf today -> 1000 <= year today ->
  let message_lower := lower message in
  let shifted n :=
    exists d, _extract_date today message = Return (Some (strftime_Ymd d))
              /\ wf d /\ 1000 <= year d <= 9999
              /\ toordinal d = toordinal today + n in
  (contains (lit "tomorrow") message_lower = true ->
   toordinal today + 1 <= MAXORDINAL -> shifted 1) /\
  (contains (lit "tomorrow") message_lower = false ->
   (contains (lit "today") message_lower = true ->
    _extract_date today message = Return (Some (strftime_Ymd today))) /\
   (contains (lit "today") message_lower = false ->
    (contains (lit "next week") message_lower = true ->
     toordinal today + 7 <= MAXORDINAL -> shifted 7) /\
    (contains (lit "next week") message_lower = false ->
     (contains (lit "next month") message_lower = true ->
      toordinal today + 30 <= MAXORDINAL -> shifted 30) /\
     (contains (lit "next month") message_lower = false ->
      (forall amount u,
         search_in_span message_lower = Some (amount, u) ->
         int_readable message_lower = true ->
         (exists ds, amount = int_of_digits ds /\
                     (List.length ds <= 4300)%nat) /\
         (toordinal today + span_days amount u <= MAXORDINAL ->
          shifted (span_days amount u)) /\
         (MAXORDINAL < toordinal today + span_days amount u ->
          exists e, _extract_date today message = Raise e /\
                    cls e = OverflowError)) /\
      (search_in_span message_lower = None ->
       forall s, _extract_date today message = Return (Some s) ->
         exists p, In p date_prefixes /\
                   contains (p ++ lit " " ++ s) message = true))))).
Proof.
  intros W Y ml shifted. subst shifted. unfold _extract_date. fold ml.
  cbv zeta.
  assert (Sh : forall (x : result (option str)) n,
            0 <= n ->
            (exists d, x = Return (Some (strftime_Ymd d)) /\ wf d /\
                       toordinal d = toordinal today + n) ->
            exists d, x = Return (Some (strftime_Ymd d)) /\ wf d /\
                      1000 <= year d <= 9999 /\
                      toordinal d = toordinal today + n).
  { intros x n N (d & E & Wd & O). exists d.
    split; [exact E|]. split; [exact Wd|]. split; [|exact O].
    apply (later_year_has_four_digits today d W Wd Y). lia. }
  split; [intros T R|intros T; split; [intros D|intros D; split;
    [intros K R|intros K; split; [intros M R|intros M; split]]]];
    rewrite ?T, ?D, ?K, ?M.
  - apply Sh; [lia|]. apply (after_days today 1 W); lia.
  - reflexivity.
  - apply Sh; [lia|]. apply (after_weeks today 1 W); lia.
  - apply Sh; [lia|]. apply (after_days today 30 W); lia.
  - intros amount u S I. rewrite S.
    split.
    { destruct (search_in_span_digits _ _ _ S) as (ds & A & L).
      exists ds. split; trivial. exact (readable_amount _ _ I L). }
    pose proof (search_in_span_nonneg ml amount u S) as A.
    destruct u; cbn [span_days]; split.
    + intros R. apply Sh; [lia|]. now apply (after_days today amount W A).
    + apply (after_days today amount W A).
    + intros R. apply Sh; [lia|]. now apply (after_weeks today amount W A).
    + apply (after_weeks today amount W A).
    + intros R. apply Sh; [lia|].
      apply (after_days today (amount * 30) W); lia.
    + apply (after_days today (amount * 30) W). lia.
  - intros S s E. rewrite S in E. apply Return_inj in E.
    now apply (first_full_date_written message s date_prefixes).
Qed.

Lemma wrapper_date_rules_witness :
  exists d,
    _extract_date monday_morning (lit "Please send it in 2 weeks")
    = Return (Some (strftime_Ymd d)) /\
    wf d /\ 1000 <= year d <= 9999 /\
    toordinal d = toordinal monday_morning + 14.
Proof.
  assert (W : wf monday_morning)
    by (split; [reflexivity|vm_compute; intuition discriminate]).
  assert (Y : 1000 <= year monday_morning) by (vm_compute; discriminate).
  destruct (wrapper_date_rules monday_morning
              (lit "Please send it in 2 weeks") W Y) as (_ & H).
  destruct (H eq_refl) as (_ & H1).
  destruct (H1 eq_refl) as (_ & H2).
  destruct (H2 eq_refl) as (_ & H3).
  destruct (H3 eq_refl) as (H4 & _).
  destruct (H4 2 Weeks eq_refl eq_refl) as (_ & H5 & _).
  apply H5. vm_compute. discriminate.
Defined.

(** ** The analysis that the wrapper returns *)

Lemma lookup_dict_set_same (k : str) (v : value) (d : dict) :
  lookup k (dict_set k v d) = Some v.
Proof.
  assert (R : str_eqb k k = true) by now apply str_eqb_true.
  induction d as [|[k' v'] r IH]; simpl.
  - now rewrite R.
  - destruct (str_eqb k k') eqn:Q; simpl.
    + now rewrite R.
    + now rewrite Q.
Qed.

Lemma lookup_dict_set_other (k k' : str) (v : value) (d : dict) :
  k' <> k -> lookup k' (dict_set k v d) = lookup k' d.
Proof.
  intros N.
  assert (F : str_eqb k' k = false).
  { destruct (str_eqb k' k) eqn:Q; trivial. apply str_eqb_true in Q.
    contradiction. }
  induction d as [|[k0 v0] r IH]; simpl.
  - now rewrite F.
  - destruct (str_eqb k k0) eqn:Q; simpl.
    + apply str_eqb_true in Q. subst k0. now rewrite F.
    + now rewrite IH.
Qed.

(** A date found by [_extract_date] is never the empty text. *)
Lemma extract_date_nonempty (today : datetime) (message s : str) :
  _extract_date today message = Return (Some s) -> nonempty s = true.
Proof.
  assert (A : forall r : result datetime,
             (d <- r ;; Return (Some (strftime_Ymd d))) = Return (Some s) ->
             nonempty s = true).
  { intros [d|e]; cbn [bind]; [|discriminate].
    intros E. apply Return_inj in E. inversion E. reflexivity. }
  assert (B : forall r : result timedelta,
             (delta <- r ;; d <- add today delta ;;
              Return (Some (strftime_Ymd d))) = Return (Some s) ->
             nonempty s = true).
  { intros [delta|e]; cbn [bind]; [|discriminate]. apply A. }
  unfold _extract_date. cbv zeta.
  destruct (contains (lit "tomorrow") _); [apply A|].
  destruct (contains (lit "today") _).
  { intros E. apply Return_inj in E. inversion E. reflexivity. }
  destruct (contains (lit "next week") _); [apply B|].
  destruct (contains (lit "next month") _); [apply A|].
  destruct (search_in_span _) as [[amount [ | | ]]|]; try apply A; try apply B.
  intros E. apply Return_inj in E.
  now destruct (first_full_date_written message s date_prefixes E).
Qed.

Section Local.

Variable list_of_set : list str -> list str.
Variable float_of_str : str -> option PyFloat.float.
Variable repr : value -> str.
Variable json_loads : str -> result value.
Variable llm : str -> result str.
Variable openai : str -> result str.

Lemma convert_own (sender channel : str) (b : bool) (t ds p c : value) :
  own_result (convert sender channel b t ds p c).
Proof.
  destruct b; unfold convert; eexists; eexists;
    (split; [reflexivity|]); (split; [reflexivity|]);
    (split; [reflexivity|]); split; try discriminate.
  - intros _. eexists. reflexivity.
  - reflexivity.
Qed.

Lemma error_result_own (e : exn) : own_result (error_result e).
Proof.
  unfold error_result. eexists; eexists.
  (split; [reflexivity|]); (split; [reflexivity|]);
    (split; [reflexivity|]); split; [discriminate|reflexivity].
Qed.

(** With a local strategy, [_ai_analyze] returns a dictionary that says
    whether there is a task, and has no due date. *)
Lemma ai_analyze_local_dict (self : Strategy) (today : datetime)
    (message sender channel : str) :
  use_openai self = false ->
  own_result
    (_ai_analyze list_of_set float_of_str repr json_loads llm openai
       self today message sender channel).
Proof.
  intros U. unfold _ai_analyze. rewrite U.
  destruct (use_llama self) as [[|]|].
  - unfold convert_llama. destruct (Llama.task_details _); apply convert_own.
  - destruct (Simple.analyze_message list_of_set today message) as [r|e].
    + unfold convert_simple.
      destruct (Simple.task_details r); apply convert_own.
    + apply error_result_own.
  - destruct (Simple.analyze_message list_of_set today message) as [r|e].
    + unfold convert_simple.
      destruct (Simple.task_details r); apply convert_own.
    + apply error_result_own.
Qed.

End Local.

(** X11. What the wrapper hands to its caller when no OpenAI key is
    configured.  A returned analysis is a dictionary with a boolean
    [contains_task]; it lists exactly one task when [contains_task] is
    true and has no [tasks] entry otherwise; a confidence in it is a float
    between 0 and 1; and it carries under [due_date] the date that
    [_extract_date] finds in the message, and no [due_date] when there is
    none.  The call raises only when the date arithmetic of
    [_extract_date] does, after the keyword gate has passed. *)
Theorem local_analysis_shape
    (list_of_set : list str -> list str)
    (float_of_str : str -> option PyFloat.float)
    (repr : value -> str) (json_loads : str -> result value)
    (llm openai : str -> result str)
    (self : Strategy) (today : datetime) (message sender channel : str) :
  use_openai self = false ->
  let outcome :=
    analyze_message list_of_set float_of_str repr json_loads llm openai
      self today message sender channel in
  (forall a, outcome = Return a ->
     exists d b,
       a = VDict d /\
       lookup (lit "contains_task") d = Some (VBool b) /\
       (b = true -> exists t, lookup (lit "tasks") d = Some (VList [t])) /\
       (b = false -> lookup (lit "tasks") d = None) /\
       (forall v, lookup (lit "confidence") d = Some v ->
          exists c, v = VFloat c /\ PyFloat.in_unit c = true) /\
       (_might_contain_task message = true ->
        forall s, _extract_date today message = Return (Some s) ->
          lookup (lit "due_date") d = Some (VStr s)) /\
       (_extract_date today message = Return None ->
        lookup (lit "due_date") d = None)) /\
  (forall e, outcome = Raise e ->
     _might_contain_task message = true /\
     _extract_date today message = Raise e).
Proof.
  intros U outcome. subst outcome. unfold analyze_message.
  destruct (_might_contain_task message) eqn:G; cbn [negb].
  - destruct (ai_analyze_local_dict list_of_set float_of_str repr json_loads
                llm openai self today message sender channel U)
      as (d & b & A & CT & DD & T1 & T2).
    pose proof (fun v =>
                  ai_analyze_local_confidence list_of_set float_of_str repr
                    json_loads llm openai self today message sender channel
                    v U) as CF.
    rewrite A in *. cbn [confidence_of] in CF.
    destruct (_extract_date today message) as [[s|]|e] eqn:X; cbn [bind].
    + rewrite (extract_date_nonempty today message s X).
      cbn [set_due_date]. split; [|discriminate].
      intros a E. apply Return_inj in E. subst a.
      exists (dict_set (lit "due_date") (VStr s) d), b.
      split; [reflexivity|].
      rewrite !lookup_dict_set_other by (intros Q; discriminate Q).
      rewrite lookup_dict_set_same.
      repeat split; trivial.
      * intros _ s' E. apply Return_inj in E. now inversion E.
      * discriminate.
    + split; [|discriminate].
      intros a E. apply Return_inj in E. subst a.
      exists d, b. repeat split; trivial. intros _ s E. discriminate E.
    + split; [discriminate|].
      intros e' E. inversion E. split; reflexivity.
  - split; [|discriminate].
    intros a E. apply Return_inj in E. subst a.
    exists [ (lit "contains_task", VBool false) ], false.
    split; [reflexivity|]. split; [reflexivity|].
    split; [discriminate|]. split; [reflexivity|].
    split; [discriminate|]. split; [discriminate|reflexivity].
Qed.

Lemma local_analysis_shape_witness :
  exists d,
    analyze_message set_order no_number repr_small demo_json_loads
      unreachable unreachable (init local_config (Return tt))
      monday_morning (lit "Please send the report by 3/15/2024")
      (lit "U1") (lit "general") = Return (VDict d) /\
    lookup (lit "due_date") d = Some (VStr (lit "3/15/2024")).
Proof.
  destruct (local_analysis_shape set_order no_number repr_small
              demo_json_loads unreachable unreachable
              (init local_config (Return tt)) monday_morning
              (lit "Please send the report by 3/15/2024")
              (lit "U1") (lit "general") eq_refl) as (H & _).
  destruct (analyze_message _ _ _ _ _ _ _ _ _ _ _) as [a|e] eqn:E.
  - destruct (H a eq_refl) as (d & b & -> & _ & _ & _ & _ & D & _).
    exists d. split; [reflexivity|]. apply D; vm_compute; reflexivity.
  - exfalso. revert E. vm_compute. discriminate.
Defined.

End WrapperExtras.

(* ================================================================== *)
(** * Further properties of the task backends *)

Module BackendExtras.
Import PyStr Exn PyDate PyVal Config PyStrFacts ExnFacts.
Import TaskManager TaskOrchestrator OrchestratorFacts DueDateRange Examples.
Local Open Scope Z_scope.

(** ** The request of the list manager *)

Lemma todoist_create_task_unfold (World : Type)
    (post : str -> list (str * str) -> value -> World
            -> result Response * World)
    (api_key : str) (task : value) (w : World) :
  todoist_create_task post api_key task w =
  match todoist_task task with
  | Raise e => (Raise e, w)
  | Return body =>
      after_post (lit "Failed to create Todoist task: ")
        (post (lit "https://api.todoist.com/rest/v2/tasks")
           (headers_of api_key) body w)
  end.
Proof. reflexivity. Qed.

Lemma eq_str_true (x : value) (s : str) : eq_str x s = true <-> x = VStr s.
Proof.
  destruct x; simpl; try (split; [discriminate|intros E; discriminate E]).
  rewrite str_eqb_true. split; [now intros ->|intros E; now inversion E].
Qed.

Lemma eq_str_false (x : value) (s : str) : x <> VStr s -> eq_str x s = false.
Proof.
  intros N. destruct (eq_str x s) eqn:E; trivial.
  apply eq_str_true in E. contradiction.
Qed.

(** The priority number that is sent for a priority that can be hashed. *)
Lemma todoist_priority_hashable (p : value) :
  unhashable p = false ->
  exists n, todoist_priority p = Return (VInt n) /\ 1 <= n <= 4 /\
    (p = VStr (lit "low") -> n = 1) /\
    (p = VStr (lit "medium") -> n = 2) /\
    (p = VStr (lit "high") -> n = 3) /\
    (p = VStr (lit "urgent") -> n = 4) /\
    (p <> VStr (lit "low") -> p <> VStr (lit "high") ->
     p <> VStr (lit "urgent") -> n = 2).
Proof.
  assert (T : exists n,
             VInt (if eq_str p (lit "low") then 1
                   else if eq_str p (lit "medium") then 2
                   else if eq_str p (lit "high") then 3
                   else if eq_str p (lit "urgent") then 4
                   else 2) = VInt n /\ 1 <= n <= 4 /\
             (p = VStr (lit "low") -> n = 1) /\
             (p = VStr (lit "medium") -> n = 2) /\
             (p = VStr (lit "high") -> n = 3) /\
             (p = VStr (lit "urgent") -> n = 4) /\
             (p <> VStr (lit "low") -> p <> VStr (lit "high") ->
              p <> VStr (lit "urgent") -> n = 2)).
  { eexists. split; [reflexivity|].
    split; [repeat destruct (eq_str p _); lia|].
    repeat split.
    - intros ->. reflexivity.
    - intros ->. reflexivity.
    - intros ->. reflexivity.
    - intros ->. reflexivity.
    - intros L H U.
      rewrite (eq_str_false _ _ L), (eq_str_false _ _ H),
        (eq_str_false _ _ U).
      now destruct (eq_str p (lit "medium")). }
  destruct T as (n & E & R). intros U. exists n. split; [|exact R].
  destruct p; cbn [unhashable] in U; try discriminate U;
    cbn [todoist_priority]; now rewrite E.
Qed.

(** A priority that cannot be hashed raises. *)
Lemma todoist_priority_unhashable (p : value) :
  unhashable p = true ->
  exists e, todoist_priority p = Raise e /\ cls e = TypeError.
Proof.
  destruct p; cbn [unhashable]; intros U; try discriminate U;
    cbn [todoist_priority]; eexists; split; reflexivity.
Qed.

(** X14. What [TodoistManager.create_task] sends.  A task that is not a
    dictionary raises AttributeError, and a dictionary whose priority
    cannot be hashed (a list or a dictionary) raises TypeError, in both
    cases before any request is made.  Every other task gives a request
    body, which carries the title as [content] (the empty text when the
    task has none), the description, the due date as [due_string]
    ("today" when the task has none), and a priority number between 1 and
    4: 1 for "low", 3 for "high", 4 for "urgent", and 2 for "medium", for
    a missing priority and for every other value. *)
Theorem todoist_request_body (task : value) :
  ((forall d, task <> VDict d) ->
   exists e, todoist_task task = Raise e /\ cls e = AttributeError) /\
  (forall d, task = VDict d ->
   let p := dict_get (lit "priority") (VStr (lit "medium")) d in
   (unhashable p = true ->
    exists e, todoist_task task = Raise e /\ cls e = TypeError) /\
   (unhashable p = false ->
    exists n,
      todoist_task task
      = Return (VDict
          [ (lit "content", dict_get (lit "title") (VStr []) d);
            (lit "description", dict_get (lit "description") (VStr []) d);
            (lit "priority", VInt n);
            (lit "due_string",
             dict_get (lit "due_date") (VStr (lit "today")) d) ]) /\
      1 <= n <= 4 /\
      (p = VStr (lit "low") -> n = 1) /\
      (p = VStr (lit "medium") -> n = 2) /\
      (p = VStr (lit "high") -> n = 3) /\
      (p = VStr (lit "urgent") -> n = 4) /\
      (p <> VStr (lit "low") -> p <> VStr (lit "high") ->
       p <> VStr (lit "urgent") -> n = 2))) /\
  (forall World
          (post : str -> list (str * str) -> value -> World
                  -> result Response * World) api_key w e,
     todoist_task task = Raise e ->
     todoist_create_task post api_key task w = (Raise e, w)) /\
  todoist_task (VDict []) =
    Return (VDict [ (lit "content", VStr []);
                    (lit "description", VStr []);
                    (lit "priority", VInt 2);
                    (lit "due_string", VStr (lit "today")) ]).
Proof.
  split; [|split; [|split]].
  - intros N. unfold todoist_task.
    destruct task as [ | | | | | |d]; cbn [get bind];
      try (eexists; split; reflexivity).
    now elim (N d).
  - intros d ->. cbv zeta. unfold todoist_task. cbn [get bind]. split.
    + intros U. destruct (todoist_priority_unhashable _ U) as (e & E & C).
      exists e. rewrite E. split; [reflexivity|exact C].
    + intros U. destruct (todoist_priority_hashable _ U) as (n & E & R).
      exists n. rewrite E. split; [reflexivity|exact R].
  - intros World post api_key w e E.
    rewrite todoist_create_task_unfold. now rewrite E.
  - reflexivity.
Qed.

Lemma todoist_request_body_witness :
  todoist_task demo_task =
    Return (VDict [ (lit "content", VStr (lit "Write report"));
                    (lit "description", VStr []);
                    (lit "priority", VInt 3);
                    (lit "due_string", VStr (lit "today")) ]).
Proof.
  destruct (todoist_request_body demo_task) as (_ & H & _).
  destruct (H _ eq_refl) as (_ & H1).
  destruct (H1 eq_refl) as (n & E & _ & _ & _ & H3 & _).
  rewrite E, (H3 eq_refl). reflexivity.
Defined.

(** ** From the configuration to the outcome *)

(** X13. The orchestrator as it is started from the configuration.
    Without a Todoist key, [create_task] returns the empty list and makes
    no request, whether a Notion key is configured or not.  With a
    Todoist key it returns exactly one outcome, named "TodoistManager":
    when the request body cannot be built, the outcome reports the
    exception and no request is made; otherwise exactly one request is
    posted to the tasks URL with the bearer token of the configuration,
    and the outcome is a success with the decoded reply when the status
    is 200, and otherwise a failure whose error is "Failed to create
    Todoist task: " followed by the text of the response, or the message
    of the exception that the request or the decoding raised. *)
Theorem todoist_end_to_end
    (World : Type)
    (post : str -> list (str * str) -> value -> World
            -> result Response * World)
    (config : Config) (task : value) (w : World) :
  let key := todoist_api_key config in
  let outcome := create_task (init post config) task w in
  let failed (m : str) :=
    mk_outcome (lit "TodoistManager") false None (Some m) in
  (nonempty key = false -> outcome = ([], w)) /\
  (nonempty key = true ->
   (forall e, todoist_task task = Raise e ->
      outcome = ([failed (msg e)], w)) /\
   (forall body, todoist_task task = Return body ->
      let sent :=
        post (lit "https://api.todoist.com/rest/v2/tasks") (headers_of key)
          body w in
      snd outcome = snd sent /\
      fst outcome =
        [ match fst sent with
          | Return response =>
              if status_code response =? 200 then
                match json response with
                | Return v =>
                    mk_outcome (lit "TodoistManager") true (Some v) None
                | Raise e => failed (msg e)
                end
              else failed (lit "Failed to create Todoist task: "
                           ++ text response)
          | Raise e => failed (msg e)
          end ])).
Proof.
  intros key outcome failed. subst outcome. unfold init. fold key.
  destruct (nonempty key) eqn:K.
  - split; [discriminate|]. intros _.
    assert (M : (if nonempty (notion_api_key config)
                 then [] ++ [TodoistManager post config]
                 else [] ++ [TodoistManager post config])
                = [TodoistManager post config])
      by now destruct (nonempty (notion_api_key config)).
    cbv zeta. rewrite M. clear M.
    unfold create_task. cbn [create_task_loop]. unfold attempt.
    cbn [TodoistManager TaskManager.create_task class_name].
    fold key. rewrite todoist_create_task_unfold.
    set (todoist_url := lit "https://api.todoist.com/rest/v2/tasks").
    split.
    + intros e E. rewrite E. reflexivity.
    + intros body E. rewrite E. cbv zeta.
      destruct (post todoist_url (headers_of key) body w) as [[r|e] w'];
        cbn [after_post fst snd].
      * destruct (status_code r =? 200).
        -- destruct (json r); split; reflexivity.
        -- split; reflexivity.
      * split; reflexivity.
  - split; [|discriminate]. intros _. cbv zeta.
    now destruct (nonempty (notion_api_key config)).
Qed.

Lemma todoist_end_to_end_witness :
  create_task (init demo_post demo_config) (VInt 7) 0%nat
  = ([ mk_outcome (lit "TodoistManager") false None
         (Some (msg no_attribute)) ], 0%nat).
Proof.
  destruct (todoist_end_to_end nat demo_post demo_config (VInt 7) 0%nat)
    as (_ & H).
  destruct (H eq_refl) as (H1 & _).
  exact (H1 no_attribute eq_refl).
Defined.


(** ** The page of the page database *)

Lemma notion_create_task_unfold (World : Type)
    (post : str -> list (str * str) -> value -> World
            -> result Response * World)
    (repr : value -> str) (capitalize : str -> str)
    (api_key : str) (database_id : value) (today : datetime)
    (task : value) (w : World) :
  notion_create_task post repr capitalize api_key database_id today task w =
  match notion_page repr capitalize database_id today task with
  | Raise e => (Raise e, w)
  | Return page =>
      after_post (lit "Failed to create Notion task: ")
        (post (lit "https://api.notion.com/v1/pages")
           (headers_of api_key ++ [ (lit "Notion-Version", lit "2022-06-28") ])
           page w)
  end.
Proof. reflexivity. Qed.

(** X15. What [NotionManager.create_task] sends, for a well-formed clock
    of the year 1000 or later.  Building the page raises AttributeError,
    before any request is made, exactly for a task that is not a
    dictionary and for a priority that is not a string (None, a number, a
    list).  Every page that is sent belongs to the
    configured database, has Status "To Do" and Source "Slack", the
    capitalised priority ("medium" capitalised when the task has none),
    the title of the task, and the due date of the task; a task without
    a due date is due on the current day, written as YYYY-MM-DD.  The
    page goes in one request to the pages URL, with the version header
    after the bearer token. *)
Theorem notion_page_invariants
    (repr : value -> str) (capitalize : str -> str)
    (database_id : value) (today : datetime) (task : value) :
  wf today -> 1000 <= year today ->
  let built := notion_page repr capitalize database_id today task in
  (forall e, built = Raise e ->
     cls e = AttributeError /\
     ((forall d, task <> VDict d) \/
      (exists d, task = VDict d /\
         forall s,
           dict_get (lit "priority") (VStr (lit "medium")) d <> VStr s))) /\
  (forall page, built = Return page ->
     exists d p,
       task = VDict d /\
       dict_get (lit "priority") (VStr (lit "medium")) d = VStr p /\
       (lookup (lit "priority") d = None -> p = lit "medium") /\
       at_path [lit "parent"; lit "database_id"] page = Some database_id /\
       at_path [lit "properties"; lit "Status"] page
         = Some (select_name (VStr (lit "To Do"))) /\
       at_path [lit "properties"; lit "Source"] page
         = Some (select_name (VStr (lit "Slack"))) /\
       at_path [lit "properties"; lit "Priority"] page
         = Some (select_name (VStr (capitalize p))) /\
       at_path [lit "properties"; lit "Title"; lit "title"] page
         = Some (text_content (dict_get (lit "title") (VStr []) d)) /\
       at_path [lit "properties"; lit "Due Date"; lit "date"; lit "start"]
         page
         = Some (dict_get (lit "due_date") (VStr (strftime_Ymd today)) d) /\
       (lookup (lit "due_date") d = None ->
        exists s,
          at_path [lit "properties"; lit "Due Date"; lit "date"; lit "start"]
            page = Some (VStr s) /\
          is_ymd_text s = true)) /\
  (forall (World : Type)
          (post : str -> list (str * str) -> value -> World
                  -> result Response * World) api_key (w : World),
     notion_create_task post repr capitalize api_key database_id today task w
     = match built with
       | Raise e => (Raise e, w)
       | Return page =>
           after_post (lit "Failed to create Notion task: ")
             (post (lit "https://api.notion.com/v1/pages")
                [ (lit "Authorization", lit "Bearer " ++ api_key);
                  (lit "Content-Type", lit "application/json");
                  (lit "Notion-Version", lit "2022-06-28") ]
                page w)
       end).
Proof.
  intros W Y built. subst built. split; [|split].
  - intros e. unfold notion_page.
    destruct task as [ | | | | | |d]; cbn [get bind];
      try (intros E; inversion E; split;
           [reflexivity|left; intros d Q; discriminate Q]).
    destruct (dict_get (lit "priority") (VStr (lit "medium")) d) eqn:P;
      cbn [capitalize_value bind]; intros E; try discriminate E;
      inversion E; (split; [reflexivity|]); right; exists d;
      (split; [reflexivity|]); rewrite P; intros s Q; discriminate Q.
  - intros page. unfold notion_page.
    destruct task as [ | | | | | |d]; cbn [get bind]; try discriminate.
    destruct (dict_get (lit "priority") (VStr (lit "medium")) d)
      as [ | | | |p| | ] eqn:P;
      cbn [capitalize_value bind]; try discriminate.
    intros E. apply Return_inj in E. subst page.
    exists d, p. split; [reflexivity|]. split; [exact P|].
    split.
    { intros L. unfold dict_get in P. rewrite L in P. now inversion P. }
    do 6 (split; [reflexivity|]).
    intros L. exists (strftime_Ymd today). split.
    + unfold dict_get. rewrite L. reflexivity.
    + apply strftime_Ymd_shape.
  - intros World post api_key w. apply notion_create_task_unfold.
Qed.

Lemma notion_page_invariants_witness :
  exists page,
    notion_page repr_small capitalize_ascii (VStr (lit "db")) monday_morning
      demo_task = Return page /\
    at_path [lit "properties"; lit "Priority"] page
      = Some (select_name (VStr (lit "High"))) /\
    at_path [lit "properties"; lit "Due Date"; lit "date"; lit "start"] page
      = Some (VStr (lit "2024-03-11")).
Proof.
  assert (W : wf monday_morning)
    by (split; [reflexivity|vm_compute; intuition discriminate]).
  assert (Y : 1000 <= year monday_morning) by (vm_compute; discriminate).
  destruct (notion_page_invariants repr_small capitalize_ascii
              (VStr (lit "db")) monday_morning demo_task W Y) as (_ & H & _).
  destruct (notion_page repr_small capitalize_ascii (VStr (lit "db"))
              monday_morning demo_task) as [page|e] eqn:E.
  - destruct (H page eq_refl)
      as (d & p & T & P & _ & _ & _ & _ & HP & _ & HD & _).
    unfold demo_task in T. inversion T. subst d.
    vm_compute in P. inversion P. subst p.
    exists page. split; [reflexivity|]. split; [exact HP|exact HD].
  - exfalso. revert E. vm_compute. discriminate.
Defined.

End BackendExtras.

(* ================================================================== *)
(** * The history of mentions *)

Module MentionExtras.
Import PyStr Re Exn PyDate PyVal PyStrFacts ExnFacts.
Import MentionTracker WrapperExtras Examples.

(** ** The store of histories *)

Lemma str_eqb_refl (a : str) : str_eqb a a = true.
Proof. now apply str_eqb_true. Qed.

Lemma str_eqb_neq (a b : str) : a <> b -> str_eqb a b = false.
Proof.
  intros N. destruct (str_eqb a b) eqn:Q; trivial.
  apply str_eqb_true in Q. contradiction.
Qed.

Lemma history_set_same (u : str) (l : list Mention) (um : Store) :
  history u (set_history u l um) = l.
Proof.
  induction um as [|[k l'] r IH]; simpl.
  - now rewrite str_eqb_refl.
  - destruct (str_eqb u k) eqn:Q; simpl.
    + now rewrite str_eqb_refl.
    + now rewrite Q.
Qed.

Lemma history_set_other (u u' : str) (l : list Mention) (um : Store) :
  u' <> u -> history u' (set_history u l um) = history u' um.
Proof.
  intros N. pose proof (str_eqb_neq u' u N) as F.
  induction um as [|[k l'] r IH]; simpl.
  - now rewrite F.
  - destruct (str_eqb u k) eqn:Q; simpl.
    + apply str_eqb_true in Q. subst k. now rewrite F.
    + now rewrite IH.
Qed.

(** ** The window of the last 100 entries *)

Lemma keep_last_100_skipn (l : list Mention) :
  keep_last_100 l = skipn (List.length l - 100) l.
Proof.
  unfold keep_last_100. destruct (Nat.ltb 100 (List.length l)) eqn:Q; trivial.
  apply Nat.ltb_ge in Q.
  replace (List.length l - 100)%nat with 0%nat by lia. reflexivity.
Qed.

Lemma keep_last_100_length (l : list Mention) :
  (List.length (keep_last_100 l) <= 100)%nat.
Proof. rewrite keep_last_100_skipn, length_skipn. lia. Qed.

Lemma keep_last_100_short (l : list Mention) :
  (List.length l <= 100)%nat -> keep_last_100 l = l.
Proof.
  intros H. unfold keep_last_100.
  now replace (Nat.ltb 100 (List.length l)) with false
    by (symmetry; apply Nat.ltb_ge; lia).
Qed.

(** Cutting after every entry keeps what cutting once at the end keeps. *)
Lemma keep_last_100_app (l n : list Mention) :
  keep_last_100 (keep_last_100 l ++ n) = keep_last_100 (l ++ n).
Proof.
  destruct (Nat.le_gt_cases (List.length l) 100) as [S|L].
  - now rewrite (keep_last_100_short l S).
  - rewrite !keep_last_100_skipn, !length_app, length_skipn, !skipn_app,
      length_skipn, skipn_skipn.
    replace (List.length l - (List.length l - 100) + List.length n - 100
             + (List.length l - 100))%nat
      with (List.length l + List.length n - 100)%nat by lia.
    replace (List.length l - (List.length l - 100) + List.length n - 100
             - (List.length l - (List.length l - 100)))%nat
      with (List.length l + List.length n - 100 - List.length l)%nat by lia.
    reflexivity.
Qed.

Lemma appended_app (old n1 n2 : list Mention) :
  appended (appended old n1) n2 = appended old (n1 ++ n2).
Proof.
  destruct n2 as [|m2 n2]; [now rewrite app_nil_r|].
  destruct n1 as [|m1 n1]; [reflexivity|].
  cbn [appended app]. change (m1 :: n1 ++ m2 :: n2)
    with ((m1 :: n1) ++ m2 :: n2).
  now rewrite keep_last_100_app, <- app_assoc.
Qed.

Lemma appended_length (old new : list Mention) :
  (List.length old <= 100)%nat -> (List.length (appended old new) <= 100)%nat.
Proof.
  intros H. destruct new; simpl; trivial. apply keep_last_100_length.
Qed.

(** ** The mentions that are found in a text *)

Lemma span_id_split (s : str) :
  s = fst (span_id s) ++ snd (span_id s) /\
  forallb is_id_char (fst (span_id s)) = true.
Proof.
  induction s as [|c r [IH1 IH2]]; simpl; [now split|].
  destruct (is_id_char c) eqn:D; [|now split].
  destruct (span_id r) as [d t]. simpl in *. rewrite D, IH2.
  split; [now rewrite <- IH1|reflexivity].
Qed.

Lemma mention_at_sound (s u : str) :
  mention_at s = Some u ->
  u <> [] /\ forallb is_id_char u = true /\
  exists t, s = (lit "<@" ++ u ++ lit ">") ++ t.
Proof.
  unfold mention_at.
  destruct (strip_prefix (lit "<@") s) as [r|] eqn:P; [|discriminate].
  apply strip_prefix_eq in P.
  destruct (span_id_split r) as [S D].
  destruct (span_id r) as [[|d ds] [|c t]]; try discriminate.
  destruct (eqc c ">"%char) eqn:Q; [|discriminate].
  apply eqc_true in Q. subst c.
  intros E. inversion E; subst u. cbn [fst snd] in *.
  split; [discriminate|]. split; trivial.
  exists t. rewrite P, S. simpl. do 3 f_equal.
  now rewrite <- app_assoc.
Qed.

(** A mention that is found stands in the text, between "<@" and ">". *)
Lemma findall_from_sound (u : str) : forall s skip,
  In u (findall_from skip s) ->
  u <> [] /\ forallb is_id_char u = true /\
  contains (lit "<@" ++ u ++ lit ">") s = true.
Proof.
  induction s as [|c r IH]; intros skip; cbn [findall_from]; [intros []|].
  assert (L : forall k, In u (findall_from k r) ->
              u <> [] /\ forallb is_id_char u = true /\
              contains (lit "<@" ++ u ++ lit ">") (c :: r) = true).
  { intros k I. destruct (IH k I) as (A & B & C).
    repeat split; trivial. now apply contains_later. }
  destruct skip as [|k]; [|apply L].
  destruct (mention_at (c :: r)) as [u0|] eqn:M; [|apply L].
  intros [<-|I]; [|now apply (L _ I)].
  destruct (mention_at_sound _ _ M) as (A & B & t & ->).
  repeat split; trivial. apply contains_at_start.
Qed.

(** ** One round of the loop, and the loop *)

Section Client.

Variable World : Type.
Variable conversations_info : value -> World -> result value * World.
Variable users_info : value -> World -> result value * World.
Variable chat_getPermalink : value -> value -> World -> result value * World.
Variable now : World -> datetime.
Variable list_of_set : list str -> list str.

Lemma track_returns (tracked : list str) (text : str)
    (channel sender ts : value) (u : str) (um um' : Store) (w w' : World) :
  track conversations_info users_info chat_getPermalink now list_of_set
    tracked text channel sender ts u um w = (Return um', w') ->
  if mem u tracked
  then exists m, records text ts u m /\
         um' = set_history u (keep_last_100 (history u um ++ [m])) um
  else um' = um.
Proof.
  unfold track. destruct (mem u tracked); [|intros E; now inversion E].
  destruct (conversations_info channel w) as [ci w1].
  destruct (users_info sender w1) as [si w2].
  destruct (SimpleMessageAnalyzer.analyze_message _ _ _) as [a|e];
    [|intros E; inversion E].
  destruct (chat_getPermalink channel ts w2) as [pr w3].
  intros E. inversion E. eexists. split; [|reflexivity].
  repeat split.
Qed.

(** The histories after the loop, user by user. *)
Lemma track_all_histories (tracked : list str) (text : str)
    (channel sender ts : value) (u : str) : forall mentions um w,
  exists new,
    history u (snd (fst (track_all conversations_info users_info chat_getPermalink now
                           list_of_set tracked text channel sender ts
                           mentions um w)))
    = appended (history u um) new /\
    (forall m, In m new -> records text ts u m) /\
    (new <> [] -> mem u tracked = true /\ In u mentions) /\
    (fst (fst (track_all conversations_info users_info chat_getPermalink now
                           list_of_set tracked text channel sender ts mentions um w))
     = Return tt ->
     List.length new =
       if mem u tracked then List.length (filter (str_eqb u) mentions)
       else 0%nat).
Proof.
  induction mentions as [|v rest IH]; intros um w; cbn [track_all].
  - exists []. cbn [fst snd appended]. split; [reflexivity|].
    split; [intros m []|]. split; [intros N; now elim N|].
    intros _. now destruct (mem u tracked).
  - destruct (track conversations_info users_info chat_getPermalink now list_of_set
    tracked text channel sender ts v um w)
      as [[um1|e] w1] eqn:T.
    + apply track_returns in T.
      destruct (IH um1 w1) as (new & H & R & N & C).
      destruct (mem v tracked) eqn:Mv.
      * destruct T as (m & Rm & ->).
        destruct (str_eqb u v) eqn:Q.
        -- apply str_eqb_true in Q. subst v.
           exists (m :: new). rewrite H, history_set_same.
           split.
           { change (keep_last_100 (history u um ++ [m]))
               with (appended (history u um) [m]).
             now rewrite appended_app. }
           split.
           { intros m' [<-|I]; [exact Rm|now apply R]. }
           split.
           { intros _. split; [exact Mv|now left]. }
           intros Ret. specialize (C Ret). rewrite Mv in *.
           cbn [filter]. rewrite str_eqb_refl. cbn [List.length]. lia.
        -- assert (Nuv : u <> v)
             by (intros ->; rewrite str_eqb_refl in Q; discriminate).
           exists new. rewrite H, history_set_other by exact Nuv.
           split; [reflexivity|]. split; [exact R|].
           split.
           { intros Nn. destruct (N Nn). split; trivial. now right. }
           intros Ret. specialize (C Ret). cbn [filter]. now rewrite Q.
      * subst um1. exists new. split; [exact H|]. split; [exact R|].
        split.
        { intros Nn. destruct (N Nn). split; trivial. now right. }
        intros Ret. specialize (C Ret).
        destruct (str_eqb u v) eqn:Q.
        -- apply str_eqb_true in Q. subst v. rewrite Mv in *. exact C.
        -- cbn [filter]. now rewrite Q.
    + exists []. cbn [fst snd appended]. split; [reflexivity|].
      split; [intros m []|]. split; [intros N; now elim N|].
      discriminate.
Qed.

End Client.

(** X16. The history of mentions is a window of the last 100 entries.
    A bot message and a text that is not a string change nothing.
    Otherwise the tracked users stay as they are and, whether the handler
    returns or raises: histories of at most 100 entries stay so; the
    history of every user is the old one with new entries appended and
    cut to its last 100; each new entry records the text and time stamp
    of the event and the text with the user's own mention replaced; a
    user gets new entries only if tracked and named in the text as
    "<@ID>" with ID a non-empty run of capitals and digits; and when the
    handler returns, a tracked user gets one entry per mention. *)
Theorem mention_history_window
    (World : Type)
    (conversations_info users_info : value -> World -> result value * World)
    (chat_getPermalink : value -> value -> World -> result value * World)
    (now : World -> datetime) (list_of_set : list str -> list str)
    (event : dict) (st : State) (w : World) :
  let out :=
    handle_message conversations_info users_info chat_getPermalink now
      list_of_set event st w in
  let st' := snd (fst out) in
  (truthy (dict_get (lit "bot_id") VNone event) = true ->
   out = (Return tt, st, w)) /\
  ((forall text, dict_get (lit "text") (VStr []) event <> VStr text) ->
   st' = st /\ snd out = w) /\
  tracked_users st' = tracked_users st /\
  ((forall u, List.length (history u (user_mentions st)) <= 100)%nat ->
   forall u, (List.length (history u (user_mentions st')) <= 100)%nat) /\
  (truthy (dict_get (lit "bot_id") VNone event) = false ->
   forall text, dict_get (lit "text") (VStr []) event = VStr text ->
   forall u, exists new,
     history u (user_mentions st')
     = appended (history u (user_mentions st)) new /\
     (forall m, In m new ->
        MentionTracker.text m = text /\
        timestamp m = dict_get (lit "ts") VNone event /\
        clean_text m
        = replace (lit "<@" ++ u ++ lit ">") (lit "@you") text) /\
     (new <> [] ->
      mem u (tracked_users st) = true /\
      u <> [] /\ forallb is_id_char u = true /\
      contains (lit "<@" ++ u ++ lit ">") text = true) /\
     (fst (fst out) = Return tt ->
      List.length new =
        if mem u (tracked_users st)
        then List.length (filter (str_eqb u) (findall_mentions text))
        else 0%nat)).
Proof.
  intros out st'. subst st' out. unfold handle_message.
  destruct (truthy (dict_get (lit "bot_id") VNone event)) eqn:B.
  { cbn [fst snd]. split; [reflexivity|]. split; [now split|].
    split; [reflexivity|]. split; [trivial|discriminate]. }
  split; [discriminate|].
  destruct (dict_get (lit "text") (VStr []) event) as [ | | | |text| | ] eqn:T;
    cbn [fst snd];
    try (split; [now split|]; split; [reflexivity|]; split; [trivial|];
         intros _ text Q; discriminate Q).
  pose proof (fun u =>
                track_all_histories World conversations_info users_info
                  chat_getPermalink now list_of_set (tracked_users st) text
                  (dict_get (lit "channel") VNone event)
                  (dict_get (lit "user") VNone event)
                  (dict_get (lit "ts") VNone event) u
                  (findall_mentions text) (user_mentions st) w) as H.
  destruct (track_all _ _ _ _ _ _ _ _ _ _ _ _ _) as [[r um] w'].
  cbn [fst snd user_mentions tracked_users] in *.
  split; [intros N; now elim (N text)|].
  split; [reflexivity|]. split.
  - intros Bd u. destruct (H u) as (new & -> & _).
    apply appended_length, Bd.
  - intros _ text' Q. inversion Q. subst text'. intros u.
    destruct (H u) as (new & E & R & N & C).
    exists new. split; [exact E|]. split; [exact R|]. split; [|exact C].
    intros Nn. destruct (N Nn) as [M I]. split; [exact M|].
    now apply (findall_from_sound u text 0%nat).
Qed.

Lemma mention_history_window_witness :
  exists m1 m2,
    history (lit "U1")
      (user_mentions
         (snd (fst (handle_message offline offline offline2 frozen_clock
                      set_order mention_event
                      (mk_state [] [lit "U1"]) 0%nat))))
    = [m1; m2].
Proof.
  destruct (mention_history_window nat offline offline offline2 frozen_clock
              set_order mention_event (mk_state [] [lit "U1"]) 0%nat)
    as (_ & _ & _ & _ & H).
  destruct (H eq_refl _ eq_refl (lit "U1")) as (new & E & _ & _ & C).
  assert (L : List.length new = 2%nat) by (apply C; vm_compute; reflexivity).
  destruct new as [|m1 [|m2 [|m3 new]]]; try discriminate L.
  exists m1, m2. rewrite E. reflexivity.
Defined.

End MentionExtras.

(* ================================================================== *)
(** * The preferences of the users *)

Module PreferenceExtras.
Import PyStr Exn PyVal PyStrFacts ExnFacts.
Import SlackBot WrapperExtras MentionExtras Examples.

Lemma prefs_lookup_set_same (u : str) (p : dict) (up : Preferences) :
  prefs_lookup u (prefs_set u p up) = Some p.
Proof.
  induction up as [|[k p'] r IH]; simpl.
  - now rewrite str_eqb_refl.
  - destruct (str_eqb u k) eqn:Q; simpl.
    + now rewrite str_eqb_refl.
    + now rewrite Q.
Qed.

Lemma prefs_lookup_set_other (u u' : str) (p : dict) (up : Preferences) :
  u' <> u -> prefs_lookup u' (prefs_set u p up) = prefs_lookup u' up.
Proof.
  intros N. pose proof (str_eqb_neq u' u N) as F.
  induction up as [|[k p'] r IH]; simpl.
  - now rewrite F.
  - destruct (str_eqb u k) eqn:Q; simpl.
    + apply str_eqb_true in Q. subst k. now rewrite F.
    + now rewrite IH.
Qed.

(** The dictionary read for a user has both keys. *)
Lemma prefs_get_complete (u : str) (up : Preferences) :
  complete up ->
  lookup (lit "auto_analyze") (prefs_get u up) <> None /\
  lookup (lit "notification_level") (prefs_get u up) <> None.
Proof.
  intros C. unfold prefs_get.
  destruct (prefs_lookup u up) as [p|] eqn:L.
  - exact (C u p L).
  - split; discriminate.
Qed.

Lemma complete_set (u : str) (p : dict) (up : Preferences) :
  complete up ->
  lookup (lit "auto_analyze") p <> None ->
  lookup (lit "notification_level") p <> None ->
  complete (prefs_set u p up).
Proof.
  intros C A N v q L.
  destruct (list_eq_dec ascii_dec v u) as [->|D].
  - rewrite prefs_lookup_set_same in L. inversion L. subst q. now split.
  - rewrite prefs_lookup_set_other in L by exact D. exact (C v q L).
Qed.

Lemma key_neq_1 : lit "notification_level" <> lit "auto_analyze".
Proof. discriminate. Qed.

Lemma key_neq_2 : lit "auto_analyze" <> lit "notification_level".
Proof. discriminate. Qed.

(** X17. The preferences of the users.  Starting from preferences that
    the handlers wrote (every stored dictionary has both keys; the empty
    store is such), toggling never raises KeyError, flips what
    [handle_message] reads as auto-analyze for that user, says "enabled"
    or "disabled" accordingly, and leaves the notification level of the
    user and everything about the other users as it was; toggling twice
    restores the setting.  Changing the notification level stores the
    selected value, and leaves the auto-analyze setting of the user and
    the other users as they were.  A user without stored preferences has
    auto-analyze on and level "high", so the first toggle turns
    auto-analyze off. *)
Theorem preference_handlers (repr : value -> str) (user : str)
    (up : Preferences) :
  complete up ->
  (exists up1,
     handle_toggle_auto_analyze user up
     = Return (up1,
               lit "Auto-analyze is now "
               ++ (if auto_analyze_enabled user up
                   then lit "disabled" else lit "enabled") ++ lit ".") /\
     complete up1 /\
     auto_analyze_enabled user up1 = negb (auto_analyze_enabled user up) /\
     notification_level user up1 = notification_level user up /\
     (forall other, other <> user -> prefs_get other up1 = prefs_get other up) /\
     exists up2 said,
       handle_toggle_auto_analyze user up1 = Return (up2, said) /\
       auto_analyze_enabled user up2 = auto_analyze_enabled user up /\
       notification_level user up2 = notification_level user up) /\
  (forall new_level,
     let up1 :=
       fst (handle_change_notification_level repr user new_level up) in
     complete up1 /\
     notification_level user up1 = new_level /\
     auto_analyze_enabled user up1 = auto_analyze_enabled user up /\
     (forall other, other <> user -> prefs_get other up1 = prefs_get other up) /\
     snd (handle_change_notification_level repr user new_level up)
     = lit "Notification level set to " ++ to_str repr new_level ++ lit ".") /\
  (prefs_lookup user up = None ->
   auto_analyze_enabled user up = true /\
   notification_level user up = VStr (lit "high")).
Proof.
  intros C.
  assert (Toggle : forall up0, complete up0 ->
            exists up1,
              handle_toggle_auto_analyze user up0
              = Return (up1,
                        lit "Auto-analyze is now "
                        ++ (if auto_analyze_enabled user up0
                            then lit "disabled" else lit "enabled")
                        ++ lit ".") /\
              complete up1 /\
              auto_analyze_enabled user up1
              = negb (auto_analyze_enabled user up0) /\
              notification_level user up1 = notification_level user up0 /\
              (forall other, other <> user ->
                 prefs_get other up1 = prefs_get other up0)).
  { intros up0 C0.
    destruct (prefs_get_complete user up0 C0) as [A N].
    unfold handle_toggle_auto_analyze, getitem, auto_analyze_enabled,
      notification_level, dict_get.
    cbv zeta.
    destruct (lookup (lit "auto_analyze") (prefs_get user up0)) as [a|] eqn:LA;
      [|now elim A].
    cbn [bind]. rewrite lookup_dict_set_same. cbn [bind truthy].
    exists (prefs_set user
              (dict_set (lit "auto_analyze") (VBool (negb (truthy a)))
                 (prefs_get user up0)) up0).
    split.
    { destruct (truthy a); reflexivity. }
    split.
    { apply complete_set; trivial.
      - rewrite lookup_dict_set_same. discriminate.
      - rewrite lookup_dict_set_other by exact key_neq_1. exact N. }
    unfold prefs_get at 1 3. rewrite !prefs_lookup_set_same.
    rewrite lookup_dict_set_same.
    rewrite lookup_dict_set_other by exact key_neq_1.
    split; [reflexivity|]. split; [reflexivity|].
    intros other D. unfold prefs_get.
    now rewrite prefs_lookup_set_other by exact D. }
  split; [|split].
  - destruct (Toggle up C) as (up1 & E1 & C1 & A1 & N1 & O1).
    exists up1. do 5 (split; trivial).
    destruct (Toggle up1 C1) as (up2 & E2 & C2 & A2 & N2 & O2).
    exists up2. eexists. split; [exact E2|].
    split.
    + rewrite A2, A1. apply negb_involutive.
    + now rewrite N2.
  - intros new_level up1. subst up1.
    destruct (prefs_get_complete user up C) as [A N].
    unfold handle_change_notification_level. cbn [fst snd].
    split.
    { apply complete_set; trivial.
      - rewrite lookup_dict_set_other by exact key_neq_2. exact A.
      - rewrite lookup_dict_set_same. discriminate. }
    unfold auto_analyze_enabled, notification_level, dict_get.
    unfold prefs_get at 1 3. rewrite !prefs_lookup_set_same.
    rewrite lookup_dict_set_same.
    rewrite lookup_dict_set_other by exact key_neq_2.
    split; [reflexivity|]. split; [reflexivity|].
    split; [|reflexivity].
    intros other D. unfold prefs_get.
    now rewrite prefs_lookup_set_other by exact D.
  - intros L. unfold auto_analyze_enabled, notification_level, prefs_get.
    rewrite L. split; reflexivity.
Qed.

Lemma preference_handlers_witness :
  exists up1,
    handle_toggle_auto_analyze (lit "U1") []
    = Return (up1, lit "Auto-analyze is now disabled.") /\
    auto_analyze_enabled (lit "U1") up1 = false.
Proof.
  assert (C : complete []) by (intros u p L; discriminate L).
  destruct (preference_handlers repr_small (lit "U1") [] C)
    as ((up1 & E & _ & A & _) & _).
  exists up1. split; [exact E|exact A].
Defined.

End PreferenceExtras.

(* ================================================================== *)
(** * From the configuration and the analysis to the request *)

Module PipelineExtras.
Import PyStr Exn PyDate PyVal Config PyStrFacts ExnFacts.
Import MessageAnalyzer TaskManager SimpleFacts LlamaFacts ClassifierFacts.
Import WrapperExtras BackendExtras Examples.
Local Open Scope Z_scope.

(** The task list that [convert] builds. *)
Lemma convert_tasks (sender channel : str) (b : bool) (t ds p c : value)
    (d : dict) (v : value) :
  convert sender channel b t ds p c = VDict d ->
  lookup (lit "tasks") d = Some v ->
  b = true /\
  v = VList [ VDict [ (lit "title", t); (lit "description", ds);
                      (lit "priority", p); (lit "assignee", VStr sender);
                      (lit "estimated_time", VStr (lit "Not specified")) ] ].
Proof.
  unfold convert. destruct b; intros E; inversion E; subst d; cbn;
    intros L; inversion L; split; reflexivity.
Qed.

Lemma simple_priority_allowed (list_of_set : list str -> list str)
    (today : datetime) (message : str) (a : Simple.Analysis)
    (d : Simple.TaskDetails) :
  Simple.analyze_message list_of_set today message = Return a ->
  Simple.task_details a = Some d ->
  In (Simple.priority d) Llama.allowed_priorities /\
  Simple.description d = message.
Proof.
  intros H D.
  destruct (analyze_message_shape list_of_set today message a H)
    as [(_ & _ & _ & d' & D' & E)|(_ & _ & _ & D')]; [|congruence].
  rewrite D in D'. inversion D'; subst d'.
  destruct (extract_task_details_fields list_of_set today message d E)
    as (_ & Ds & P).
  split; trivial. rewrite P.
  destruct (make_priority_cases message) as [->|[->| ->]]; simpl; auto.
Qed.

(** The tasks of an analysis of a local strategy: one dictionary of five
    entries, with a text as title and an allowed priority. *)
Lemma local_tasks
    (list_of_set : list str -> list str)
    (float_of_str : str -> option PyFloat.float)
    (repr : value -> str) (json_loads : str -> result value)
    (llm openai : str -> result str)
    (self : Strategy) (today : datetime) (message sender channel : str)
    (d : dict) (v : value) :
  use_openai self = false ->
  _ai_analyze list_of_set float_of_str repr json_loads llm openai self today
    message sender channel = VDict d ->
  lookup (lit "tasks") d = Some v ->
  exists title ds p,
    In p Llama.allowed_priorities /\
    (use_llama self <> Some true -> ds = message) /\
    v = VList [ VDict [ (lit "title", VStr title);
                        (lit "description", VStr ds);
                        (lit "priority", VStr p);
                        (lit "assignee", VStr sender);
                        (lit "estimated_time", VStr (lit "Not specified")) ] ].
Proof.
  intros U. unfold _ai_analyze. rewrite U.
  assert (S : forall r,
            Simple.analyze_message list_of_set today message = Return r ->
            convert_simple sender channel r = VDict d ->
            lookup (lit "tasks") d = Some v ->
            exists title ds p,
              In p Llama.allowed_priorities /\ ds = message /\
              v = VList [ VDict [ (lit "title", VStr title);
                        (lit "description", VStr ds);
                        (lit "priority", VStr p);
                        (lit "assignee", VStr sender);
                        (lit "estimated_time", VStr (lit "Not specified")) ] ]).
  { intros r A. unfold convert_simple.
    destruct (Simple.task_details r) as [d0|] eqn:D; intros E L;
      destruct (convert_tasks _ _ _ _ _ _ _ _ _ E L) as [B ->];
      [|discriminate B].
    destruct (simple_priority_allowed list_of_set today message r d0 A D)
      as [P Ds].
    exists (Simple.title d0), (Simple.description d0), (Simple.priority d0).
    repeat split; trivial. }
  destruct (use_llama self) as [[|]|].
  - unfold convert_llama.
    destruct (Llama.task_details _) as [d0|] eqn:D; intros E L;
      destruct (convert_tasks _ _ _ _ _ _ _ _ _ E L) as [B ->];
      [|discriminate B].
    destruct (analyze_message_details float_of_str repr json_loads llm today
                message d0 D) as (_ & s & P & I).
    rewrite P. exists (Llama.title d0), (Llama.description d0), s.
    split; [exact I|]. split; [intros N; now elim N|reflexivity].
  - destruct (Simple.analyze_message list_of_set today message) as [r|e] eqn:A.
    + intros E L. destruct (S r eq_refl E L) as (t & ds & p & I & Ds & ->).
      exists t, ds, p. repeat split; trivial.
    + unfold error_result. intros E. inversion E; subst d. discriminate.
  - destruct (Simple.analyze_message list_of_set today message) as [r|e] eqn:A.
    + intros E L. destruct (S r eq_refl E L) as (t & ds & p & I & Ds & ->).
      exists t, ds, p. repeat split; trivial.
    + unfold error_result. intros E. inversion E; subst d. discriminate.
Qed.

(** X18. From the analysis to the request, without an OpenAI key.  Every
    task of an analysis that the wrapper returns, once the bot has set
    its [sender] and [channel], gives a Todoist request body: the title
    as content, the description (the message itself under the rule-based
    strategy), a priority number 1, 2 or 3 and never 4, and the due
    string "today".  The due date that the wrapper extracts is stored on
    the analysis and not on the task, so it does not reach the request:
    the due string is "today" also when the analysis has a [due_date]. *)
Theorem local_task_request
    (list_of_set : list str -> list str)
    (float_of_str : str -> option PyFloat.float)
    (repr : value -> str) (json_loads : str -> result value)
    (llm openai : str -> result str)
    (self : Strategy) (today : datetime) (message sender channel : str)
    (a : dict) (tasks : list value) :
  use_openai self = false ->
  analyze_message list_of_set float_of_str repr json_loads llm openai self
    today message sender channel = Return (VDict a) ->
  lookup (lit "tasks") a = Some (VList tasks) ->
  exists task title ds n,
    tasks = [VDict task] /\
    todoist_task
      (VDict (dict_set (lit "channel") (VStr channel)
                (dict_set (lit "sender") (VStr sender) task)))
    = Return (VDict [ (lit "content", VStr title);
                      (lit "description", VStr ds);
                      (lit "priority", VInt n);
                      (lit "due_string", VStr (lit "today")) ]) /\
    1 <= n <= 3 /\
    (use_llama self <> Some true -> ds = message).
Proof.
  intros U. unfold analyze_message.
  destruct (_might_contain_task message); cbn [negb];
    [|intros E; apply Return_inj in E; inversion E; subst a; discriminate].
  destruct (ai_analyze_local_dict list_of_set float_of_str repr json_loads
              llm openai self today message sender channel U)
    as (d & b & A & _).
  pose proof (local_tasks list_of_set float_of_str repr json_loads llm openai
                self today message sender channel d) as T.
  rewrite A in *. specialize (fun v => T v U eq_refl).
  assert (K : lookup (lit "tasks") d = Some (VList tasks) ->
              exists task title ds n,
                tasks = [VDict task] /\
                todoist_task
                  (VDict (dict_set (lit "channel") (VStr channel)
                            (dict_set (lit "sender") (VStr sender) task)))
                = Return (VDict [ (lit "content", VStr title);
                                  (lit "description", VStr ds);
                                  (lit "priority", VInt n);
                                  (lit "due_string", VStr (lit "today")) ]) /\
                1 <= n <= 3 /\
                (use_llama self <> Some true -> ds = message)).
  { intros L. destruct (T _ L) as (title & ds & p & I & Ds & E).
    inversion E; subst tasks. clear E.
    destruct I as [<-|[<-|[<-|[]]]]; eexists; exists title, ds.
    - exists 1. split; [reflexivity|]. split; [reflexivity|]. split; [lia|trivial].
    - exists 2. split; [reflexivity|]. split; [reflexivity|]. split; [lia|trivial].
    - exists 3. split; [reflexivity|]. split; [reflexivity|]. split; [lia|trivial]. }
  destruct (_extract_date today message) as [[s|]|e]; cbn [bind];
    [|intros E; apply Return_inj in E; inversion E; subst a; exact K
     |discriminate].
  destruct (nonempty s); cbn [set_due_date]; intros E; apply Return_inj in E;
    inversion E; subst a; [|exact K].
  rewrite lookup_dict_set_other by (intros Q; discriminate Q). exact K.
Qed.

Lemma local_task_request_witness :
  exists a task title n,
    analyze_message set_order no_number repr_small demo_json_loads
      unreachable unreachable (init local_config (Raise no_attribute))
      monday_morning (lit "Please send the report tomorrow")
      (lit "U1") (lit "general") = Return (VDict a) /\
    lookup (lit "due_date") a = Some (VStr (lit "2024-03-12")) /\
    todoist_task
      (VDict (dict_set (lit "channel") (VStr (lit "general"))
                (dict_set (lit "sender") (VStr (lit "U1")) task)))
    = Return (VDict [ (lit "content", VStr title);
                      (lit "description",
                       VStr (lit "Please send the report tomorrow"));
                      (lit "priority", VInt n);
                      (lit "due_string", VStr (lit "today")) ]) /\
    1 <= n <= 3.
Proof.
  let v := eval vm_compute in
    (analyze_message set_order no_number repr_small demo_json_loads
       unreachable unreachable (init local_config (Raise no_attribute))
       monday_morning (lit "Please send the report tomorrow")
       (lit "U1") (lit "general")) in
  match v with
  | Return (VDict ?a) =>
      let ts := eval vm_compute in (lookup (lit "tasks") a) in
      match ts with
      | Some (VList ?tasks) =>
          assert (E : analyze_message set_order no_number repr_small
                        demo_json_loads unreachable unreachable
                        (init local_config (Raise no_attribute))
                        monday_morning
                        (lit "Please send the report tomorrow")
                        (lit "U1") (lit "general") = Return (VDict a))
            by (vm_compute; reflexivity);
          assert (L : lookup (lit "tasks") a = Some (VList tasks))
            by (vm_compute; reflexivity);
          destruct (local_task_request set_order no_number repr_small
                      demo_json_loads unreachable unreachable
                      (init local_config (Raise no_attribute)) monday_morning
                      (lit "Please send the report tomorrow")
                      (lit "U1") (lit "general") a tasks eq_refl E L)
            as (task & title & ds & n & _ & R & B & Dm);
          exists a, task, title, n
      end
  end.
  rewrite (Dm ltac:(discriminate)) in R.
  split; [exact E|]. split; [vm_compute; reflexivity|]. split; [exact R|exact B].
Defined.

(** X19. Which backend the configuration selects, and which ones are
    then never consulted.  The OpenAI strategy is selected exactly when
    the key is set and is not the placeholder "your-openai-api-key"; the
    result is then the parsed reply, or the error dictionary, and does not
    depend on the local classifiers, the clock or the text generator.
    Otherwise the OpenAI client is never called.  When in addition the
    simple analyzer is configured or the construction of the Llama
    analyzer failed, the text generator is never called either: the
    result is that of the rule-based classifier. *)
Theorem strategy_isolation
    (config : Config) (llama_init : result unit)
    (json_loads : str -> result value) (openai : str -> result str)
    (list_of_set : list str -> list str)
    (float_of_str : str -> option PyFloat.float)
    (repr : value -> str) (llm : str -> result str)
    (today : datetime) (message sender channel : str) :
  let self := init config llama_init in
  let key := openai_api_key config in
  (use_openai self = true <->
   key <> [] /\ key <> lit "your-openai-api-key") /\
  (use_openai self = true ->
   forall list_of_set' float_of_str' repr' llm' today',
     _ai_analyze list_of_set float_of_str repr json_loads llm openai self
       today message sender channel
     = _ai_analyze list_of_set' float_of_str' repr' json_loads llm' openai
         self today' message sender channel /\
     _ai_analyze list_of_set float_of_str repr json_loads llm openai self
       today message sender channel
     = match
         content <- openai (openai_prompt message sender channel) ;;
         json_loads content
       with
       | Return v => v
       | Raise e => error_result e
       end) /\
  (use_openai self = false ->
   forall openai',
     _ai_analyze list_of_set float_of_str repr json_loads llm openai self
       today message sender channel
     = _ai_analyze list_of_set float_of_str repr json_loads llm openai' self
         today message sender channel) /\
  (use_openai self = false ->
   use_simple_analyzer config = true \/ (exists e, llama_init = Raise e) ->
   forall float_of_str' repr' json_loads' llm' openai',
     _ai_analyze list_of_set float_of_str repr json_loads llm openai self
       today message sender channel
     = _ai_analyze list_of_set float_of_str' repr' json_loads' llm' openai'
         self today message sender channel /\
     _ai_analyze list_of_set float_of_str repr json_loads llm openai self
       today message sender channel
     = match Simple.analyze_message list_of_set today message with
       | Return r => convert_simple sender channel r
       | Raise e => error_result e
       end).
Proof.
  intros self key. subst self. unfold init. fold key.
  assert (K : (nonempty key
               && negb (str_eqb key (lit "your-openai-api-key")))%bool = true
              <-> key <> [] /\ key <> lit "your-openai-api-key").
  { rewrite andb_true_iff, negb_true_iff. split.
    - intros [N P]. split.
      + intros Q. rewrite Q in N. discriminate.
      + intros Q. apply str_eqb_true in Q. rewrite Q in P. discriminate.
    - intros [N P]. split.
      + destruct key; [now elim N|reflexivity].
      + destruct (str_eqb key (lit "your-openai-api-key")) eqn:Q; trivial.
        apply str_eqb_true in Q. contradiction. }
  cbv zeta.
  destruct (nonempty key && negb (str_eqb key (lit "your-openai-api-key")))%bool.
  - cbn [use_openai]. split; [exact K|].
    split; [|split; discriminate].
    intros _ l' f' r' llm' today'. unfold _ai_analyze. cbn [use_openai].
    split; reflexivity.
  - split.
    { rewrite <- K.
      destruct (use_simple_analyzer config); [|destruct llama_init];
        cbn [use_openai]; split; discriminate. }
    split.
    { destruct (use_simple_analyzer config); [|destruct llama_init];
        cbn [use_openai]; discriminate. }
    split.
    { intros _ openai'. unfold _ai_analyze.
      destruct (use_simple_analyzer config); [|destruct llama_init];
        cbn [use_openai use_llama]; reflexivity. }
    intros _ S f' r' jl' llm' openai'. unfold _ai_analyze.
    destruct (use_simple_analyzer config).
    + cbn [use_openai use_llama]. split; reflexivity.
    + destruct S as [S|[e ->]]; [discriminate S|].
      cbn [use_openai use_llama]. split; reflexivity.
Qed.

Lemma strategy_isolation_witness :
  use_openai (init (mk_config (lit "your-openai-api-key") [] [] true)
                (Return tt)) = false.
Proof.
  destruct (strategy_isolation
              (mk_config (lit "your-openai-api-key") [] [] true) (Return tt)
              demo_json_loads unreachable set_order no_number repr_small
              unreachable monday_morning [] [] []) as ([H _] & _).
  destruct (use_openai _) eqn:U; [|reflexivity].
  destruct (H eq_refl) as [_ N]. now elim N.
Defined.

End PipelineExtras.
